(** * CoResidency: the detection core, its configuration manager and its singletons

    A shallow embedding of [source/coresidency_detector.py],
    [source/configuration_manager.py], [source/event_manager.py] and
    [source/meta/singleton.py].

    Conventions of the embedding.
    - Python dictionaries keep insertion order and the code iterates over
      them, so a dictionary is an association list with unique keys:
      [dict_set] overwrites in place or appends at the end, as [d[k] = v] does.
    - A [deque] is a mutable object.  A host keeps its deques in a [store]
      and its two dictionaries hold references into it, so that the
      assignment [normalized['Activity'] = metrics['Activity']] shares one
      object between the two dictionaries, as it does in Python.
    - Methods mutate [self] and may raise.  A method is a function from the
      state before to an outcome and the state after; the state after an
      exception is what the partial execution left behind.
    - Samples, baselines, deltas and thresholds are exact rationals ([Qc]);
      Python's floating point arithmetic is idealised to exact arithmetic.
      Counters and sample counts are unbounded integers ([Z]). *)

From Stdlib Require Import ZArith QArith Qcanon Qcabs Qround.
From stdpp Require Import base list gmap strings numbers.

Open Scope Z_scope.

(** ** Exceptions and the state-and-exception monad *)

(** The exceptions the code can raise.  [SystemExit] is what [sys.exit(1)]
    raises.  [DanglingReference] is not a Python exception: it is the
    outcome of following a reference that the store does not hold, which
    no object built by the constructor ever does (see [wf_host]). *)
Inductive exn : Type :=
  | KeyError
  | IndexError
  | ZeroDivisionError
  | TypeError
  | AttributeError
  | SystemExit
  | DanglingReference.

Global Instance exn_eq_dec : EqDecision exn.
Proof. solve_decision. Defined.

Inductive outcome (A : Type) : Type :=
  | Ok (a : A)
  | Raise (e : exn).
Arguments Ok {A} a.
Arguments Raise {A} e.

Definition M (S A : Type) : Type := S -> outcome A * S.

Definition ret {S A} (a : A) : M S A := fun s => (Ok a, s).

Definition bind {S A B} (m : M S A) (f : A -> M S B) : M S B :=
  fun s =>
    match m s with
    | (Ok a, s') => f a s'
    | (Raise e, s') => (Raise e, s')
    end.

Definition raise {S A} (e : exn) : M S A := fun s => (Raise e, s).
Definition get {S} : M S S := fun s => (Ok s, s).
Definition modify {S} (f : S -> S) : M S unit := fun s => (Ok tt, f s).

(** [try: m except KeyError: h] *)
Definition except_KeyError {S A} (m : M S A) (h : M S A) : M S A :=
  fun s =>
    match m s with
    | (Raise KeyError, s') => h s'
    | r => r
    end.

Declare Scope py_scope.
Delimit Scope py_scope with py.
Notation "x <- m ;; k" := (bind m (fun x => k))
  (at level 100, m at next level, right associativity) : py_scope.
Notation "m ;;; k" := (bind m (fun _ => k))
  (at level 100, right associativity) : py_scope.
Open Scope py_scope.

(** [for x in l: body x] *)
Fixpoint for_each {S X} (l : list X) (body : X -> M S unit) : M S unit :=
  match l with
  | [] => ret tt
  | x :: l' => body x ;;; for_each l' body
  end.

(** A [for] loop that threads a local variable. *)
Fixpoint for_fold {S X A} (l : list X) (body : A -> X -> M S A) (a : A) : M S A :=
  match l with
  | [] => ret a
  | x :: l' => a' <- body a x ;; for_fold l' body a'
  end.

(** ** Python dictionaries *)

Section Dict.
Context {V : Type}.

Fixpoint dict_get (k : string) (d : list (string * V)) : option V :=
  match d with
  | [] => None
  | (k', v) :: d' => if decide (k = k') then Some v else dict_get k d'
  end.

Fixpoint dict_set (k : string) (v : V) (d : list (string * V)) : list (string * V) :=
  match d with
  | [] => [(k, v)]
  | (k', v') :: d' =>
      if decide (k = k') then (k, v) :: d' else (k', v') :: dict_set k v d'
  end.

Definition dict_keys (d : list (string * V)) : list string := map fst d.

Definition dict_mem (k : string) (d : list (string * V)) : bool :=
  bool_decide (k ∈ dict_keys d).

(** [d[k]], raising [KeyError] when the key is missing *)
Definition getitem {S} (k : string) (d : list (string * V)) : M S V :=
  match dict_get k d with
  | Some v => ret v
  | None => raise KeyError
  end.
End Dict.

(** ** Numbers *)

Definition qz (z : Z) : Qc := Q2Qc (inject_Z z).

(** Python's [sum] over a deque *)
Definition py_sum (d : list Qc) : Qc := foldl Qcplus (Q2Qc 0) d.

(** Python's [round] with one argument: to the nearest integer, ties to the
    even one. *)
Definition py_round (q : Qc) : Z :=
  let f := Qfloor q in
  match (q - qz f ?= Q2Qc (1 # 2))%Qc with
  | Lt => f
  | Gt => f + 1
  | Eq => if Z.even f then f else f + 1
  end.

(** ** [CoResidencyDetector.HostMetrics] *)

Record HostMetrics : Type := mkHostMetrics {
  store : list (list Qc);
  metrics : list (string * nat);
  normalized_metrics : list (string * nat);
  max_samples : Z;
  current_samples : Z;
  activity_threshold : Z;
  inactivity_threshold : Z;
  pref_normalized : bool;
  deltas : list (string * Qc);
  active : bool
}.

Definition set_store (f : list (list Qc) -> list (list Qc)) (hm : HostMetrics) :=
  mkHostMetrics (f (store hm)) (metrics hm) (normalized_metrics hm) (max_samples hm)
    (current_samples hm) (activity_threshold hm) (inactivity_threshold hm)
    (pref_normalized hm) (deltas hm) (active hm).
Definition set_metrics (f : list (string * nat) -> list (string * nat)) (hm : HostMetrics) :=
  mkHostMetrics (store hm) (f (metrics hm)) (normalized_metrics hm) (max_samples hm)
    (current_samples hm) (activity_threshold hm) (inactivity_threshold hm)
    (pref_normalized hm) (deltas hm) (active hm).
Definition set_normalized_metrics (f : list (string * nat) -> list (string * nat))
    (hm : HostMetrics) :=
  mkHostMetrics (store hm) (metrics hm) (f (normalized_metrics hm)) (max_samples hm)
    (current_samples hm) (activity_threshold hm) (inactivity_threshold hm)
    (pref_normalized hm) (deltas hm) (active hm).
Definition set_max_samples (n : Z) (hm : HostMetrics) :=
  mkHostMetrics (store hm) (metrics hm) (normalized_metrics hm) n
    (current_samples hm) (activity_threshold hm) (inactivity_threshold hm)
    (pref_normalized hm) (deltas hm) (active hm).
Definition set_current_samples (n : Z) (hm : HostMetrics) :=
  mkHostMetrics (store hm) (metrics hm) (normalized_metrics hm) (max_samples hm)
    n (activity_threshold hm) (inactivity_threshold hm)
    (pref_normalized hm) (deltas hm) (active hm).
Definition set_activity_threshold (n : Z) (hm : HostMetrics) :=
  mkHostMetrics (store hm) (metrics hm) (normalized_metrics hm) (max_samples hm)
    (current_samples hm) n (inactivity_threshold hm)
    (pref_normalized hm) (deltas hm) (active hm).
Definition set_inactivity_threshold (n : Z) (hm : HostMetrics) :=
  mkHostMetrics (store hm) (metrics hm) (normalized_metrics hm) (max_samples hm)
    (current_samples hm) (activity_threshold hm) n
    (pref_normalized hm) (deltas hm) (active hm).
Definition set_pref_normalized (b : bool) (hm : HostMetrics) :=
  mkHostMetrics (store hm) (metrics hm) (normalized_metrics hm) (max_samples hm)
    (current_samples hm) (activity_threshold hm) (inactivity_threshold hm)
    b (deltas hm) (active hm).
Definition set_deltas (f : list (string * Qc) -> list (string * Qc)) (hm : HostMetrics) :=
  mkHostMetrics (store hm) (metrics hm) (normalized_metrics hm) (max_samples hm)
    (current_samples hm) (activity_threshold hm) (inactivity_threshold hm)
    (pref_normalized hm) (f (deltas hm)) (active hm).
Definition set_active (b : bool) (hm : HostMetrics) :=
  mkHostMetrics (store hm) (metrics hm) (normalized_metrics hm) (max_samples hm)
    (current_samples hm) (activity_threshold hm) (inactivity_threshold hm)
    (pref_normalized hm) (deltas hm) b.

(** *** Deque objects in the host's store *)

(** [deque()]: a new, empty object; its reference is returned. *)
Definition deque_new : M HostMetrics nat :=
  fun hm => (Ok (length (store hm)), set_store (fun st => st ++ [[]]) hm).

(** The contents of the deque behind a reference. *)
Definition deque_read (r : nat) : M HostMetrics (list Qc) :=
  fun hm =>
    match store hm !! r with
    | Some d => (Ok d, hm)
    | None => (Raise DanglingReference, hm)
    end.

(** [d.append(v)] *)
Definition deque_append (r : nat) (v : Qc) : M HostMetrics unit :=
  d <- deque_read r ;; modify (set_store (fun st => <[r := d ++ [v]]> st)).

(** [d.popleft()], raising [IndexError] on an empty deque *)
Definition deque_popleft (r : nat) : M HostMetrics Qc :=
  d <- deque_read r ;;
  match d with
  | [] => raise IndexError
  | x :: d' => modify (set_store (fun st => <[r := d']> st)) ;;; ret x
  end.

(** [d[-i]] for [i >= 1], raising [IndexError] when the deque is shorter *)
Definition deque_from_end (r : nat) (i : nat) : M HostMetrics Qc :=
  d <- deque_read r ;;
  match rev d !! (i - 1)%nat with
  | Some x => ret x
  | None => raise IndexError
  end.

(** [self.__metrics[key]] and [self.__normalized_metrics[key]] *)
Definition metrics_ref (key : string) : M HostMetrics nat :=
  hm <- get ;; getitem key (metrics hm).
Definition normalized_ref (key : string) : M HostMetrics nat :=
  hm <- get ;; getitem key (normalized_metrics hm).

(** *** The activity bit

    [if sum(self.__metrics['Activity']) > self.__activity_threshold: ...
     elif sum(self.__metrics['Activity']) < self.__inactivity_threshold: ...]
    The sum is read once here; the two reads of the source see the same deque. *)
Definition adjust_activity : M HostMetrics unit :=
  r <- metrics_ref "Activity" ;;
  d <- deque_read r ;;
  hm <- get ;;
  if bool_decide (qz (activity_threshold hm) < py_sum d)%Qc then
    modify (set_active true)
  else if bool_decide (py_sum d < qz (inactivity_threshold hm))%Qc then
    modify (set_active false)
  else ret tt.

(** *** [HostMetrics.__init__] *)

Definition blank_HostMetrics (max_samples activity_threshold inactivity_threshold : Z)
    (pref_normalized : bool) : HostMetrics :=
  {| store := [];
     metrics := [];
     normalized_metrics := [];
     max_samples := max_samples;
     current_samples := 1;
     activity_threshold :=
       if bool_decide (0 < activity_threshold) then activity_threshold
       else max_samples - 1;
     inactivity_threshold :=
       if bool_decide (0 < inactivity_threshold) then inactivity_threshold else 1;
     pref_normalized := pref_normalized;
     deltas := [];
     active := false |}.

Definition init_body (initial_metrics : list (string * Qc)) : M HostMetrics unit :=
  (if dict_mem "Activity" initial_metrics then ret tt else raise SystemExit) ;;;
  for_each initial_metrics (fun '(key, value) =>
    r <- deque_new ;;
    modify (set_metrics (dict_set key r)) ;;;
    r <- metrics_ref key ;;
    deque_append r value ;;;
    rn <- deque_new ;;
    modify (set_normalized_metrics (dict_set key rn)) ;;;
    rn <- normalized_ref key ;;
    deque_append rn value) ;;;
  adjust_activity.

(** The constructor returns the new object, or raises. *)
Definition new_HostMetrics (initial_metrics : list (string * Qc))
    (max_samples activity_threshold inactivity_threshold : Z)
    (pref_normalized : bool) : outcome HostMetrics :=
  match init_body initial_metrics
          (blank_HostMetrics max_samples activity_threshold inactivity_threshold
             pref_normalized) with
  | (Ok _, hm) => Ok hm
  | (Raise e, _) => Raise e
  end.

(** *** [HostMetrics.record_sample] *)

(** The body of the first loop: the oldest entries are dropped. *)
Definition drop_oldest (item : string * Qc) : M HostMetrics unit :=
  let '(key, _) := item in
  r <- metrics_ref key ;;
  deque_popleft r ;;;
  rn <- normalized_ref key ;;
  deque_popleft rn ;;;
  ret tt.

(** The body of the second loop: the value is appended to the raw deque and
    the difference of the last two raw entries to the normalized one.  The
    deque to append to is looked up before the difference is computed. *)
Definition append_sample (item : string * Qc) : M HostMetrics unit :=
  let '(key, value) := item in
  r <- metrics_ref key ;;
  deque_append r value ;;;
  rn <- normalized_ref key ;;
  r1 <- metrics_ref key ;;
  last <- deque_from_end r1 1 ;;
  r2 <- metrics_ref key ;;
  before_last <- deque_from_end r2 2 ;;
  deque_append rn (last - before_last)%Qc.

Definition record_sample (sample_metrics : list (string * Qc)) : M HostMetrics unit :=
  hm <- get ;;
  (if bool_decide (current_samples hm = max_samples hm) then
     for_each sample_metrics drop_oldest
   else
     modify (set_current_samples (current_samples hm + 1))) ;;;
  for_each sample_metrics append_sample ;;;
  (* Activity metric is by definition normalized. *)
  r <- metrics_ref "Activity" ;;
  modify (set_normalized_metrics (dict_set "Activity" r)) ;;;
  adjust_activity.

(** *** [HostMetrics.get_metrics] *)

(** [metric_report[key] = round(sum(collection[key]) / self.__current_samples)] *)
Definition report_metric (collection : list (string * nat)) (current_samples : Z)
    (metric_report : list (string * Z)) (key : string) :
    M HostMetrics (list (string * Z)) :=
  r <- getitem key collection ;;
  d <- deque_read r ;;
  if bool_decide (current_samples = 0) then raise ZeroDivisionError
  else ret (dict_set key (py_round (py_sum d / qz current_samples)%Qc) metric_report).

Definition get_metrics : M HostMetrics (list (string * Z)) :=
  hm <- get ;;
  let collection :=
    if negb (pref_normalized hm) then metrics hm else normalized_metrics hm in
  for_fold (dict_keys (metrics hm)) (report_metric collection (current_samples hm)) [].

Definition get_deltas (hm : HostMetrics) : list (string * Qc) := deltas hm.
Definition is_active (hm : HostMetrics) : bool := active hm.

(** *** [HostMetrics.__adjust_sample_size] and [HostMetrics.reconfigure] *)

Definition adjust_sample_size (new_max_samples : Z) : M HostMetrics unit :=
  hm <- get ;;
  (if bool_decide (new_max_samples < max_samples hm) then
     for_each (seq 0 (Z.to_nat (max_samples hm - new_max_samples))) (fun _ =>
       for_each (dict_keys (metrics hm)) (fun key =>
         r <- metrics_ref key ;;
         deque_popleft r ;;;
         rn <- normalized_ref key ;;
         deque_popleft rn ;;;
         ret tt))
   else ret tt) ;;;
  modify (set_max_samples new_max_samples).

Definition reconfigure (new_max_samples new_activity_threshold
    new_inactivity_threshold : Z) (new_pref_normalized : bool) : M HostMetrics unit :=
  modify (set_activity_threshold new_activity_threshold) ;;;
  modify (set_inactivity_threshold new_inactivity_threshold) ;;;
  modify (set_pref_normalized new_pref_normalized) ;;;
  adjust_sample_size new_max_samples.

(** *** [HostMetrics.update_deltas] *)

Definition update_deltas (global_metrics : list (string * Qc)) : M HostMetrics unit :=
  metrics <- get_metrics ;;
  for_each (dict_keys metrics) (fun key =>
    m <- getitem key metrics ;;
    g <- getitem key global_metrics ;;
    if bool_decide (g = Q2Qc 0) then raise ZeroDivisionError
    else modify (set_deltas (dict_set key (Qcabs (1 - qz m / g)%Qc)))).

(** ** The configuration view used by the detector *)

Record MitigationConfiguration : Type := mkMitigation {
  FlagsBeforeActivation : Z;
  DeflagsBeforeDeactivation : Z
}.

Record EventNamesConfiguration : Type := mkEventNames {
  ConfigurationReloaded : string;
  SampleEvent : string;
  StartMitigation : string;
  StopMitigation : string
}.

Record Configuration : Type := mkConfiguration {
  Mitigation : option MitigationConfiguration;
  Thresholds : list (string * Qc);
  MaxSamples : Z;
  SamplesBeforeInclusion : Z;
  SamplesBeforeExclusion : Z;
  NormalizeSamples : bool;
  EventNames : EventNamesConfiguration
}.

(** ** [CoResidencyDetector] *)

(** The fields of the object, and [emitted]: the calls of
    [self.__event_manager.emit(topic, host_id)] made so far, oldest first.
    What the event manager does with a call (its subscribers, and the lock
    that [EventManager.emit] takes) is not part of this state. *)
Record Detector : Type := mkDetector {
  configuration : Configuration;
  host_metrics : list (string * HostMetrics);
  host_flags : list (string * Z);
  host_deflags : list (string * Z);
  global_metrics : list (string * Qc);
  mitigated_host_ids : gset string;
  emitted : list (string * string)
}.

Definition set_configuration (c : Configuration) (s : Detector) :=
  mkDetector c (host_metrics s) (host_flags s) (host_deflags s) (global_metrics s)
    (mitigated_host_ids s) (emitted s).
Definition set_host_metrics
    (f : list (string * HostMetrics) -> list (string * HostMetrics)) (s : Detector) :=
  mkDetector (configuration s) (f (host_metrics s)) (host_flags s) (host_deflags s)
    (global_metrics s) (mitigated_host_ids s) (emitted s).
Definition set_host_flags (f : list (string * Z) -> list (string * Z)) (s : Detector) :=
  mkDetector (configuration s) (host_metrics s) (f (host_flags s)) (host_deflags s)
    (global_metrics s) (mitigated_host_ids s) (emitted s).
Definition set_host_deflags (f : list (string * Z) -> list (string * Z)) (s : Detector) :=
  mkDetector (configuration s) (host_metrics s) (host_flags s) (f (host_deflags s))
    (global_metrics s) (mitigated_host_ids s) (emitted s).
Definition set_global_metrics (f : list (string * Qc) -> list (string * Qc)) (s : Detector) :=
  mkDetector (configuration s) (host_metrics s) (host_flags s) (host_deflags s)
    (f (global_metrics s)) (mitigated_host_ids s) (emitted s).
Definition set_mitigated_host_ids (f : gset string -> gset string) (s : Detector) :=
  mkDetector (configuration s) (host_metrics s) (host_flags s) (host_deflags s)
    (global_metrics s) (f (mitigated_host_ids s)) (emitted s).
Definition emit (topic host_id : string) : M Detector unit :=
  modify (fun s =>
    mkDetector (configuration s) (host_metrics s) (host_flags s) (host_deflags s)
      (global_metrics s) (mitigated_host_ids s) (emitted s ++ [(topic, host_id)])).

(** The state after [CoResidencyDetector.__init__]. *)
Definition new_Detector (configuration : Configuration) : Detector :=
  {| configuration := configuration;
     host_metrics := [];
     host_flags := [];
     host_deflags := [];
     global_metrics := [];
     mitigated_host_ids := ∅;
     emitted := [] |}.

(** [self.host_metrics[host_id].method(...)]: the method runs on the object
    in the dictionary and whatever it changed stays changed, also when it
    raises. *)
Definition on_host {A} (host_id : string) (method : M HostMetrics A) : M Detector A :=
  fun s =>
    match dict_get host_id (host_metrics s) with
    | None => (Raise KeyError, s)
    | Some hm =>
        let '(r, hm') := method hm in
        (r, set_host_metrics (dict_set host_id hm') s)
    end.

(** *** [CoResidencyDetector.__update_config] *)

Definition update_config (new_configuration : Configuration) : M Detector unit :=
  modify (set_configuration new_configuration) ;;;
  s <- get ;;
  for_each (dict_keys (host_metrics s)) (fun key =>
    s <- get ;;
    on_host key (reconfigure (MaxSamples (configuration s))
                   (SamplesBeforeInclusion (configuration s))
                   (SamplesBeforeExclusion (configuration s))
                   (NormalizeSamples (configuration s)))).

(** *** [CoResidencyDetector.__update_global_metrics] *)

(** [try: self.global_metrics[key] += value
     except KeyError: self.global_metrics[key] = value] *)
Definition accumulate (key : string) (value : Z) : M Detector unit :=
  s <- get ;;
  match dict_get key (global_metrics s) with
  | Some g => modify (set_global_metrics (dict_set key (g + qz value)%Qc))
  | None => modify (set_global_metrics (dict_set key (qz value)))
  end.

(** The body of the loop over the hosts; [benign_hosts] is the count so far. *)
Definition include_host (benign_hosts : Z) (host_id : string) : M Detector Z :=
  s <- get ;;
  (* As per the design, skip the inclusion of suspect hosts or inactive hosts. *)
  if bool_decide (host_id ∈ mitigated_host_ids s) then ret benign_hosts
  else
    hm <- getitem host_id (host_metrics s) ;;
    if negb (is_active hm) then ret benign_hosts
    else
      metrics <- on_host host_id get_metrics ;;
      for_each metrics (fun '(key, value) => accumulate key value) ;;;
      ret (benign_hosts + 1).

(** [self.global_metrics[key] /= benign_hosts] *)
Definition divide_metric (benign_hosts : Z) (key : string) : M Detector unit :=
  s <- get ;;
  g <- getitem key (global_metrics s) ;;
  modify (set_global_metrics (dict_set key (g / qz benign_hosts)%Qc)).

Definition update_global_metrics : M Detector unit :=
  modify (set_global_metrics (fun _ => [])) ;;;
  s <- get ;;
  benign_hosts <- for_fold (dict_keys (host_metrics s)) include_host 0 ;;
  if bool_decide (benign_hosts <> 0) then
    s <- get ;;
    for_each (dict_keys (global_metrics s)) (divide_metric benign_hosts)
  else ret tt.

(** *** [CoResidencyDetector.__update_host_deltas] *)

Definition update_host_deltas : M Detector unit :=
  s <- get ;;
  for_each (dict_keys (host_metrics s)) (fun host_id =>
    s <- get ;;
    hm <- getitem host_id (host_metrics s) ;;
    if negb (is_active hm) then ret tt
    else on_host host_id (update_deltas (global_metrics s))).

(** *** [CoResidencyDetector.__update_host_flags] *)

(** The inner loop: [trigger_flag] starts at 1 and the first delta that
    does not exceed its threshold sets it to 0 and leaves the loop. *)
Fixpoint trigger_flag (deltas : list (string * Qc)) (keys : list string) : M Detector bool :=
  match keys with
  | [] => ret true
  | key :: keys' =>
      s <- get ;;
      d <- getitem key deltas ;;
      t <- getitem key (Thresholds (configuration s)) ;;
      if bool_decide (d <= t)%Qc then ret false else trigger_flag deltas keys'
  end.

(** [try: counter[host_id] += 1  except KeyError: counter[host_id] = 1] *)
Definition increment (host_id : string) (counter : list (string * Z)) : list (string * Z) :=
  match dict_get host_id counter with
  | Some n => dict_set host_id (n + 1) counter
  | None => dict_set host_id 1 counter
  end.

Definition flag_host (host_id : string) : M Detector unit :=
  s <- get ;;
  hm <- getitem host_id (host_metrics s) ;;
  (* Skip inactive hosts from flagging *)
  if negb (is_active hm) then ret tt
  else
    let deltas := get_deltas hm in
    trigger <- trigger_flag deltas (dict_keys deltas) ;;
    if trigger then
      if bool_decide (host_id ∈ mitigated_host_ids s) then
        modify (set_host_deflags (dict_set host_id 0))
      else modify (set_host_flags (increment host_id))
    else if bool_decide (host_id ∈ mitigated_host_ids s) then
      modify (set_host_deflags (increment host_id))
    else ret tt.

Definition update_host_flags : M Detector unit :=
  s <- get ;;
  for_each (dict_keys (host_metrics s)) flag_host.

(** *** [CoResidencyDetector.__update_metrics] *)

(** Phase (a) for one host of the batch:
    [try: self.host_metrics[host_id].record_sample(metrics[host_id])
     except KeyError: self.host_metrics[host_id] = HostMetrics(...)] *)
Definition record_host (host_id : string) (sample : list (string * Qc)) : M Detector unit :=
  except_KeyError
    (on_host host_id (record_sample sample))
    (s <- get ;;
     match new_HostMetrics sample
             (MaxSamples (configuration s))
             (SamplesBeforeInclusion (configuration s))
             (SamplesBeforeExclusion (configuration s))
             (NormalizeSamples (configuration s)) with
     | Ok hm => modify (set_host_metrics (dict_set host_id hm))
     | Raise e => raise e
     end).

(** Start / stop mitigation measures. *)
Definition dispatch_mitigation (m : MitigationConfiguration) : M Detector unit :=
  s <- get ;;
  for_each (dict_keys (host_flags s)) (fun host_id =>
    s <- get ;;
    value <- getitem host_id (host_flags s) ;;
    if bool_decide (FlagsBeforeActivation m < value) then
      modify (set_mitigated_host_ids (fun ids => ids ∪ {[host_id]})) ;;;
      emit (StartMitigation (EventNames (configuration s))) host_id ;;;
      modify (set_host_flags (dict_set host_id 0))
    else ret tt) ;;;
  s <- get ;;
  for_each (dict_keys (host_deflags s)) (fun host_id =>
    s <- get ;;
    value <- getitem host_id (host_deflags s) ;;
    if bool_decide (DeflagsBeforeDeactivation m < value) then
      modify (set_mitigated_host_ids (fun ids => ids ∖ {[host_id]})) ;;;
      emit (StopMitigation (EventNames (configuration s))) host_id ;;;
      modify (set_host_deflags (dict_set host_id 0))
    else ret tt).

(** Phases (b) to (e) of a batch. *)
Definition after_recording : M Detector unit :=
  update_global_metrics ;;;
  update_host_deltas ;;;
  update_host_flags ;;;
  s <- get ;;
  match Mitigation (configuration s) with
  | None => ret tt
  | Some m => dispatch_mitigation m
  end.

(** The payload is a dictionary from host ids to samples; the loop
    [for host_id in metrics.keys(): ... metrics[host_id] ...] sees its items. *)
Definition update_metrics (metrics : list (string * list (string * Qc))) : M Detector unit :=
  for_each metrics (fun '(host_id, sample) => record_host host_id sample) ;;;
  after_recording.

(** The states the detector can be in: it is constructed, and then handles
    [SampleEvent] and [ConfigurationReloaded] events.  A handler that raises
    leaves the state it reached to the next event, except for [SystemExit],
    which ends the process. *)
Inductive reachable : Detector -> Prop :=
  | reachable_new configuration :
      reachable (new_Detector configuration)
  | reachable_sample s metrics :
      reachable s ->
      fst (update_metrics metrics s) <> Raise SystemExit ->
      reachable (snd (update_metrics metrics s))
  | reachable_reload s new_configuration :
      reachable s -> reachable (snd (update_config new_configuration s)).

(** ** [ConfigurationManager] *)

(** The values [json.load] produces for a configuration document: [None],
    booleans, numbers, strings and objects (the documents hold no arrays). *)
#[warnings="-register-all"]
Inductive json : Type :=
  | JNull
  | JBool (b : bool)
  | JNumber (q : Qc)
  | JString (s : string)
  | JObject (fields : list (string * json)).

(** What the file system and the libraries answer when the file is probed:
    the MIME type [Magic.from_file] reports, whether the opened file is
    readable, and whether [json.load] returns a value or raises
    [JSONDecodeError]. *)
Inductive load_result : Type :=
  | Loaded (document : json)
  | JSONDecodeError.

Record config_file : Type := mkConfigFile {
  mime : string;
  readable : bool;
  content : load_result
}.

(** *** [ConfigurationManager.JSONParser] *)

Record JSONParser : Type := mkJSONParser {
  loaded_json : bool;
  config : json
}.

Record ConfigurationManager : Type := mkConfigurationManager {
  config_path : string;
  mgr_configuration : list (string * json);
  mgr_emitted : list (string * list (string * json));
  mgr_log : list string
}.

Definition set_mgr_configuration (c : list (string * json)) (m : ConfigurationManager) :=
  mkConfigurationManager (config_path m) c (mgr_emitted m) (mgr_log m).
Definition log (line : string) : M ConfigurationManager unit :=
  modify (fun m =>
    mkConfigurationManager (config_path m) (mgr_configuration m) (mgr_emitted m)
      (mgr_log m ++ [line])).
Definition mgr_emit (topic : string) (payload : list (string * json)) :
    M ConfigurationManager unit :=
  modify (fun m =>
    mkConfigurationManager (config_path m) (mgr_configuration m)
      (mgr_emitted m ++ [(topic, payload)]) (mgr_log m)).

(** [JSONParser.__init__]; the parser's loggers write to the manager's log.
    Before [json.load] succeeds the object has no [__config] attribute, and
    [__getitem__] never reads it then; [JNull] stands for it. *)
Definition new_JSONParser (file : config_file) : M ConfigurationManager JSONParser :=
  if negb (bool_decide (mime file ∈ ["application/json"; "text/plain"])) then
    log "Invalid file type for configuration: %s!" ;;;
    ret (mkJSONParser false JNull)
  else if negb (readable file) then
    log "Configuration file is not readable: %s!" ;;;
    ret (mkJSONParser false JNull)
  else
    match content file with
    | Loaded document => ret (mkJSONParser true document)
    | JSONDecodeError =>
        log "Error parsing configuration file: %s!" ;;;
        log "%s at line %d column %d." ;;;
        ret (mkJSONParser false JNull)
    end.

(** [value[name]] for a string [name] *)
Definition subscript (value : json) (name : string) : M ConfigurationManager json :=
  match value with
  | JObject fields => getitem name fields
  | _ => raise TypeError
  end.

(** [JSONParser.__getitem__] *)
Definition parser_getitem (parser : JSONParser) (name : string) :
    M ConfigurationManager json :=
  if negb (loaded_json parser) then
    log "Attempt to load data from missing configuration." ;;; ret JNull
  else
    match config parser with
    | JObject fields =>
        if negb (dict_mem name fields) then
          log "Invalid configuration option: %s" ;;; ret JNull
        else subscript (config parser) name
    | JString s =>
        (* [name not in s] tests for a substring *)
        match String.index 0 name s with
        | None => log "Invalid configuration option: %s" ;;; ret JNull
        | Some _ => subscript (config parser) name
        end
    | _ => raise TypeError
    end.

(** Python's truth value of a loaded value *)
Definition truthy (value : json) : bool :=
  match value with
  | JNull => false
  | JBool b => b
  | JNumber q => negb (bool_decide (q = Q2Qc 0))
  | JString s => negb (bool_decide (s = EmptyString))
  | JObject [] => false
  | JObject (_ :: _) => true
  end.

(** The keys a [for key in value] loop visits.  Iterating a non-empty string
    visits its characters, and the loops below then subscript the string
    with a character, which raises [TypeError] like the other cases. *)
Definition iterate (value : json) : M ConfigurationManager (list string) :=
  match value with
  | JObject fields => ret (dict_keys fields)
  | JString EmptyString => ret []
  | _ => raise TypeError
  end.

(** [self.__configuration[section][key] = value] *)
Definition set_in_section (section key : string) (value : json) :
    M ConfigurationManager unit :=
  m <- get ;;
  sec <- getitem section (mgr_configuration m) ;;
  match sec with
  | JObject fields =>
      modify (set_mgr_configuration
                (dict_set section (JObject (dict_set key value fields))
                   (mgr_configuration m)))
  | _ => raise TypeError
  end.

(** *** [ConfigurationManager.__build_configuration] *)

Definition build_configuration (file : config_file) : M ConfigurationManager unit :=
  parser <- new_JSONParser file ;;
  enable <- parser_getitem parser "EnableMitigation" ;;
  mitigation <-
    (if negb (truthy enable) then ret JNull
     else
       mc <- parser_getitem parser "MitigationConfiguration" ;;
       fba <- subscript mc "FlagsBeforeActivation" ;;
       fba <- subscript fba "Value" ;;
       mc <- parser_getitem parser "MitigationConfiguration" ;;
       dbd <- subscript mc "DeflagsBeforeDeactivation" ;;
       dbd <- subscript dbd "Value" ;;
       ret (JObject [("FlagsBeforeActivation", fba);
                     ("DeflagsBeforeDeactivation", dbd)])) ;;
  modify (set_mgr_configuration
            [("Mitigation", mitigation);
             ("Thresholds", JObject []);
             ("EventNames", JObject [])]) ;;;
  (* Initialize thresholds *)
  thresholds <- parser_getitem parser "Thresholds" ;;
  keys <- iterate thresholds ;;
  for_each keys (fun key =>
    section <- parser_getitem parser "Thresholds" ;;
    entry <- subscript section key ;;
    value <- subscript entry "Value" ;;
    set_in_section "Thresholds" key value) ;;;
  (* Initialize performance configuration *)
  performance <- parser_getitem parser "Performance" ;;
  keys <- iterate performance ;;
  for_each keys (fun key =>
    section <- parser_getitem parser "Performance" ;;
    entry <- subscript section key ;;
    value <- subscript entry "Value" ;;
    m <- get ;;
    modify (set_mgr_configuration (dict_set key value (mgr_configuration m)))) ;;;
  (* Initialize event names *)
  event_names <- parser_getitem parser "EventNames" ;;
  keys <- iterate event_names ;;
  for_each keys (fun key =>
    section <- parser_getitem parser "EventNames" ;;
    entry <- subscript section key ;;
    value <- subscript entry "Value" ;;
    set_in_section "EventNames" key value).

(** *** [ConfigurationManager.on_modified]

    [src_path] is [abspath(event.src_path)] and [file] is what the probe of
    the configured file answers at that moment.  The topic is a dictionary
    key, so it is read as a string. *)
Definition on_modified (src_path : string) (file : config_file) :
    M ConfigurationManager unit :=
  m <- get ;;
  if bool_decide (src_path = config_path m) then
    log "Configuration file changed. Reloading..." ;;;
    build_configuration file ;;;
    m <- get ;;
    names <- getitem "EventNames" (mgr_configuration m) ;;
    topic <- subscript names "ConfigurationReloaded" ;;
    match topic with
    | JString t => mgr_emit t (mgr_configuration m)
    | _ => raise TypeError
    end
  else ret tt.

(** ** [SingletonMeta] and the two classes it makes singletons *)

Inductive class : Type :=
  | EventManager
  | CoResidencyDetector.

Global Instance class_eq_dec : EqDecision class.
Proof. solve_decision. Defined.

(** The objects of the two classes.  An [EventManager] holds its emitter's
    handlers, oldest first: the topic and the bound method, which is the
    reference of the detector and the method's name.  A detector holds its
    state and the reference of its event manager. *)
Inductive object : Type :=
  | EventManagerObject (handlers : list (string * (nat * string)))
  | CoResidencyDetectorObject (state : Detector) (event_manager : nat).

(** The arguments of a construction: none for [EventManager()], a
    configuration and an event manager for [CoResidencyDetector(...)]. *)
Inductive arguments : Type :=
  | NoArguments
  | DetectorArguments (configuration : Configuration) (event_manager : nat).

(** The process: [SingletonMeta._instances] and the objects. *)
Record process : Type := mkProcess {
  _instances : list (class * nat);
  objects : list object
}.

Fixpoint instance_of (cls : class) (instances : list (class * nat)) : option nat :=
  match instances with
  | [] => None
  | (c, r) :: instances' =>
      if decide (cls = c) then Some r else instance_of cls instances'
  end.

(** [self.__event_manager.on(event_name, handler)]; an object that is not
    an event manager has no method [on]. *)
Definition on (event_manager : nat) (event_name : string) (handler : nat * string) :
    M process unit :=
  p <- get ;;
  match objects p !! event_manager with
  | Some (EventManagerObject handlers) =>
      modify (fun p =>
        mkProcess (_instances p)
          (<[event_manager := EventManagerObject (handlers ++ [(event_name, handler)])]>
             (objects p)))
  | Some (CoResidencyDetectorObject _ _) => raise AttributeError
  | None => raise DanglingReference
  end.

(** [super().__call__] with the arguments of the call: the object is allocated and its
    [__init__] runs.  Arguments that do not fit the signature raise
    [TypeError]. *)
Definition construct (cls : class) (args : arguments) : M process nat :=
  p <- get ;;
  let instance := length (objects p) in
  match cls, args with
  | EventManager, NoArguments =>
      modify (fun p => mkProcess (_instances p) (objects p ++ [EventManagerObject []])) ;;;
      ret instance
  | CoResidencyDetector, DetectorArguments configuration event_manager =>
      modify (fun p =>
        mkProcess (_instances p)
          (objects p ++
             [CoResidencyDetectorObject (new_Detector configuration) event_manager])) ;;;
      on event_manager (ConfigurationReloaded (EventNames configuration))
        (instance, "__update_config") ;;;
      on event_manager (SampleEvent (EventNames configuration))
        (instance, "__update_metrics") ;;;
      ret instance
  | _, _ => raise TypeError
  end.

(** [SingletonMeta.__call__].  The second test of [cls not in cls._instances]
    under the lock sees what the first one saw when one thread runs. *)
Definition call (cls : class) (args : arguments) : M process nat :=
  p <- get ;;
  match instance_of cls (_instances p) with
  | Some instance => ret instance
  | None =>
      instance <- construct cls args ;;
      modify (fun p => mkProcess (_instances p ++ [(cls, instance)]) (objects p)) ;;;
      ret instance
  end.


(** ** Windows, invariants and the specification's formulas *)

(** The sequence [raw[m]] of a host: the contents of the deque that
    [self.__metrics[m]] refers to; likewise [normalized[m]]. *)
Definition raw_window (hm : HostMetrics) (m : string) : option (list Qc) :=
  match dict_get m (metrics hm) with
  | Some r => store hm !! r
  | None => None
  end.

Definition normalized_window (hm : HostMetrics) (m : string) : option (list Qc) :=
  match dict_get m (normalized_metrics hm) with
  | Some r => store hm !! r
  | None => None
  end.

(** What the constructor establishes and every method keeps: the two
    dictionaries have the same keys, among them [Activity]; every reference
    is in the store; two metrics never share a deque (a metric's normalized
    entry may be the metric's own raw deque); the sample count is positive. *)
Record wf_host (hm : HostMetrics) : Prop := mk_wf_host {
  wf_keys : dict_keys (normalized_metrics hm) = dict_keys (metrics hm);
  wf_nodup : NoDup (dict_keys (metrics hm));
  wf_activity : "Activity" ∈ dict_keys (metrics hm);
  wf_raw_refs : Forall (fun kr => (snd kr < length (store hm))%nat) (metrics hm);
  wf_normalized_refs :
    Forall (fun kr => (snd kr < length (store hm))%nat) (normalized_metrics hm);
  wf_raw_distinct : NoDup (map snd (metrics hm));
  wf_normalized_distinct : NoDup (map snd (normalized_metrics hm));
  wf_own : forall k r k', (k, r) ∈ metrics hm -> (k', r) ∈ normalized_metrics hm -> k = k';
  wf_current_samples : 0 < current_samples hm
}.

(** The part of [wf_host] that the constructor's loop maintains before
    [Activity] is known to be among the keys. *)
Record wf_windows (hm : HostMetrics) : Prop := mk_wf_windows {
  wfw_keys : dict_keys (normalized_metrics hm) = dict_keys (metrics hm);
  wfw_nodup : NoDup (dict_keys (metrics hm));
  wfw_raw_refs : Forall (fun kr => (snd kr < length (store hm))%nat) (metrics hm);
  wfw_normalized_refs :
    Forall (fun kr => (snd kr < length (store hm))%nat) (normalized_metrics hm);
  wfw_raw_distinct : NoDup (map snd (metrics hm));
  wfw_normalized_distinct : NoDup (map snd (normalized_metrics hm));
  wfw_own : forall k r k', (k, r) ∈ metrics hm -> (k', r) ∈ normalized_metrics hm -> k = k';
  wfw_current_samples : 0 < current_samples hm
}.

(** What one iteration of the constructor's loop does for [key] and
    [value]: two new deques, each holding the value, become the raw and the
    normalized entry of the key. *)
Definition seed (hm : HostMetrics) (kv : string * Qc) : HostMetrics :=
  set_store (fun st => st ++ [[snd kv]; [snd kv]])
    (set_normalized_metrics (dict_set (fst kv) (S (length (store hm))))
       (set_metrics (dict_set (fst kv) (length (store hm))) hm)).

(** The windows of metric [key] can take one more [record_sample]: the raw
    and the normalized deque are not empty, and hold two entries at least
    when they are one and the same deque. *)
Definition ready (hm : HostMetrics) (key : string) : Prop :=
  exists r rn d dn,
    dict_get key (metrics hm) = Some r /\
    dict_get key (normalized_metrics hm) = Some rn /\
    store hm !! r = Some d /\
    store hm !! rn = Some dn /\
    d <> [] /\ dn <> [] /\ (r = rn -> (2 <= length d)%nat).

(** The same for every metric of the host, as a check. *)
Definition windows_ready (hm : HostMetrics) : bool :=
  forallb (fun kr =>
    match dict_get (fst kr) (normalized_metrics hm) with
    | Some rn =>
        match store hm !! snd kr, store hm !! rn with
        | Some d, Some dn =>
            negb (bool_decide (d = [])) && negb (bool_decide (dn = []))
            && (if decide (snd kr = rn) then bool_decide (2 <= length d)%nat else true)
        | _, _ => false
        end
    | None => false
    end) (metrics hm).

(** [hm1] differs from [hm] in the deques of metric [key] at most. *)
Definition touches_only (hm hm1 : HostMetrics) (key : string) : Prop :=
  metrics hm1 = metrics hm /\
  normalized_metrics hm1 = normalized_metrics hm /\
  length (store hm1) = length (store hm) /\
  current_samples hm1 = current_samples hm /\
  forall r,
    dict_get key (metrics hm) <> Some r ->
    dict_get key (normalized_metrics hm) <> Some r ->
    store hm1 !! r = store hm !! r.

Record wf_detector (s : Detector) : Prop := mk_wf_detector {
  wf_hosts_nodup : NoDup (dict_keys (host_metrics s));
  wf_hosts : Forall (fun h => wf_host (snd h)) (host_metrics s)
}.

Definition keeps_wf : relation HostMetrics := fun hm hm' => wf_host hm -> wf_host hm'.

Definition keeps_wf_detector : relation Detector :=
  fun s s' => wf_detector s -> wf_detector s'.

(** [steps R m]: running [m] moves every state to an [R]-related one,
    whether it returns or raises. *)
Definition steps {S A} (R : relation S) (m : M S A) : Prop :=
  forall s, R s (snd (m s)).

(** Reading leaves the state as it is. *)
Definition unchanged {S} : relation S := fun s s' => s' = s.

(** [hm'] is [hm] up to its deltas. *)
Definition same_windows (hm hm' : HostMetrics) : Prop :=
  hm' = set_deltas (fun _ => deltas hm') hm.

(** The detector keeps its configuration, its hosts and every host's
    windows, sample count, thresholds and activity bit. *)
Definition hosts_same (s s' : Detector) : Prop :=
  configuration s' = configuration s /\
  Forall2 (fun h h' => fst h = fst h' /\ same_windows (snd h) (snd h'))
    (host_metrics s) (host_metrics s').

(** *** Phase (b) in the specification's words *)

(** [chosenSeq[m]]: the normalized sequence if [prefNormalized], the raw one
    otherwise *)
Definition chosen_seq (hm : HostMetrics) (m : string) : option (list Qc) :=
  if pref_normalized hm then normalized_window hm m else raw_window hm m.

(** [report[m] = round(sum(chosenSeq[m]) / currentSamples)], for the metrics
    of the host's first sample *)
Definition report (hm : HostMetrics) (m : string) : option Z :=
  if bool_decide (m ∈ dict_keys (metrics hm)) then
    d ← chosen_seq hm m;
    Some (py_round (py_sum d / qz (current_samples hm))%Qc)
  else None.

(** A report is added to the sum so far, which it starts when there is none. *)
Definition add_report (g : option Qc) (v : Z) : option Qc :=
  match g with
  | Some x => Some (x + qz v)%Qc
  | None => Some (qz v)
  end.

(** The benign hosts: active and not in [mitigatedHostIds] *)
Definition benign (s : Detector) : list (string * HostMetrics) :=
  filter (fun h => (fst h ∉ mitigated_host_ids s) /\ (is_active (snd h) = true))
    (host_metrics s).

(** The baseline of metric [m]: the sum of the benign hosts' reports of [m]
    divided by the number of benign hosts; no entry when no benign host
    reports [m]. *)
Definition baseline (s : Detector) (m : string) : option Qc :=
  match omap (fun h => report (snd h) m) (benign s) with
  | [] => None
  | reports =>
      Some (foldr Qcplus (Q2Qc 0) (qz <$> reports) / qz (Z.of_nat (length (benign s))))%Qc
  end.

(** *** Phase (d) in the specification's words *)










(** *** The registry of singletons *)

Definition same_instances : relation process := fun p p' => _instances p' = _instances p.

(** *** The sample count *)

(** A method keeps [MaxSamples] and keeps the sample count within it. *)
Definition keeps_bound : relation HostMetrics := fun hm hm' =>
  max_samples hm' = max_samples hm /\
  (current_samples hm <= max_samples hm -> current_samples hm' <= max_samples hm').

(** The sample count of every tracked host is within the host's
    [MaxSamples], which is the configured one. *)
Definition all_bounded (s : Detector) : Prop :=
  Forall (fun h =>
    max_samples (snd h) = MaxSamples (configuration s) /\
    current_samples (snd h) <= max_samples (snd h)) (host_metrics s).

Definition keeps_all_bounded : relation Detector := fun s s' =>
  configuration s' = configuration s /\
  (1 <= MaxSamples (configuration s) -> all_bounded s -> all_bounded s').

(** A method keeps the deques and the two dictionaries. *)
Definition same_data : relation HostMetrics := fun hm hm' =>
  store hm' = store hm /\
  metrics hm' = metrics hm /\
  normalized_metrics hm' = normalized_metrics hm.

(** *** The activity bit *)

Definition same_active : relation HostMetrics := fun hm hm' => active hm' = active hm.



(** ** Events and scenarios *)

(** The two events the detector subscribes to. *)
Inductive event : Type :=
  | OnSample (metrics : list (string * list (string * Qc)))
  | OnReload (new_configuration : Configuration).

Definition handle (e : event) : M Detector unit :=
  match e with
  | OnSample metrics => update_metrics metrics
  | OnReload new_configuration => update_config new_configuration
  end.

(** The events are handled in order; the first handler that raises ends the run. *)
Definition handle_all (events : list event) : M Detector unit := for_each events handle.

Definition topics : EventNamesConfiguration :=
  mkEventNames "ConfigurationReloaded" "SampleEvent" "StartMitigation" "StopMitigation".

(** A window of five samples and a host that stays inactive. *)
Definition quiet_configuration (max_samples : Z) : Configuration :=
  {| Mitigation := None;
     Thresholds := [("Activity", qz 0)];
     MaxSamples := max_samples;
     SamplesBeforeInclusion := 100;
     SamplesBeforeExclusion := 1;
     NormalizeSamples := false;
     EventNames := topics |}.

Definition quiet_batch : list (string * list (string * Qc)) :=
  [("A", [("Activity", qz 1)])].

(** Three batches for one host. *)
Definition three_batches : outcome unit * Detector :=
  handle_all [OnSample quiet_batch; OnSample quiet_batch; OnSample quiet_batch]
    (new_Detector (quiet_configuration 5)).

(** Five batches fill the window of five; then [MaxSamples] is lowered to three. *)
Definition filled_then_shrunk : outcome unit * Detector :=
  handle_all [OnSample quiet_batch; OnSample quiet_batch; OnSample quiet_batch;
              OnSample quiet_batch; OnSample quiet_batch;
              OnReload (quiet_configuration 3)]
    (new_Detector (quiet_configuration 5)).

(** Two active hosts that deviate from their common baseline in every metric. *)
Definition two_hosts_configuration (mitigation : option MitigationConfiguration) :
    Configuration :=
  {| Mitigation := mitigation;
     Thresholds := [("Activity", qz 0); ("Cpu", Q2Qc (1 # 10))];
     MaxSamples := 3;
     SamplesBeforeInclusion := 1;
     SamplesBeforeExclusion := 1;
     NormalizeSamples := false;
     EventNames := topics |}.

Definition two_hosts_batch : list (string * list (string * Qc)) :=
  [("A", [("Activity", qz 4); ("Cpu", qz 100)]);
   ("B", [("Activity", qz 2); ("Cpu", qz 10)])].

(** One batch, mitigation disabled: both hosts are flagged once. *)
Definition two_hosts_flagged_once : outcome unit * Detector :=
  handle_all [OnSample two_hosts_batch] (new_Detector (two_hosts_configuration None)).

(** One batch, mitigation starting at the first flag: both hosts are mitigated. *)
Definition two_hosts_mitigated : outcome unit * Detector :=
  handle_all [OnSample two_hosts_batch]
    (new_Detector (two_hosts_configuration (Some (mkMitigation 0 10)))).

(** A host is seen once, the window is then shortened by one, and the next
    sample of the host names a metric that its first sample did not have. *)
Definition seen_once_then_shrunk : outcome unit * Detector :=
  handle_all [OnSample quiet_batch; OnReload (quiet_configuration 4)]
    (new_Detector (quiet_configuration 5)).

Definition sample_with_new_metric : list (string * Qc) :=
  [("Activity", qz 1); ("Memory", qz 7)].

(** A configuration view as [__build_configuration] produces it from a
    well-formed document. *)
Definition loaded_view : list (string * json) :=
  [("Mitigation", JNull);
   ("Thresholds", JObject [("Cpu", JNumber (Q2Qc (1 # 10)))]);
   ("EventNames", JObject [("ConfigurationReloaded", JString "ConfigurationReloaded")]);
   ("MaxSamples", JNumber (qz 5))].

(** What is left of the view after a reload that could not load the file. *)
Definition emptied_view : list (string * json) :=
  [("Mitigation", JNull); ("Thresholds", JObject []); ("EventNames", JObject [])].

Definition malformed_file : config_file :=
  {| mime := "text/plain"; readable := true; content := JSONDecodeError |}.

Definition running_manager : ConfigurationManager :=
  {| config_path := "/etc/coresidency/configuration.json";
     mgr_configuration := loaded_view;
     mgr_emitted := [];
     mgr_log := [] |}.

(** The object of a tracked host; a blank one stands for a host that is not
    tracked. *)
Definition host_of (s : Detector) (h : string) : HostMetrics :=
  match dict_get h (host_metrics s) with
  | Some hm => hm
  | None => blank_HostMetrics 0 0 0 false
  end.

(** A process in which nothing has been constructed yet. *)
Definition fresh_process : process := {| _instances := []; objects := [] |}.


(** ** The windows of one metric *)

(** The raw and the normalized sequence of a metric, and whether the two
    dictionary entries refer to one and the same deque. *)
Record windows : Type := mkWindows {
  shared : bool;
  raw_seq : list Qc;
  normalized_seq : list Qc
}.

Definition windows_of (hm : HostMetrics) (key : string) : option windows :=
  match dict_get key (metrics hm), dict_get key (normalized_metrics hm) with
  | Some r, Some rn =>
      match store hm !! r, store hm !! rn with
      | Some d, Some dn => Some (mkWindows (bool_decide (r = rn)) d dn)
      | _, _ => None
      end
  | _, _ => None
  end.

(** [d[-1]] of a deque that is not empty *)
Definition last_entry (d : list Qc) : Qc :=
  match rev d with
  | x :: _ => x
  | [] => Q2Qc 0
  end.

(** What [popleft] on the raw and on the normalized entry leaves: each
    deque loses its oldest entry, a shared deque its two oldest. *)
Definition dropped (w : windows) : windows :=
  if shared w then mkWindows true (drop 2 (raw_seq w)) (drop 2 (raw_seq w))
  else mkWindows false (tail (raw_seq w)) (tail (normalized_seq w)).

(** What the two [append] calls leave: the value at the end of the raw
    deque and its difference to the previous raw entry at the end of the
    normalized deque; a shared deque receives both. *)
Definition appended (v : Qc) (w : windows) : windows :=
  if shared w then
    mkWindows true (raw_seq w ++ [v; (v - last_entry (raw_seq w))%Qc])
      (raw_seq w ++ [v; (v - last_entry (raw_seq w))%Qc])
  else
    mkWindows false (raw_seq w ++ [v])
      (normalized_seq w ++ [(v - last_entry (raw_seq w))%Qc]).

(** The two [popleft] calls find an entry each. *)
Definition can_drop (w : windows) : bool :=
  if shared w then bool_decide (2 <= length (raw_seq w))%nat
  else negb (bool_decide (raw_seq w = [])) && negb (bool_decide (normalized_seq w = [])).

(** [metrics[key][-2]] exists once the value is appended. *)
Definition can_append (w : windows) : bool := negb (bool_decide (raw_seq w = [])).

(** [record_sample] finds what it needs in the windows of a metric, with a
    full window ([full]) or not. *)
Definition can_record (full : bool) (w : windows) : bool :=
  if full then can_drop w && can_append (dropped w) else can_append w.

(** The windows of a metric after [record_sample] took value [v] for it. *)
Definition recorded (full : bool) (v : Qc) (w : windows) : windows :=
  appended v (if full then dropped w else w).

(** [hm1] is [hm] up to the contents of its deques. *)
Definition store_only (hm hm1 : HostMetrics) : Prop :=
  hm1 = set_store (fun _ => store hm1) hm /\ length (store hm1) = length (store hm).

(** [n] rounds of [dropped] *)
Fixpoint dropped_n (n : nat) (w : windows) : windows :=
  match n with
  | O => w
  | S n' => dropped_n n' (dropped w)
  end.

Fixpoint can_drop_n (n : nat) (w : windows) : bool :=
  match n with
  | O => true
  | S n' => can_drop w && can_drop_n n' (dropped w)
  end.

(** The windows of [Activity] once its normalized entry is bound to the raw
    deque ([self.__normalized_metrics['Activity'] = self.__metrics['Activity']]). *)
Definition aliased (w : windows) : windows := mkWindows true (raw_seq w) (raw_seq w).

(** The windows of metric [key] after a sample: the metrics of the sample
    are recorded, and [Activity] is aliased whether it is in the sample or
    not. *)
Definition sampled (full : bool) (sample : list (string * Qc)) (key : string)
    (w : windows) : windows :=
  let w1 := match dict_get key sample with
            | Some v => recorded full v w
            | None => w
            end in
  if bool_decide (key = "Activity") then aliased w1 else w1.

(** The activity bit after an adjustment that sees the sum [total] of the
    raw Activity deque. *)
Definition adjusted (hm : HostMetrics) (total : Qc) : bool :=
  if bool_decide (qz (activity_threshold hm) < total)%Qc then true
  else if bool_decide (total < qz (inactivity_threshold hm))%Qc then false
  else active hm.

(** [self.__current_samples == self.__max_samples] *)
Definition window_full (hm : HostMetrics) : bool :=
  bool_decide (current_samples hm = max_samples hm).

(** [abs(1.0 - metrics[key] / global_metrics[key])] *)
Definition deviation (report : Z) (global : Qc) : Qc := Qcabs (1 - qz report / global)%Qc.

(** The delta of metric [m] after [update_deltas], from the host before it
    and the global metrics. *)
Definition delta_after (hm : HostMetrics) (global_metrics : list (string * Qc))
    (m : string) : option Qc :=
  match report hm m with
  | Some v => deviation v <$> dict_get m global_metrics
  | None => dict_get m (deltas hm)
  end.

(** Every metric of the host has a global value, and none is zero. *)
Definition comparable (hm : HostMetrics) (global_metrics : list (string * Qc)) : bool :=
  forallb (fun key =>
    match dict_get key global_metrics with
    | Some g => negb (bool_decide (g = Q2Qc 0))
    | None => false
    end) (dict_keys (metrics hm)).

(** The host has every metric of the sample. *)
Definition known_metrics (hm : HostMetrics) (sample : list (string * Qc)) : bool :=
  forallb (fun key => dict_mem key (metrics hm)) (dict_keys sample).

(** The windows of every metric of the sample can take the sample. *)
Definition recordable (hm : HostMetrics) (sample : list (string * Qc)) : bool :=
  forallb (fun key =>
    match windows_of hm key with
    | Some w => can_record (window_full hm) w
    | None => false
    end) (dict_keys sample).

(** The windows of every metric can drop their oldest entries [rounds]
    times. *)
Definition shrinkable (rounds : nat) (hm : HostMetrics) : bool :=
  forallb (fun key =>
    match windows_of hm key with
    | Some w => can_drop_n rounds w
    | None => false
    end) (dict_keys (metrics hm)).

(** The windows the constructor makes for a value. *)
Definition first_windows (v : Qc) : windows := mkWindows false [v] [v].

(** ** The counters of the detector *)

(** The two counters are dictionaries over tracked hosts, a mitigated host
    has a flag counter, and no counter is negative. *)
Record counters_ok (s : Detector) : Prop := mk_counters_ok {
  flags_nodup : NoDup (dict_keys (host_flags s));
  deflags_nodup : NoDup (dict_keys (host_deflags s));
  flags_tracked :
    forall h, h ∈ dict_keys (host_flags s) -> h ∈ dict_keys (host_metrics s);
  deflags_tracked :
    forall h, h ∈ dict_keys (host_deflags s) -> h ∈ dict_keys (host_metrics s);
  mitigated_flagged :
    forall h, h ∈ mitigated_host_ids s -> h ∈ dict_keys (host_flags s);
  flags_nonneg : Forall (fun hv => 0 <= snd hv) (host_flags s);
  deflags_nonneg : Forall (fun hv => 0 <= snd hv) (host_deflags s)
}.

Definition keeps_counters_ok : relation Detector :=
  fun s s' => counters_ok s -> counters_ok s'.


(** The counter with those entries back at 0. *)
Definition reset_over (limit : Z) (counter : list (string * Z)) : list (string * Z) :=
  map (fun hv => (fst hv, if bool_decide (limit < snd hv) then 0 else snd hv)) counter.


(** ** What the handlers leave alone *)

(** No event is emitted and the set of mitigated hosts stays as it is. *)
Definition quiet : relation Detector := fun s s' =>
  configuration s' = configuration s /\
  mitigated_host_ids s' = mitigated_host_ids s /\
  emitted s' = emitted s.

(** Only the tracked hosts change. *)
Definition hosts_only : relation Detector := fun s s' =>
  configuration s' = configuration s /\
  host_flags s' = host_flags s /\
  host_deflags s' = host_deflags s /\
  global_metrics s' = global_metrics s /\
  mitigated_host_ids s' = mitigated_host_ids s /\
  emitted s' = emitted s.

(** The tracked hosts are the same, in the same order. *)
Definition same_hosts : relation Detector := fun s s' =>
  dict_keys (host_metrics s') = dict_keys (host_metrics s).

(** Phase (a) of a batch. *)
Definition record_batch (metrics : list (string * list (string * Qc))) : M Detector unit :=
  for_each metrics (fun '(host_id, sample) => record_host host_id sample).

(** The hosts of a batch that are not tracked yet, in the order of the
    batch. *)
Definition new_hosts (s : Detector) (metrics : list (string * list (string * Qc))) :
    list string :=
  filter (fun h => h ∉ dict_keys (host_metrics s)) (dict_keys metrics).

(** [self.host_metrics[key].reconfigure(...)] with the values of a
    configuration. *)
Definition reconfigure_with (c : Configuration) : M HostMetrics unit :=
  reconfigure (MaxSamples c) (SamplesBeforeInclusion c) (SamplesBeforeExclusion c)
    (NormalizeSamples c).

(** ** The view of a well-formed document *)

(** [value[name]] when [value] is an object that has the field *)
Definition field (name : string) (value : json) : option json :=
  match value with
  | JObject fields => dict_get name fields
  | _ => None
  end.

(** [section[key]["Value"]] for every key of a section, in its order *)
Fixpoint values (entries : list (string * json)) : option (list (string * json)) :=
  match entries with
  | [] => Some []
  | (key, entry) :: entries' =>
      v ← field "Value" entry; vs ← values entries'; Some ((key, v) :: vs)
  end.

(** The entries of a section of the document; none when the section is
    missing or is not an object. *)
Definition entries_of (name : string) (document : list (string * json)) :
    list (string * json) :=
  match dict_get name document with
  | Some (JObject entries) => entries
  | _ => []
  end.

Definition section_values (name : string) (document : list (string * json)) :
    option (list (string * json)) :=
  match dict_get name document with
  | Some (JObject entries) => values entries
  | _ => None
  end.

(** The [Mitigation] entry of the view. *)
Definition mitigation_view (document : list (string * json)) : option json :=
  match dict_get "EnableMitigation" document with
  | None => Some JNull
  | Some enable =>
      if truthy enable then
        mc ← dict_get "MitigationConfiguration" document;
        fba ← field "FlagsBeforeActivation" mc ≫= field "Value";
        dbd ← field "DeflagsBeforeDeactivation" mc ≫= field "Value";
        Some (JObject [("FlagsBeforeActivation", fba); ("DeflagsBeforeDeactivation", dbd)])
      else Some JNull
  end.

Definition view_of (document : list (string * json)) : option (list (string * json)) :=
  mitigation ← mitigation_view document;
  thresholds ← section_values "Thresholds" document;
  performance ← section_values "Performance" document;
  event_names ← section_values "EventNames" document;
  Some ([("Mitigation", mitigation);
         ("Thresholds", JObject thresholds);
         ("EventNames", JObject event_names)] ++ performance).

(** The sections are dictionaries, and no performance option is named like
    a section of the view. *)
Definition sections_ok (document : list (string * json)) : Prop :=
  NoDup (dict_keys (entries_of "Thresholds" document)) /\
  NoDup (dict_keys (entries_of "Performance" document)) /\
  NoDup (dict_keys (entries_of "EventNames" document)) /\
  Forall (fun key => key ∉ ["Mitigation"; "Thresholds"; "EventNames"])
    (dict_keys (entries_of "Performance" document)).

(** The file can be loaded. *)
Definition loads (file : config_file) (document : json) : Prop :=
  mime file ∈ ["application/json"; "text/plain"] /\
  readable file = true /\
  content file = Loaded document.


(** ** Hosts, states and documents for the further properties *)

Definition first_sample : list (string * Qc) := [("Activity", qz 1); ("Cpu", qz 10)].
Definition next_sample : list (string * Qc) := [("Activity", qz 2); ("Cpu", qz 30)].

(** A host after its first sample, with a window of [max_samples]. *)
Definition seen_once (max_samples : Z) : HostMetrics :=
  match new_HostMetrics first_sample max_samples 0 0 true with
  | Ok hm => hm
  | Raise _ => blank_HostMetrics max_samples 0 0 true
  end.

Definition global_sample : list (string * Qc) := [("Activity", qz 2); ("Cpu", qz 5)].

(** One batch handled with [MaxSamples = 1]. *)
Definition seen_once_with_window_of_one : Detector :=
  snd (update_metrics quiet_batch (new_Detector (quiet_configuration 1))).

(** One active host has been recorded; the later phases have not run yet. *)
Definition lone_host_recorded : Detector :=
  snd (record_batch [("A", [("Activity", qz 4); ("Cpu", qz 100)])]
         (new_Detector (two_hosts_configuration None))).

Definition batch_with_new_hosts : list (string * list (string * Qc)) :=
  [("B", [("Activity", qz 1)]); ("A", [("Activity", qz 1)]); ("C", [("Activity", qz 1)])].

Definition well_formed_document : list (string * json) :=
  [("EnableMitigation", JBool true);
   ("MitigationConfiguration",
    JObject [("FlagsBeforeActivation", JObject [("Value", JNumber (qz 3))]);
             ("DeflagsBeforeDeactivation", JObject [("Value", JNumber (qz 5))])]);
   ("Thresholds", JObject [("Cpu", JObject [("Value", JNumber (Q2Qc (1 # 10)))])]);
   ("Performance",
    JObject [("MaxSamples", JObject [("Value", JNumber (qz 5))]);
             ("NormalizeSamples", JObject [("Value", JBool true)])]);
   ("EventNames",
    JObject [("ConfigurationReloaded", JObject [("Value", JString "ConfigurationReloaded")]);
             ("SampleEvent", JObject [("Value", JString "SampleEvent")])])].

Definition well_formed_view : list (string * json) :=
  [("Mitigation",
    JObject [("FlagsBeforeActivation", JNumber (qz 3));
             ("DeflagsBeforeDeactivation", JNumber (qz 5))]);
   ("Thresholds", JObject [("Cpu", JNumber (Q2Qc (1 # 10)))]);
   ("EventNames",
    JObject [("ConfigurationReloaded", JString "ConfigurationReloaded");
             ("SampleEvent", JString "SampleEvent")]);
   ("MaxSamples", JNumber (qz 5));
   ("NormalizeSamples", JBool true)].

Definition well_formed_file : config_file :=
  {| mime := "application/json"; readable := true;
     content := Loaded (JObject well_formed_document) |}.


Definition document_without_thresholds : list (string * json) :=
  [("EnableMitigation", JBool false);
   ("Performance", JObject [("MaxSamples", JObject [("Value", JNumber (qz 5))])])].

Definition file_without_thresholds : config_file :=
  {| mime := "text/plain"; readable := true;
     content := Loaded (JObject document_without_thresholds) |}.

(** A process that has constructed its event manager. *)
Definition process_with_event_manager : process :=
  snd (call EventManager NoArguments fresh_process).

(** * Proofs *)

(** ** Reachability of the scenarios *)

Lemma reachable_handle e s :
  reachable s -> fst (handle e s) <> Raise SystemExit -> reachable (snd (handle e s)).
Proof.
  destruct e; intros H Hexit; [by apply reachable_sample | by apply reachable_reload].
Qed.

(** A run that returns passes through reachable states only. *)
Lemma reachable_handle_all events s :
  reachable s -> fst (handle_all events s) = Ok tt -> reachable (snd (handle_all events s)).
Proof.
  revert s. induction events as [|e events IH]; intros s H Hok; [exact H|].
  unfold handle_all in *. cbn [for_each] in *. unfold bind in *.
  pose proof (reachable_handle e s H) as He.
  destruct (handle e s) as [[[]|x] s1]; cbn [fst snd] in *; [|done].
  apply IH; [by apply He | exact Hok].
Qed.

(** ** Dictionaries *)

Section DictFacts.
Context {V : Type}.
Implicit Types (d : list (string * V)) (k : string) (v : V).

Lemma dict_get_set_eq k v d : dict_get k (dict_set k v d) = Some v.
Proof.
  induction d as [|[k' v'] d IH]; cbn.
  - by rewrite decide_True.
  - destruct (decide (k = k')) as [->|Hne]; cbn.
    + by rewrite decide_True.
    + by rewrite decide_False.
Qed.

Lemma dict_get_set_ne k k' v d :
  k <> k' -> dict_get k' (dict_set k v d) = dict_get k' d.
Proof.
  intros Hne. induction d as [|[k0 v0] d IH]; cbn.
  - by rewrite decide_False.
  - destruct (decide (k = k0)) as [->|Hne0]; cbn.
    + by rewrite !decide_False.
    + by rewrite IH.
Qed.

Lemma dict_get_None k d : dict_get k d = None <-> k ∉ dict_keys d.
Proof.
  induction d as [|[k' v'] d IH]; cbn.
  - split; [intros _; apply not_elem_of_nil | done].
  - rewrite not_elem_of_cons. destruct (decide (k = k')) as [->|Hne].
    + split; [done | intros [? _]; done].
    + rewrite IH. tauto.
Qed.

Lemma dict_get_Some_elem k v d : dict_get k d = Some v -> (k, v) ∈ d.
Proof.
  induction d as [|[k' v'] d IH]; cbn; [done|].
  destruct (decide (k = k')) as [->|Hne].
  - intros [= ->]. apply list_elem_of_here.
  - intros H. apply list_elem_of_further, IH, H.
Qed.

Lemma dict_get_Some_key k v d : dict_get k d = Some v -> k ∈ dict_keys d.
Proof.
  intros H. apply dict_get_Some_elem in H.
  apply (list_elem_of_fmap_2 fst) in H. exact H.
Qed.

Lemma dict_get_is_Some k d : k ∈ dict_keys d -> exists v, dict_get k d = Some v.
Proof.
  intros H. destruct (dict_get k d) as [v|] eqn:E; [by exists v|].
  apply dict_get_None in E. done.
Qed.

Lemma dict_get_elem k v d : NoDup (dict_keys d) -> (k, v) ∈ d -> dict_get k d = Some v.
Proof.
  induction d as [|[k' v'] d IH]; cbn; intros Hnd Hin.
  - by apply elem_of_nil in Hin.
  - pose proof (NoDup_cons_1_1 _ _ Hnd) as Hk'. apply NoDup_cons_1_2 in Hnd.
    apply elem_of_cons in Hin as [[= -> ->]|Hin].
    + by rewrite decide_True.
    + destruct (decide (k = k')) as [->|Hne]; [|by apply IH].
      exfalso. apply Hk'. apply (list_elem_of_fmap_2 fst) in Hin. exact Hin.
Qed.

Lemma dict_set_same k v d : dict_get k d = Some v -> dict_set k v d = d.
Proof.
  induction d as [|[k' v'] d IH]; cbn; [done|].
  destruct (decide (k = k')) as [->|Hne].
  - by intros [= ->].
  - intros H. by rewrite IH.
Qed.

Lemma dict_keys_set_elem k v d : k ∈ dict_keys d -> dict_keys (dict_set k v d) = dict_keys d.
Proof.
  induction d as [|[k' v'] d IH]; cbn; intros H.
  - by apply elem_of_nil in H.
  - destruct (decide (k = k')) as [->|Hne]; cbn; [done|].
    apply elem_of_cons in H as [?|H]; [done|]. f_equal. by apply IH.
Qed.

Lemma dict_keys_set_new k v d : k ∉ dict_keys d -> dict_keys (dict_set k v d) = dict_keys d ++ [k].
Proof.
  induction d as [|[k' v'] d IH]; cbn; intros H; [done|].
  apply not_elem_of_cons in H as [Hne H].
  rewrite decide_False by done. cbn. f_equal. by apply IH.
Qed.

Lemma dict_keys_set k v d :
  dict_keys (dict_set k v d) =
    if bool_decide (k ∈ dict_keys d) then dict_keys d else dict_keys d ++ [k].
Proof.
  case_bool_decide; [by apply dict_keys_set_elem | by apply dict_keys_set_new].
Qed.

Lemma dict_set_NoDup k v d : NoDup (dict_keys d) -> NoDup (dict_keys (dict_set k v d)).
Proof.
  intros H. rewrite dict_keys_set. case_bool_decide; [done|].
  apply list.NoDup_app. split; [done|]. split; [|apply NoDup_singleton].
  intros x Hx Hx'. apply list_elem_of_singleton in Hx'. by subst.
Qed.

Lemma dict_set_elem k v d x : x ∈ dict_set k v d -> x = (k, v) \/ x ∈ d.
Proof.
  induction d as [|[k' v'] d IH]; cbn.
  - intros H. apply list_elem_of_singleton in H. by left.
  - destruct (decide (k = k')) as [->|Hne]; intros H.
    + apply elem_of_cons in H as [?|H]; [by left | right; by apply list_elem_of_further].
    + apply elem_of_cons in H as [->|H]; [right; apply list_elem_of_here|].
      destruct (IH H) as [?|?]; [by left | right; by apply list_elem_of_further].
Qed.

Lemma dict_set_Forall (P : string * V -> Prop) k v d :
  P (k, v) -> Forall P d -> Forall P (dict_set k v d).
Proof.
  intros Hkv Hd. apply list.Forall_forall. intros x Hx.
  apply dict_set_elem in Hx as [->|Hx]; [done|].
  rewrite list.Forall_forall in Hd. by apply Hd.
Qed.
End DictFacts.

(** ** Frame rules for the monad *)

Section Steps.
Context {S : Type} (R : relation S) `{!PreOrder R}.

Lemma steps_ret {A} (a : A) : steps R (ret a).
Proof. intros s. reflexivity. Qed.

Lemma steps_raise {A} e : steps R (@raise S A e).
Proof. intros s. reflexivity. Qed.

Lemma steps_get : steps R get.
Proof. intros s. reflexivity. Qed.

Lemma steps_getitem {V} k (d : list (string * V)) : steps R (getitem k d).
Proof. unfold getitem. destruct (dict_get k d); [apply steps_ret | apply steps_raise]. Qed.

Lemma steps_modify (f : S -> S) : (forall s, R s (f s)) -> steps R (modify f).
Proof. intros H s. apply H. Qed.

Lemma steps_bind {A B} (m : M S A) (f : A -> M S B) :
  steps R m -> (forall a, steps R (f a)) -> steps R (bind m f).
Proof.
  intros Hm Hf s. unfold bind. specialize (Hm s).
  destruct (m s) as [[a|e] s1]; cbn [snd] in *; [|exact Hm].
  etrans; [exact Hm | apply Hf].
Qed.

Lemma steps_for_each {X} (l : list X) (body : X -> M S unit) :
  (forall x, steps R (body x)) -> steps R (for_each l body).
Proof.
  intros H. induction l as [|x l IH]; cbn [for_each]; [apply steps_ret|].
  apply steps_bind; [apply H | intros _; exact IH].
Qed.

Lemma steps_for_fold {X A} (l : list X) (body : A -> X -> M S A) a :
  (forall a x, steps R (body a x)) -> steps R (for_fold l body a).
Proof.
  intros H. revert a. induction l as [|x l IH]; intros a; cbn [for_fold];
    [apply steps_ret|].
  apply steps_bind; [apply H | intros a'; apply IH].
Qed.

Lemma steps_except_KeyError {A} (m h : M S A) :
  steps R m -> steps R h -> steps R (except_KeyError m h).
Proof.
  intros Hm Hh s. unfold except_KeyError. specialize (Hm s).
  destruct (m s) as [[a|[]] s1]; cbn [snd] in *; try exact Hm.
  etrans; [exact Hm | apply Hh].
Qed.
End Steps.

Create HintDb steps discriminated.

Ltac steps_step :=
  first
    [ solve [auto 1 with steps nocore]
    | apply steps_ret; typeclasses eauto
    | apply steps_raise; typeclasses eauto
    | apply steps_get; typeclasses eauto
    | apply steps_getitem; typeclasses eauto
    | apply steps_bind; [typeclasses eauto | | intros ?]
    | apply steps_for_each; [typeclasses eauto | intros ?]
    | apply steps_for_fold; [typeclasses eauto | intros ? ?]
    | match goal with
      | |- steps _ (if ?b then _ else _) => destruct b
      | |- steps _ (match ?x with _ => _ end) => destruct x
      | |- steps _ (let '(_, _) := ?x in _) => destruct x
      end ].

Ltac steps_tac := repeat steps_step.

Global Instance unchanged_preorder {S} : PreOrder (@unchanged S).
Proof. split; [intros s; reflexivity | intros s1 s2 s3 H1 H2; unfold unchanged in *; congruence]. Qed.

Lemma same_windows_refl hm : same_windows hm hm.
Proof. by destruct hm. Qed.

Lemma same_windows_trans hm1 hm2 hm3 :
  same_windows hm1 hm2 -> same_windows hm2 hm3 -> same_windows hm1 hm3.
Proof. unfold same_windows. intros H1 H2. rewrite H2, H1. by destruct hm1. Qed.

Global Instance same_windows_preorder : PreOrder same_windows.
Proof. split; [exact same_windows_refl | exact same_windows_trans]. Qed.

(** ** Methods of a host that leave its windows alone *)

Lemma deque_read_unchanged r : steps unchanged (deque_read r).
Proof. intros hm. unfold deque_read. by destruct (store hm !! r). Qed.
#[global] Hint Resolve deque_read_unchanged : steps.


Lemma get_metrics_unchanged : steps unchanged get_metrics.
Proof.
  unfold get_metrics, report_metric. steps_tac.
Qed.
#[global] Hint Resolve get_metrics_unchanged : steps.


Lemma get_metrics_state hm : snd (get_metrics hm) = hm.
Proof. apply get_metrics_unchanged. Qed.

Lemma update_deltas_same_windows global : steps same_windows (update_deltas global).
Proof.
  unfold update_deltas. apply steps_bind; [typeclasses eauto | |].
  - intros hm. rewrite get_metrics_state. reflexivity.
  - intros report0. steps_tac. apply steps_modify. intros hm. by destruct hm.
Qed.
#[global] Hint Resolve update_deltas_same_windows : steps.


(** ** Phases that leave the hosts' windows alone *)

Global Instance hosts_same_preorder : PreOrder hosts_same.
Proof.
  split.
  - intros s. split; [done|]. apply Forall2_same_length_lookup. split; [done|].
    intros i h h' H1 H2. rewrite H1 in H2. injection H2 as <-. split; [done|reflexivity].
  - intros s1 s2 s3 [Hc1 H1] [Hc2 H2]. split; [congruence|].
    revert H2. generalize (host_metrics s3). induction H1 as [|a b l1 l2 [Hk Hw] H1 IH];
      intros l3 H2; inversion H2 as [|b' c l2' l3' [Hk' Hw'] H2']; subst; constructor.
    + split; [congruence | etrans; eassumption].
    + by apply IH.
Qed.

Lemma dict_set_hosts_same h hm hm' (d : list (string * HostMetrics)) :
  dict_get h d = Some hm -> same_windows hm hm' ->
  Forall2 (fun a b => fst a = fst b /\ same_windows (snd a) (snd b)) d (dict_set h hm' d).
Proof.
  intros Hget Hw. induction d as [|[k v] d IH]; cbn in *; [done|].
  destruct (decide (h = k)) as [->|Hne].
  - injection Hget as ->. constructor; [done|].
    apply Forall2_same_length_lookup. split; [done|].
    intros i a b H1 H2. rewrite H1 in H2. injection H2 as <-. split; [done|reflexivity].
  - constructor; [split; [done|reflexivity] | by apply IH].
Qed.

Lemma on_host_hosts_same {A} h (method : M HostMetrics A) :
  steps same_windows method -> steps hosts_same (on_host h method).
Proof.
  intros H s. unfold on_host. destruct (dict_get h (host_metrics s)) as [hm|] eqn:E;
    [|reflexivity].
  specialize (H hm). destruct (method hm) as [r hm']. cbn [snd] in *.
  split; [done|]. cbn. by eapply dict_set_hosts_same.
Qed.

Ltac hosts_same_tac :=
  steps_tac;
  try (apply steps_modify; intros ?; split; [reflexivity | cbn; apply hosts_same_preorder]).

Lemma update_global_metrics_hosts_same : steps hosts_same update_global_metrics.
Proof.
  unfold update_global_metrics, include_host, divide_metric, accumulate. hosts_same_tac.
  apply on_host_hosts_same. intros hm. rewrite get_metrics_state. reflexivity.
Qed.
#[global] Hint Resolve update_global_metrics_hosts_same : steps.


Lemma update_host_deltas_hosts_same : steps hosts_same update_host_deltas.
Proof.
  unfold update_host_deltas. hosts_same_tac.
  apply on_host_hosts_same, update_deltas_same_windows.
Qed.
#[global] Hint Resolve update_host_deltas_hosts_same : steps.


Lemma trigger_flag_unchanged deltas keys : steps unchanged (trigger_flag deltas keys).
Proof. induction keys as [|key keys IH]; cbn [trigger_flag]; steps_tac. Qed.
#[global] Hint Resolve trigger_flag_unchanged : steps.


Lemma trigger_flag_hosts_same deltas keys : steps hosts_same (trigger_flag deltas keys).
Proof. intros s. rewrite trigger_flag_unchanged. reflexivity. Qed.
#[global] Hint Resolve trigger_flag_hosts_same : steps.


Lemma update_host_flags_hosts_same : steps hosts_same update_host_flags.
Proof.
  unfold update_host_flags, flag_host. hosts_same_tac.
Qed.
#[global] Hint Resolve update_host_flags_hosts_same : steps.


Lemma dispatch_mitigation_hosts_same m : steps hosts_same (dispatch_mitigation m).
Proof. unfold dispatch_mitigation, emit. hosts_same_tac. Qed.
#[global] Hint Resolve dispatch_mitigation_hosts_same : steps.


Lemma after_recording_hosts_same : steps hosts_same after_recording.
Proof.
  unfold after_recording. steps_tac.
Qed.

(** ** The activity bit *)

Global Instance same_active_preorder : PreOrder same_active.
Proof. split; [intros hm; reflexivity | intros a b c H1 H2; unfold same_active in *; congruence]. Qed.

Lemma deque_new_same_active : steps same_active deque_new.
Proof. intros hm. reflexivity. Qed.

Lemma deque_read_same_active r : steps same_active (deque_read r).
Proof. intros hm. rewrite deque_read_unchanged. reflexivity. Qed.

#[global] Hint Resolve deque_new_same_active deque_read_same_active : steps.

Ltac same_active_tac :=
  steps_tac; try (apply steps_modify; intros ?; reflexivity).

Lemma deque_append_same_active r v : steps same_active (deque_append r v).
Proof. unfold deque_append. same_active_tac. Qed.

Lemma deque_popleft_same_active r : steps same_active (deque_popleft r).
Proof. unfold deque_popleft. same_active_tac. Qed.

Lemma deque_from_end_same_active r i : steps same_active (deque_from_end r i).
Proof. unfold deque_from_end. same_active_tac. Qed.

Lemma metrics_ref_same_active key : steps same_active (metrics_ref key).
Proof. unfold metrics_ref. same_active_tac. Qed.

Lemma normalized_ref_same_active key : steps same_active (normalized_ref key).
Proof. unfold normalized_ref. same_active_tac. Qed.

#[global] Hint Resolve deque_append_same_active deque_popleft_same_active
  deque_from_end_same_active metrics_ref_same_active normalized_ref_same_active : steps.

Lemma drop_oldest_same_active item : steps same_active (drop_oldest item).
Proof. destruct item. unfold drop_oldest. same_active_tac. Qed.

Lemma append_sample_same_active item : steps same_active (append_sample item).
Proof. destruct item. unfold append_sample. same_active_tac. Qed.

#[global] Hint Resolve drop_oldest_same_active append_sample_same_active : steps.






(** ** Reloading a file that cannot be loaded *)

Lemma new_JSONParser_not_loaded file m :
  content file = JSONDecodeError ->
  exists m',
    new_JSONParser file m = (Ok (mkJSONParser false JNull), m') /\
    config_path m' = config_path m /\
    mgr_configuration m' = mgr_configuration m /\
    mgr_emitted m' = mgr_emitted m /\
    (length (mgr_log m) < length (mgr_log m'))%nat.
Proof.
  intros Hc. unfold new_JSONParser. rewrite Hc.
  destruct (negb (bool_decide (mime file ∈ ["application/json"; "text/plain"])));
    [|destruct (negb (readable file))];
    eexists; (split; [reflexivity|]); cbn; repeat split;
    rewrite ?length_app; cbn; lia.
Qed.

(** C4 (the code departs from the claim).  When [json.load] raises
    [JSONDecodeError] during a reload, the error is logged, but
    [__build_configuration] goes on: it replaces the cached view by
    [{Mitigation: None, Thresholds: {}, EventNames: {}}] and then raises
    [TypeError] on iterating [None].  No event is emitted, and the previous
    view is gone. *)
Theorem malformed_reload_replaces_view (m : ConfigurationManager) (file : config_file) :
  content file = JSONDecodeError ->
  fst (on_modified (config_path m) file m) = Raise TypeError /\
  mgr_configuration (snd (on_modified (config_path m) file m)) = emptied_view /\
  mgr_emitted (snd (on_modified (config_path m) file m)) = mgr_emitted m /\
  (length (mgr_log m) < length (mgr_log (snd (on_modified (config_path m) file m))))%nat.
Proof.
  intros Hc. remember (on_modified (config_path m) file m) as run eqn:Hrun.
  unfold on_modified, bind at 1, get at 1 in Hrun.
  rewrite bool_decide_eq_true_2 in Hrun by done.
  unfold bind at 1 in Hrun. cbn [log modify] in Hrun.
  unfold bind at 1, build_configuration, bind at 1 in Hrun.
  match type of Hrun with context [new_JSONParser file ?m0] =>
    destruct (new_JSONParser_not_loaded file m0 Hc) as (m1 & Hnew & Hp & Hv & He & Hl)
  end.
  rewrite Hnew in Hrun. cbn in Hrun. subst run. cbn in *.
  repeat split; [exact He|]. rewrite !length_app in *. cbn in *. lia.
Qed.

(** ** Singletons *)



(** Neither [on] nor the construction of an object touches [_instances]. *)
Global Instance same_instances_preorder : PreOrder same_instances.
Proof.
  split; [intros p; reflexivity | intros a b c H1 H2; unfold same_instances in *; congruence].
Qed.

Lemma on_same_instances event_manager event_name handler :
  steps same_instances (on event_manager event_name handler).
Proof.
  unfold on. steps_tac; try (apply steps_modify; intros ?; reflexivity).
Qed.

#[global] Hint Resolve on_same_instances : steps.

Lemma construct_same_instances cls args : steps same_instances (construct cls args).
Proof.
  unfold construct. steps_tac; try (apply steps_modify; intros ?; reflexivity).
Qed.






(** ** Phase (d): flags and deflags *)















(** ** Phase (b): the baseline *)

(** *** The report of one host *)

Lemma wf_host_window hm key :
  wf_host hm -> key ∈ dict_keys (metrics hm) ->
  exists d, chosen_seq hm key = Some d /\
    exists r, dict_get key (if negb (pref_normalized hm) then metrics hm
                            else normalized_metrics hm) = Some r /\
              store hm !! r = Some d.
Proof.
  intros Hwf Hkey. unfold chosen_seq, normalized_window, raw_window.
  destruct (pref_normalized hm); cbn [negb].
  - rewrite <- (wf_keys _ Hwf) in Hkey. apply dict_get_is_Some in Hkey as [r Hr].
    pose proof (dict_get_Some_elem _ _ _ Hr) as Hin.
    pose proof (wf_normalized_refs _ Hwf) as Hrefs. rewrite list.Forall_forall in Hrefs.
    apply Hrefs in Hin. cbn in Hin. apply lookup_lt_is_Some_2 in Hin as [d Hd].
    exists d. rewrite Hr. split; [done|]. by exists r.
  - apply dict_get_is_Some in Hkey as [r Hr].
    pose proof (dict_get_Some_elem _ _ _ Hr) as Hin.
    pose proof (wf_raw_refs _ Hwf) as Hrefs. rewrite list.Forall_forall in Hrefs.
    apply Hrefs in Hin. cbn in Hin. apply lookup_lt_is_Some_2 in Hin as [d Hd].
    exists d. rewrite Hr. split; [done|]. by exists r.
Qed.

Lemma get_metrics_loop hm keys : forall metric_report,
  wf_host hm ->
  (forall key, key ∈ keys -> key ∈ dict_keys (metrics hm)) ->
  exists metric_report',
    for_fold keys
      (report_metric (if negb (pref_normalized hm) then metrics hm
                      else normalized_metrics hm) (current_samples hm))
      metric_report hm = (Ok metric_report', hm) /\
    (NoDup (dict_keys metric_report) -> NoDup (dict_keys metric_report')) /\
    forall m,
      dict_get m metric_report' =
        if bool_decide (m ∈ keys) then report hm m else dict_get m metric_report.
Proof.
  induction keys as [|key keys IH]; intros metric_report Hwf Hkeys.
  - exists metric_report. by repeat split.
  - assert (Hkey : key ∈ dict_keys (metrics hm)) by apply Hkeys, list_elem_of_here.
    destruct (wf_host_window hm key Hwf Hkey) as (d & Hd & r & Hr & Hs).
    destruct (IH (dict_set key (py_round (py_sum d / qz (current_samples hm))%Qc)
                    metric_report) Hwf) as (final & Hrun & Hnd & Hget).
    { intros k Hk. by apply Hkeys, list_elem_of_further. }
    exists final. split; [|split].
    + cbn [for_fold]. unfold bind at 1, report_metric at 1, bind at 1, getitem.
      rewrite Hr. unfold ret at 1, bind at 1, deque_read. rewrite Hs.
      rewrite bool_decide_eq_false_2.
      2:{ pose proof (wf_current_samples _ Hwf). lia. }
      exact Hrun.
    + intros H. by apply Hnd, dict_set_NoDup.
    + intros m. rewrite Hget. destruct (decide (m = key)) as [->|Hne].
      * rewrite (bool_decide_eq_true_2 (key ∈ key :: keys)) by apply list_elem_of_here.
        assert (Hrep : report hm key =
                       Some (py_round (py_sum d / qz (current_samples hm))%Qc)).
        { unfold report. rewrite bool_decide_eq_true_2 by done. by rewrite Hd. }
        case_bool_decide; [done|]. by rewrite dict_get_set_eq.
      * rewrite dict_get_set_ne by done.
        destruct (bool_decide (m ∈ keys)) eqn:Hin.
        -- apply bool_decide_eq_true_1 in Hin.
           by rewrite bool_decide_eq_true_2 by (by apply list_elem_of_further).
        -- apply bool_decide_eq_false_1 in Hin.
           rewrite bool_decide_eq_false_2; [done|]. by intros [?|?]%elem_of_cons.
Qed.

Lemma report_None hm m : m ∉ dict_keys (metrics hm) -> report hm m = None.
Proof. intros H. unfold report. by rewrite bool_decide_eq_false_2. Qed.

(** [get_metrics] returns on a well-formed host, leaves it as it is, and
    the dictionary it returns holds [report] for every metric. *)
Lemma get_metrics_report hm :
  wf_host hm ->
  exists metric_report,
    get_metrics hm = (Ok metric_report, hm) /\
    NoDup (dict_keys metric_report) /\
    forall m, dict_get m metric_report = report hm m.
Proof.
  intros Hwf.
  destruct (get_metrics_loop hm (dict_keys (metrics hm)) [] Hwf) as (rep & Hrun & Hnd & Hget);
    [done|].
  exists rep. split; [exact Hrun|]. split; [apply Hnd, NoDup_nil_2|].
  intros m. rewrite Hget. case_bool_decide; [done|]. by rewrite report_None.
Qed.

(** *** Summing the reports *)

Lemma set_global_metrics_twice f g s :
  set_global_metrics g (set_global_metrics f s) = set_global_metrics (fun x => g (f x)) s.
Proof. reflexivity. Qed.

Lemma set_global_metrics_same s : set_global_metrics (fun _ => global_metrics s) s = s.
Proof. by destruct s. Qed.

Lemma accumulate_loop (metrics : list (string * Z)) : forall s,
  NoDup (dict_keys metrics) ->
  exists g,
    for_each metrics (fun '(key, value) => accumulate key value) s =
      (Ok tt, set_global_metrics (fun _ => g) s) /\
    (NoDup (dict_keys (global_metrics s)) -> NoDup (dict_keys g)) /\
    forall m,
      dict_get m g =
        match dict_get m metrics with
        | Some v => add_report (dict_get m (global_metrics s)) v
        | None => dict_get m (global_metrics s)
        end.
Proof.
  induction metrics as [|[key value] metrics IH]; intros s Hnd.
  - exists (global_metrics s). rewrite set_global_metrics_same. by repeat split.
  - unfold dict_keys in Hnd. cbn [map fst] in Hnd. fold (dict_keys metrics) in Hnd.
    pose proof (NoDup_cons_1_1 _ _ Hnd) as Hkey. apply NoDup_cons_1_2 in Hnd.
    set (g1 := match dict_get key (global_metrics s) with
               | Some g => dict_set key (g + qz value)%Qc (global_metrics s)
               | None => dict_set key (qz value) (global_metrics s)
               end).
    assert (Hstep : accumulate key value s = (Ok tt, set_global_metrics (fun _ => g1) s)).
    { unfold accumulate, bind, get, g1. by destruct (dict_get key (global_metrics s)). }
    destruct (IH (set_global_metrics (fun _ => g1) s) Hnd) as (g & Hrun & Hndg & Hget).
    exists g. split; [|split].
    + cbn [for_each]. unfold bind. rewrite Hstep. exact Hrun.
    + intros H. apply Hndg. cbn. unfold g1.
      destruct (dict_get key (global_metrics s)); by apply dict_set_NoDup.
    + intros m. rewrite Hget. cbn [global_metrics set_global_metrics dict_get].
      destruct (decide (m = key)) as [->|Hne].
      * apply dict_get_None in Hkey. rewrite Hkey. unfold g1, add_report.
        destruct (dict_get key (global_metrics s)); by rewrite dict_get_set_eq.
      * assert (Hg1 : dict_get m g1 = dict_get m (global_metrics s)).
        { unfold g1. destruct (dict_get key (global_metrics s));
            by rewrite dict_get_set_ne. }
        by rewrite Hg1.
Qed.

Lemma on_host_get_metrics s h hm :
  dict_get h (host_metrics s) = Some hm -> wf_host hm ->
  exists metric_report,
    on_host h get_metrics s = (Ok metric_report, s) /\
    NoDup (dict_keys metric_report) /\
    forall m, dict_get m metric_report = report hm m.
Proof.
  intros Hget Hwf. destruct (get_metrics_report hm Hwf) as (rep & Hrun & Hnd & Hrep).
  exists rep. split; [|by split].
  unfold on_host. rewrite Hget, Hrun. f_equal.
  unfold set_host_metrics. rewrite (dict_set_same _ _ _ Hget). by destruct s.
Qed.

Lemma foldl_add_report_Some x reports :
  foldl add_report (Some x) reports = Some (x + foldr Qcplus (Q2Qc 0) (qz <$> reports))%Qc.
Proof.
  revert x. induction reports as [|v reports IH]; intros x; cbn.
  - by rewrite Qcplus_0_r.
  - rewrite IH. by rewrite Qcplus_assoc.
Qed.

Lemma foldl_add_report_None reports :
  foldl add_report None reports =
    match reports with
    | [] => None
    | v :: reports' => Some (foldr Qcplus (Q2Qc 0) (qz <$> v :: reports'))
    end.
Proof. destruct reports as [|v reports]; [done|]. cbn. apply foldl_add_report_Some. Qed.

(** The loop over the hosts: it counts the benign hosts among them and adds
    their reports to the sums. *)
Lemma include_hosts (hosts : list (string * HostMetrics)) : forall benign_hosts s,
  (forall h hm, (h, hm) ∈ hosts -> dict_get h (host_metrics s) = Some hm /\ wf_host hm) ->
  exists g,
    for_fold (dict_keys hosts) include_host benign_hosts s =
      (Ok (benign_hosts +
           Z.of_nat (length (filter (fun h => (fst h ∉ mitigated_host_ids s) /\
                                              (is_active (snd h) = true)) hosts))),
       set_global_metrics (fun _ => g) s) /\
    (NoDup (dict_keys (global_metrics s)) -> NoDup (dict_keys g)) /\
    forall m,
      dict_get m g =
        foldl add_report (dict_get m (global_metrics s))
          (omap (fun h => report (snd h) m)
             (filter (fun h => (fst h ∉ mitigated_host_ids s) /\
                               (is_active (snd h) = true)) hosts)).
Proof.
  induction hosts as [|[h hm] hosts IH]; intros n s Hall.
  - exists (global_metrics s). rewrite set_global_metrics_same. cbn.
    rewrite Z.add_0_r. by repeat split.
  - destruct (Hall h hm) as [Hget Hwf]; [apply list_elem_of_here|].
    assert (Hrest : forall s', host_metrics s' = host_metrics s ->
              forall h' hm', (h', hm') ∈ hosts ->
                dict_get h' (host_metrics s') = Some hm' /\ wf_host hm').
    { intros s' -> h' hm' Hin. by apply Hall, list_elem_of_further. }
    cbn [dict_keys map fst for_fold]. unfold bind at 1, include_host at 1, bind at 1, get at 1.
    rewrite filter_cons. cbn [fst snd].
    destruct (decide (h ∈ mitigated_host_ids s)) as [Hmit|Hmit].
    { rewrite bool_decide_eq_true_2 by done. unfold ret at 1.
      rewrite decide_False by tauto. apply IH, Hrest. done. }
    rewrite bool_decide_eq_false_2 by done.
    unfold bind at 1, getitem. rewrite Hget. unfold ret at 1.
    destruct (is_active hm) eqn:Hact; cbn [negb].
    2:{ unfold ret at 1. rewrite decide_False by (intros [_ ?]; done).
        apply IH, Hrest. done. }
    rewrite decide_True by done.
    destruct (on_host_get_metrics s h hm Hget Hwf) as (rep & Hrun & Hnd & Hrep).
    unfold bind at 1. rewrite Hrun.
    destruct (accumulate_loop rep s Hnd) as (g1 & Hacc & Hnd1 & Hget1).
    unfold bind at 1. rewrite Hacc. unfold ret at 1.
    destruct (IH (n + 1) (set_global_metrics (fun _ => g1) s)) as (g & Hloop & Hndg & Hgetg).
    { apply Hrest. done. }
    exists g. split; [|split].
    + fold (dict_keys hosts). rewrite Hloop. cbn [length mitigated_host_ids set_global_metrics].
      rewrite set_global_metrics_twice. f_equal. f_equal. lia.
    + intros H. apply Hndg, Hnd1, H.
    + intros m. rewrite Hgetg. cbn [global_metrics set_global_metrics mitigated_host_ids].
      rewrite Hget1, Hrep. cbn [omap list_omap snd].
      by destruct (report hm m).
Qed.

(** The division of every sum by the number of benign hosts. *)
Lemma divide_metrics n keys : forall s,
  NoDup keys ->
  (forall key, key ∈ keys -> key ∈ dict_keys (global_metrics s)) ->
  exists g,
    for_each keys (divide_metric n) s = (Ok tt, set_global_metrics (fun _ => g) s) /\
    dict_keys g = dict_keys (global_metrics s) /\
    forall m,
      dict_get m g =
        if bool_decide (m ∈ keys)
        then (fun x => x / qz n)%Qc <$> dict_get m (global_metrics s)
        else dict_get m (global_metrics s).
Proof.
  induction keys as [|key keys IH]; intros s Hnd Hkeys.
  - exists (global_metrics s). rewrite set_global_metrics_same. by repeat split.
  - pose proof (NoDup_cons_1_1 _ _ Hnd) as Hkey. apply NoDup_cons_1_2 in Hnd.
    assert (Hin : key ∈ dict_keys (global_metrics s)) by apply Hkeys, list_elem_of_here.
    pose proof Hin as Hin'. apply dict_get_is_Some in Hin' as [x Hx].
    set (g1 := dict_set key (x / qz n)%Qc (global_metrics s)).
    assert (Hk1 : dict_keys g1 = dict_keys (global_metrics s))
      by (by apply dict_keys_set_elem).
    destruct (IH (set_global_metrics (fun _ => g1) s) Hnd) as (g & Hrun & Hk & Hget).
    { intros k Hk. cbn [global_metrics set_global_metrics]. rewrite Hk1.
      by apply Hkeys, list_elem_of_further. }
    exists g. split; [|split].
    + cbn [for_each]. unfold bind at 1, divide_metric at 1, bind at 1, get at 1, bind at 1,
        getitem. rewrite Hx. unfold ret at 1, modify at 1. exact Hrun.
    + rewrite Hk. cbn [global_metrics set_global_metrics]. exact Hk1.
    + intros m. rewrite Hget. cbn [global_metrics set_global_metrics].
      destruct (decide (m = key)) as [->|Hne].
      * rewrite bool_decide_eq_false_2 by done.
        rewrite bool_decide_eq_true_2 by apply list_elem_of_here.
        unfold g1. by rewrite dict_get_set_eq, Hx.
      * unfold g1. rewrite dict_get_set_ne by done.
        destruct (bool_decide (m ∈ keys)) eqn:Hm.
        -- apply bool_decide_eq_true_1 in Hm.
           by rewrite bool_decide_eq_true_2 by (by apply list_elem_of_further).
        -- apply bool_decide_eq_false_1 in Hm.
           rewrite bool_decide_eq_false_2; [done|]. by intros [?|?]%elem_of_cons.
Qed.

(** C7.  On a detector whose hosts are well formed, phase (b) returns and
    replaces [globalMetrics] and nothing else; the new [globalMetrics] has,
    for every metric [m], the entry [baseline s m]: the reports
    [round(sum(chosenSeq[m]) / currentSamples)] of the hosts that are active
    and not mitigated, summed and divided by the number [n] of those hosts,
    and no entry when no such host reports [m]; it is empty when [n = 0]. *)
Theorem update_global_metrics_spec s :
  wf_detector s ->
  exists g,
    update_global_metrics s = (Ok tt, set_global_metrics (fun _ => g) s) /\
    (forall m, dict_get m g = baseline s m) /\
    (benign s = [] -> g = []).
Proof.
  intros [Hnd Hwf]. rewrite list.Forall_forall in Hwf.
  unfold update_global_metrics, bind at 1, modify at 1, bind at 1, get at 1.
  destruct (include_hosts (host_metrics s) 0 (set_global_metrics (fun _ => []) s))
    as (g1 & Hloop & Hnd1 & Hget1).
  { intros h hm Hin. split; [by apply dict_get_elem | by apply (Hwf (h, hm))]. }
  cbn [host_metrics global_metrics mitigated_host_ids set_global_metrics dict_get] in *.
  unfold bind at 1. rewrite Hloop.
  rewrite set_global_metrics_twice. fold (benign s) in *.
  rewrite Z.add_0_l. specialize (Hnd1 (NoDup_nil_2)).
  assert (Hsum : forall m, dict_get m g1 =
            match omap (fun h => report (snd h) m) (benign s) with
            | [] => None
            | reports => Some (foldr Qcplus (Q2Qc 0) (qz <$> reports))
            end).
  { intros m. rewrite Hget1. cbn [dict_get]. apply foldl_add_report_None. }
  case_bool_decide as Hn.
  - unfold bind at 1, get at 1.
    destruct (divide_metrics (Z.of_nat (length (benign s)))
                (dict_keys g1) (set_global_metrics (fun _ => g1) s) Hnd1)
      as (g & Hrun & Hk & Hget); [done|].
    cbn [global_metrics set_global_metrics] in *. rewrite Hrun, set_global_metrics_twice.
    exists g. split; [done|]. split.
    + intros m. rewrite Hget. pose proof (Hsum m) as Hm. unfold baseline.
      destruct (omap _ (benign s)) as [|v reports]; rewrite Hm;
        [by case_bool_decide|].
      case_bool_decide as Hin; [done|]. exfalso. apply Hin.
      by apply dict_get_Some_key in Hm.
    + intros Hb. rewrite Hb in Hn. done.
  - exists g1. split; [done|].
    assert (Hb : benign s = []).
    { destruct (benign s); [done|]. cbn in Hn. lia. }
    split; [|intros _].
    + intros m. rewrite Hsum. unfold baseline. by rewrite Hb.
    + destruct g1 as [|[k v] g1]; [done|]. specialize (Hsum k). rewrite Hb in Hsum.
      cbn in Hsum. by rewrite decide_True in Hsum.
Qed.

(** ** Well-formedness of a host is kept by its methods *)

Global Instance keeps_wf_preorder : PreOrder keeps_wf.
Proof. split; [intros hm H; exact H | intros a b c H1 H2 H; exact (H2 (H1 H))]. Qed.

Lemma wf_host_windows hm : wf_host hm <-> wf_windows hm /\ "Activity" ∈ dict_keys (metrics hm).
Proof.
  split.
  - intros []. split; [by constructor | done].
  - intros [[] ?]. by constructor.
Qed.

(** Only the dictionaries, the length of the store and the sample count matter. *)
Lemma wf_windows_eq hm hm' :
  metrics hm' = metrics hm ->
  normalized_metrics hm' = normalized_metrics hm ->
  length (store hm') = length (store hm) ->
  current_samples hm' = current_samples hm ->
  wf_windows hm -> wf_windows hm'.
Proof.
  intros Hm Hn Hs Hc []. constructor; rewrite ?Hm, ?Hn, ?Hs, ?Hc; done.
Qed.

Lemma wf_host_eq hm hm' :
  metrics hm' = metrics hm ->
  normalized_metrics hm' = normalized_metrics hm ->
  length (store hm') = length (store hm) ->
  current_samples hm' = current_samples hm ->
  wf_host hm -> wf_host hm'.
Proof.
  intros Hm Hn Hs Hc. rewrite !wf_host_windows, Hm. intros [H ?].
  split; [by eapply wf_windows_eq | done].
Qed.

Ltac keeps_wf_modify :=
  apply steps_modify; intros ? ?; eapply wf_host_eq; [..|eassumption];
  cbn; rewrite ?length_insert; done.

Ltac keeps_wf_tac := steps_tac; try keeps_wf_modify.

Lemma deque_read_keeps_wf r : steps keeps_wf (deque_read r).
Proof. intros hm. rewrite deque_read_unchanged. reflexivity. Qed.

#[global] Hint Resolve deque_read_keeps_wf : steps.

Lemma deque_append_keeps_wf r v : steps keeps_wf (deque_append r v).
Proof. unfold deque_append. keeps_wf_tac. Qed.

Lemma deque_popleft_keeps_wf r : steps keeps_wf (deque_popleft r).
Proof. unfold deque_popleft. keeps_wf_tac. Qed.

Lemma deque_from_end_keeps_wf r i : steps keeps_wf (deque_from_end r i).
Proof. unfold deque_from_end. keeps_wf_tac. Qed.

Lemma metrics_ref_keeps_wf key : steps keeps_wf (metrics_ref key).
Proof. unfold metrics_ref. keeps_wf_tac. Qed.

Lemma normalized_ref_keeps_wf key : steps keeps_wf (normalized_ref key).
Proof. unfold normalized_ref. keeps_wf_tac. Qed.

#[global] Hint Resolve deque_append_keeps_wf deque_popleft_keeps_wf
  deque_from_end_keeps_wf metrics_ref_keeps_wf normalized_ref_keeps_wf : steps.

Lemma adjust_activity_keeps_wf : steps keeps_wf adjust_activity.
Proof. unfold adjust_activity. keeps_wf_tac. Qed.

#[global] Hint Resolve adjust_activity_keeps_wf : steps.

(** Sharing the raw deque of a metric with its normalized entry. *)
Lemma NoDup_snd_dict_set (d : list (string * nat)) k r :
  NoDup (map snd d) ->
  (forall k' r', (k', r') ∈ d -> r' = r -> k' = k) ->
  NoDup (dict_keys d) ->
  NoDup (map snd (dict_set k r d)).
Proof.
  induction d as [|[k0 r0] d IH]; cbn; intros Hnd Hr Hk.
  - apply NoDup_singleton.
  - pose proof (NoDup_cons_1_1 _ _ Hnd) as Hr0. apply NoDup_cons_1_2 in Hnd.
    pose proof (NoDup_cons_1_1 _ _ Hk) as Hk0. apply NoDup_cons_1_2 in Hk.
    destruct (decide (k = k0)) as [->|Hne]; cbn.
    + apply NoDup_cons_2; [|done]. intros Hin.
      apply list_elem_of_fmap in Hin as [[k' r'] [-> Hin]]. cbn in *.
      assert (k' = k0) as -> by (apply (Hr k' r'); [by apply list_elem_of_further | done]).
      apply Hk0. by apply (list_elem_of_fmap_2 fst) in Hin.
    + apply NoDup_cons_2.
      * intros Hin. apply list_elem_of_fmap in Hin as [[k' r'] [Heq Hin]]. cbn in Heq.
        apply dict_set_elem in Hin as [Hnew|Hin].
        -- apply Hne. symmetry. apply (Hr k0 r0); [apply list_elem_of_here | congruence].
        -- apply Hr0. apply (list_elem_of_fmap_2 snd) in Hin. cbn in Hin. by rewrite Heq.
      * apply IH; [done | | done].
        intros k' r' Hin. apply Hr. by apply list_elem_of_further.
Qed.

Lemma NoDup_snd_inj (d : list (string * nat)) k k' r :
  NoDup (map snd d) -> (k, r) ∈ d -> (k', r) ∈ d -> k = k'.
Proof.
  induction d as [|[k0 r0] d IH]; cbn; intros Hnd H1 H2; [by apply elem_of_nil in H1|].
  pose proof (NoDup_cons_1_1 _ _ Hnd) as Hr0. apply NoDup_cons_1_2 in Hnd.
  apply elem_of_cons in H1 as [[= -> ->]|H1]; apply elem_of_cons in H2 as [[= ->]|H2].
  - done.
  - exfalso. apply Hr0. by apply (list_elem_of_fmap_2 snd) in H2.
  - exfalso. subst. apply Hr0. by apply (list_elem_of_fmap_2 snd) in H1.
  - by apply IH.
Qed.

Lemma share_activity_keeps_wf hm r :
  dict_get "Activity" (metrics hm) = Some r ->
  wf_host hm ->
  wf_host (set_normalized_metrics (dict_set "Activity" r) hm).
Proof.
  intros Hr [Hkeys Hnd Hact Hraw Hnorm Hrd Hnrd Hown Hcur].
  pose proof (dict_get_Some_elem _ _ _ Hr) as Hin.
  constructor;
    cbn [metrics normalized_metrics store current_samples set_normalized_metrics]; try done.
  - rewrite dict_keys_set_elem; [done | by rewrite Hkeys].
  - apply dict_set_Forall; [|done]. rewrite list.Forall_forall in Hraw. by apply (Hraw _ Hin).
  - apply NoDup_snd_dict_set; [done | | by rewrite Hkeys].
    intros k' r' Hin' ->. symmetry. by eapply Hown.
  - intros k r0 k' Hk Hk'. apply dict_set_elem in Hk' as [[= -> ->]|Hk'].
    + eapply NoDup_snd_inj; [exact Hrd | exact Hk | exact Hin].
    + by eapply Hown.
Qed.

Lemma steps_bind_at {S A B} (R : relation S) `{!PreOrder R} (m : M S A) (f : A -> M S B) s :
  R s (snd (m s)) -> (forall a, steps R (f a)) -> R s (snd (bind m f s)).
Proof.
  intros Hm Hf. unfold bind. destruct (m s) as [[a|e] s1]; cbn [snd] in *; [|exact Hm].
  etrans; [exact Hm | apply Hf].
Qed.

Lemma share_then_adjust_keeps_wf :
  steps keeps_wf
    (r <- metrics_ref "Activity" ;;
     modify (set_normalized_metrics (dict_set "Activity" r)) ;;;
     adjust_activity).
Proof.
  intros hm Hwf. unfold bind at 1, metrics_ref, bind at 1, get, getitem.
  destruct (dict_get "Activity" (metrics hm)) as [r|] eqn:Hr; [|exact Hwf].
  unfold ret at 1, bind at 1, modify at 1.
  apply adjust_activity_keeps_wf. by apply share_activity_keeps_wf.
Qed.

#[global] Hint Resolve share_then_adjust_keeps_wf : steps.

Lemma drop_oldest_keeps_wf item : steps keeps_wf (drop_oldest item).
Proof. destruct item. unfold drop_oldest. keeps_wf_tac. Qed.

Lemma append_sample_keeps_wf item : steps keeps_wf (append_sample item).
Proof. destruct item. unfold append_sample. keeps_wf_tac. Qed.

#[global] Hint Resolve drop_oldest_keeps_wf append_sample_keeps_wf : steps.

Lemma record_sample_keeps_wf sample_metrics : steps keeps_wf (record_sample sample_metrics).
Proof.
  intros hm. unfold record_sample, bind at 1, get at 1.
  apply steps_bind_at; [typeclasses eauto| |intros _; keeps_wf_tac].
  case_bool_decide.
  - match goal with
    | |- keeps_wf ?s (snd (?m ?s)) => cut (steps keeps_wf m); [intros Hs; apply Hs|]
    end.
    keeps_wf_tac.
  - intros Hwf. destruct Hwf. constructor; cbn; try done. lia.
Qed.

Lemma reconfigure_keeps_wf a b c d : steps keeps_wf (reconfigure a b c d).
Proof. unfold reconfigure, adjust_sample_size. keeps_wf_tac. Qed.

Lemma same_windows_keeps_wf hm hm' : same_windows hm hm' -> wf_host hm -> wf_host hm'.
Proof. intros ->. by apply wf_host_eq. Qed.

Lemma update_deltas_keeps_wf global : steps keeps_wf (update_deltas global).
Proof.
  intros hm Hwf. eapply same_windows_keeps_wf; [apply update_deltas_same_windows | done].
Qed.

#[global] Hint Resolve record_sample_keeps_wf reconfigure_keeps_wf update_deltas_keeps_wf
  : steps.

(** ** The constructor *)

Lemma insert_at_end {A} (l : list A) (x y : A) : <[length l := x]> (l ++ [y]) = l ++ [x].
Proof. rewrite insert_app_r_alt by lia. by rewrite Nat.sub_diag. Qed.

(** Equations for running the primitives. *)
Lemma bind_Ok {S A B} (m : M S A) (f : A -> M S B) s a s1 :
  m s = (Ok a, s1) -> bind m f s = f a s1.
Proof. intros H. unfold bind. by rewrite H. Qed.

Lemma bind_Raise {S A B} (m : M S A) (f : A -> M S B) s e s1 :
  m s = (Raise e, s1) -> bind m f s = (Raise e, s1).
Proof. intros H. unfold bind. by rewrite H. Qed.

Lemma metrics_ref_Ok key hm r :
  dict_get key (metrics hm) = Some r -> metrics_ref key hm = (Ok r, hm).
Proof. intros H. unfold metrics_ref, bind, get, getitem. by rewrite H. Qed.

Lemma metrics_ref_KeyError key hm :
  dict_get key (metrics hm) = None -> metrics_ref key hm = (Raise KeyError, hm).
Proof. intros H. unfold metrics_ref, bind, get, getitem. by rewrite H. Qed.

Lemma normalized_ref_Ok key hm r :
  dict_get key (normalized_metrics hm) = Some r -> normalized_ref key hm = (Ok r, hm).
Proof. intros H. unfold normalized_ref, bind, get, getitem. by rewrite H. Qed.

Lemma deque_read_Ok r hm d : store hm !! r = Some d -> deque_read r hm = (Ok d, hm).
Proof. intros H. unfold deque_read. by rewrite H. Qed.

Lemma deque_append_Ok r v hm d :
  store hm !! r = Some d ->
  deque_append r v hm = (Ok tt, set_store (fun st => <[r := d ++ [v]]> st) hm).
Proof. intros H. unfold deque_append. by rewrite (bind_Ok _ _ _ _ _ (deque_read_Ok _ _ _ H)). Qed.

Lemma deque_popleft_Ok r hm x d :
  store hm !! r = Some (x :: d) ->
  deque_popleft r hm = (Ok x, set_store (fun st => <[r := d]> st) hm).
Proof. intros H. unfold deque_popleft. by rewrite (bind_Ok _ _ _ _ _ (deque_read_Ok _ _ _ H)). Qed.

Lemma deque_from_end_Ok r i hm d x :
  store hm !! r = Some d -> rev d !! (i - 1)%nat = Some x ->
  deque_from_end r i hm = (Ok x, hm).
Proof.
  intros H Hx. unfold deque_from_end.
  rewrite (bind_Ok _ _ _ _ _ (deque_read_Ok _ _ _ H)). by rewrite Hx.
Qed.

(** One iteration of the constructor's loop. *)
Lemma init_step key value hm :
  (r <- deque_new ;;
   modify (set_metrics (dict_set key r)) ;;;
   r <- metrics_ref key ;;
   deque_append r value ;;;
   rn <- deque_new ;;
   modify (set_normalized_metrics (dict_set key rn)) ;;;
   rn <- normalized_ref key ;;
   deque_append rn value) hm = (Ok tt, seed hm (key, value)).
Proof.
  destruct hm as [st ms ns mx cs at_ it pn ds ac].
  erewrite bind_Ok by reflexivity.
  erewrite bind_Ok by reflexivity.
  erewrite bind_Ok by (apply metrics_ref_Ok; cbn; apply dict_get_set_eq).
  erewrite bind_Ok.
  2:{ apply deque_append_Ok. cbn. rewrite lookup_app_r by lia.
      by rewrite Nat.sub_diag. }
  erewrite bind_Ok by reflexivity.
  erewrite bind_Ok by reflexivity.
  erewrite bind_Ok by (apply normalized_ref_Ok; cbn; apply dict_get_set_eq).
  erewrite deque_append_Ok.
  2:{ cbn. rewrite insert_at_end. rewrite lookup_app_r by lia.
      by rewrite Nat.sub_diag. }
  unfold seed, set_store, set_metrics, set_normalized_metrics.
  cbn [store metrics normalized_metrics max_samples current_samples activity_threshold
       inactivity_threshold pref_normalized deltas active fst snd].
  rewrite !insert_at_end. rewrite <- app_assoc. cbn [app].
  rewrite length_app. cbn [length]. by rewrite Nat.add_1_r.
Qed.

Lemma init_loop initial_metrics : forall hm,
  for_each initial_metrics (fun '(key, value) =>
    r <- deque_new ;;
    modify (set_metrics (dict_set key r)) ;;;
    r <- metrics_ref key ;;
    deque_append r value ;;;
    rn <- deque_new ;;
    modify (set_normalized_metrics (dict_set key rn)) ;;;
    rn <- normalized_ref key ;;
    deque_append rn value) hm = (Ok tt, foldl seed hm initial_metrics).
Proof.
  induction initial_metrics as [|[key value] l IH]; intros hm; [done|].
  cbn [for_each foldl]. unfold bind at 1. rewrite init_step. apply IH.
Qed.

Lemma blank_wf_windows ms at_ it pn : wf_windows (blank_HostMetrics ms at_ it pn).
Proof.
  constructor; cbn; try done; try apply NoDup_nil_2.
  intros k r k' H. by apply elem_of_nil in H.
Qed.

Lemma seed_wf_windows hm kv : wf_windows hm -> wf_windows (seed hm kv).
Proof.
  destruct kv as [key value]. intros [Hkeys Hnd Hraw Hnorm Hrd Hnrd Hown Hcur].
  rewrite list.Forall_forall in Hraw. rewrite list.Forall_forall in Hnorm.
  assert (Hfresh : forall k r, (k, r) ∈ metrics hm -> (r < length (store hm))%nat).
  { intros k r H. apply (Hraw _ H). }
  assert (Hfreshn : forall k r, (k, r) ∈ normalized_metrics hm -> (r < length (store hm))%nat).
  { intros k r H. apply (Hnorm _ H). }
  constructor; unfold seed;
    cbn [store metrics normalized_metrics current_samples set_store set_metrics
         set_normalized_metrics fst snd].
  - rewrite !dict_keys_set, Hkeys. done.
  - by apply dict_set_NoDup.
  - apply dict_set_Forall; cbn; [rewrite length_app; cbn; lia|].
    apply list.Forall_forall. intros [k r] H. cbn. rewrite length_app.
    specialize (Hfresh k r H). lia.
  - apply dict_set_Forall; cbn; [rewrite length_app; cbn; lia|].
    apply list.Forall_forall. intros [k r] H. cbn. rewrite length_app.
    specialize (Hfreshn k r H). lia.
  - apply NoDup_snd_dict_set; [done | | done].
    intros k' r' H ->. specialize (Hfresh _ _ H). lia.
  - apply NoDup_snd_dict_set; [done | | by rewrite Hkeys].
    intros k' r' H ->. specialize (Hfreshn _ _ H). lia.
  - intros k r k' H H'.
    apply dict_set_elem in H as [[= -> ->]|H]; apply dict_set_elem in H' as [[= ->]|H'].
    + done.
    + specialize (Hfreshn _ _ H'). lia.
    + subst. specialize (Hfresh _ _ H). lia.
    + by eapply Hown.
  - done.
Qed.

Lemma foldl_seed_wf_windows l : forall hm, wf_windows hm -> wf_windows (foldl seed hm l).
Proof.
  induction l as [|kv l IH]; intros hm H; [done|]. cbn. by apply IH, seed_wf_windows.
Qed.

Lemma seed_keys hm kv k :
  k ∈ dict_keys (metrics (seed hm kv)) <-> k = fst kv \/ k ∈ dict_keys (metrics hm).
Proof.
  unfold seed. cbn [metrics set_store set_metrics set_normalized_metrics].
  rewrite dict_keys_set. case_bool_decide as Hin.
  - split; [by right | intros [->|?]; done].
  - rewrite elem_of_app, list_elem_of_singleton. tauto.
Qed.

Lemma foldl_seed_keys l : forall hm k,
  k ∈ dict_keys (metrics (foldl seed hm l)) <-> k ∈ dict_keys l \/ k ∈ dict_keys (metrics hm).
Proof.
  induction l as [|kv l IH]; intros hm k; cbn.
  - rewrite elem_of_nil. tauto.
  - rewrite IH, seed_keys, elem_of_cons. tauto.
Qed.

Lemma seed_other_fields hm kv :
  current_samples (seed hm kv) = current_samples hm /\
  max_samples (seed hm kv) = max_samples hm /\
  activity_threshold (seed hm kv) = activity_threshold hm /\
  inactivity_threshold (seed hm kv) = inactivity_threshold hm /\
  pref_normalized (seed hm kv) = pref_normalized hm /\
  deltas (seed hm kv) = deltas hm /\
  active (seed hm kv) = active hm.
Proof. done. Qed.

Lemma foldl_seed_other_fields l : forall hm,
  current_samples (foldl seed hm l) = current_samples hm /\
  max_samples (foldl seed hm l) = max_samples hm /\
  activity_threshold (foldl seed hm l) = activity_threshold hm /\
  inactivity_threshold (foldl seed hm l) = inactivity_threshold hm /\
  pref_normalized (foldl seed hm l) = pref_normalized hm /\
  deltas (foldl seed hm l) = deltas hm /\
  active (foldl seed hm l) = active hm.
Proof.
  induction l as [|kv l IH]; intros hm; [done|]. cbn.
  destruct (IH (seed hm kv)) as (-> & -> & -> & -> & -> & -> & ->). done.
Qed.

(** The windows of the other metrics stay as they are. *)
Lemma seed_other_windows hm kv m :
  wf_windows hm -> m <> fst kv ->
  raw_window (seed hm kv) m = raw_window hm m /\
  normalized_window (seed hm kv) m = normalized_window hm m.
Proof.
  intros Hwf Hne. unfold raw_window, normalized_window, seed.
  cbn [store metrics normalized_metrics set_store set_metrics set_normalized_metrics].
  rewrite !dict_get_set_ne by done.
  pose proof (wfw_raw_refs _ Hwf) as Hraw. rewrite list.Forall_forall in Hraw.
  pose proof (wfw_normalized_refs _ Hwf) as Hnorm. rewrite list.Forall_forall in Hnorm.
  split.
  - destruct (dict_get m (metrics hm)) as [r|] eqn:Hr; [|done].
    apply dict_get_Some_elem, Hraw in Hr. cbn in Hr. by rewrite lookup_app_l.
  - destruct (dict_get m (normalized_metrics hm)) as [r|] eqn:Hr; [|done].
    apply dict_get_Some_elem, Hnorm in Hr. cbn in Hr. by rewrite lookup_app_l.
Qed.

Lemma foldl_seed_other_windows l : forall hm m,
  wf_windows hm -> m ∉ dict_keys l ->
  raw_window (foldl seed hm l) m = raw_window hm m /\
  normalized_window (foldl seed hm l) m = normalized_window hm m.
Proof.
  induction l as [|kv l IH]; intros hm m Hwf Hm; [done|]. cbn in *.
  apply not_elem_of_cons in Hm as [Hne Hm].
  destruct (IH (seed hm kv) m) as [-> ->]; [by apply seed_wf_windows | done|].
  by apply seed_other_windows.
Qed.

Lemma seed_window hm key value :
  raw_window (seed hm (key, value)) key = Some [value] /\
  normalized_window (seed hm (key, value)) key = Some [value].
Proof.
  unfold raw_window, normalized_window, seed.
  cbn [store metrics normalized_metrics set_store set_metrics set_normalized_metrics fst snd].
  rewrite !dict_get_set_eq. split.
  - rewrite lookup_app_r by lia. by rewrite Nat.sub_diag.
  - rewrite lookup_app_r by lia. by replace (S (length (store hm)) - length (store hm))%nat
      with 1%nat by lia.
Qed.

Lemma foldl_seed_windows l : forall hm m v,
  wf_windows hm -> NoDup (dict_keys l) -> dict_get m l = Some v ->
  raw_window (foldl seed hm l) m = Some [v] /\
  normalized_window (foldl seed hm l) m = Some [v].
Proof.
  induction l as [|[key value] l IH]; intros hm m v Hwf Hnd Hget; [done|].
  unfold dict_keys in Hnd. cbn [map fst] in Hnd. fold (dict_keys l) in Hnd.
  pose proof (NoDup_cons_1_1 _ _ Hnd) as Hkey. apply NoDup_cons_1_2 in Hnd.
  cbn [foldl]. cbn [dict_get] in Hget. destruct (decide (m = key)) as [->|Hne].
  - injection Hget as <-.
    destruct (foldl_seed_other_windows l (seed hm (key, value)) key) as [-> ->];
      [by apply seed_wf_windows | done|].
    apply seed_window.
  - apply IH; [by apply seed_wf_windows | done | done].
Qed.

(** The adjustment returns on a well-formed host and changes the bit only. *)
Lemma adjust_activity_Ok hm :
  wf_host hm ->
  exists d,
    raw_window hm "Activity" = Some d /\
    adjust_activity hm =
      (Ok tt,
       set_active
         (if bool_decide (qz (activity_threshold hm) < py_sum d)%Qc then true
          else if bool_decide (py_sum d < qz (inactivity_threshold hm))%Qc then false
          else active hm) hm).
Proof.
  intros Hwf. pose proof (wf_activity _ Hwf) as Hact.
  apply dict_get_is_Some in Hact as [r Hr].
  pose proof (wf_raw_refs _ Hwf) as Hraw. rewrite list.Forall_forall in Hraw.
  pose proof (dict_get_Some_elem _ _ _ Hr) as Hin. apply Hraw in Hin. cbn in Hin.
  apply lookup_lt_is_Some_2 in Hin as [d Hd].
  exists d. split; [unfold raw_window; by rewrite Hr|].
  unfold adjust_activity.
  rewrite (bind_Ok _ _ _ _ _ (metrics_ref_Ok _ _ _ Hr)).
  rewrite (bind_Ok _ _ _ _ _ (deque_read_Ok _ _ _ Hd)).
  unfold bind, get. repeat case_bool_decide; try done. by destruct hm.
Qed.

Lemma set_active_windows b hm m :
  raw_window (set_active b hm) m = raw_window hm m /\
  normalized_window (set_active b hm) m = normalized_window hm m.
Proof. done. Qed.

Lemma py_sum_singleton a : py_sum [a] = a.
Proof. unfold py_sum. cbn. apply Qcplus_0_l. Qed.

(** The constructor returns when the sample has [Activity], and the object
    it returns is well formed, has one sample and windows that hold the
    sample's values; it is active when the Activity value exceeds the
    activity threshold. *)
Lemma new_HostMetrics_spec initial_metrics ms at_ it pn :
  "Activity" ∈ dict_keys initial_metrics ->
  exists hm,
    new_HostMetrics initial_metrics ms at_ it pn = Ok hm /\
    wf_host hm /\
    current_samples hm = 1 /\
    max_samples hm = ms /\
    pref_normalized hm = pn /\
    deltas hm = [] /\
    (forall k, k ∈ dict_keys (metrics hm) <-> k ∈ dict_keys initial_metrics) /\
    (NoDup (dict_keys initial_metrics) ->
     (forall m v, dict_get m initial_metrics = Some v ->
        raw_window hm m = Some [v] /\ normalized_window hm m = Some [v]) /\
     (forall a, dict_get "Activity" initial_metrics = Some a ->
        active hm = bool_decide (qz (activity_threshold hm) < a)%Qc)).
Proof.
  intros Hact. set (blank := blank_HostMetrics ms at_ it pn).
  set (hm1 := foldl seed blank initial_metrics).
  assert (Hwf1 : wf_host hm1).
  { apply wf_host_windows. split; [apply foldl_seed_wf_windows, blank_wf_windows|].
    apply foldl_seed_keys. by left. }
  destruct (adjust_activity_Ok hm1 Hwf1) as (d & Hd & Hb).
  set (b := if bool_decide (qz (activity_threshold hm1) < py_sum d)%Qc then true
            else if bool_decide (py_sum d < qz (inactivity_threshold hm1))%Qc then false
            else active hm1) in Hb.
  exists (set_active b hm1).
  destruct (foldl_seed_other_fields initial_metrics blank)
    as (Hc & Hm & _ & _ & Hp & Hde & Hac).
  split; [|split; [|split; [|split; [|split; [|split; [|split]]]]]].
  - unfold new_HostMetrics, init_body. fold blank.
    unfold dict_mem. rewrite bool_decide_eq_true_2 by done.
    erewrite bind_Ok by reflexivity.
    rewrite (bind_Ok _ _ _ _ _ (init_loop initial_metrics blank)).
    fold hm1. by rewrite Hb.
  - by eapply wf_host_eq; [..|exact Hwf1].
  - change (current_samples hm1 = 1). unfold hm1. by rewrite Hc.
  - change (max_samples hm1 = ms). unfold hm1. by rewrite Hm.
  - change (pref_normalized hm1 = pn). unfold hm1. by rewrite Hp.
  - change (deltas hm1 = []). unfold hm1. by rewrite Hde.
  - intros k. cbn [metrics set_active]. unfold hm1. rewrite foldl_seed_keys. cbn.
    rewrite elem_of_nil. tauto.
  - intros Hnd. split.
    + intros m v Hget. destruct (set_active_windows b hm1 m) as [-> ->].
      apply foldl_seed_windows; [apply blank_wf_windows | done | done].
    + intros a Ha. change (b = bool_decide (qz (activity_threshold hm1) < a)%Qc).
      destruct (foldl_seed_windows initial_metrics blank "Activity" a) as [Hw _];
        [apply blank_wf_windows | done | done|].
      fold hm1 in Hw. rewrite Hw in Hd. injection Hd as <-.
      unfold b. rewrite py_sum_singleton.
      assert (Hfalse : active hm1 = false) by (unfold hm1; by rewrite Hac).
      rewrite Hfalse. by repeat case_bool_decide.
Qed.

Lemma new_HostMetrics_wf initial_metrics ms at_ it pn hm :
  new_HostMetrics initial_metrics ms at_ it pn = Ok hm -> wf_host hm.
Proof.
  intros H. destruct (decide ("Activity" ∈ dict_keys initial_metrics)) as [Hact|Hact].
  - destruct (new_HostMetrics_spec initial_metrics ms at_ it pn Hact) as (hm' & H' & Hwf & _).
    rewrite H in H'. by injection H' as ->.
  - unfold new_HostMetrics, init_body, dict_mem in H.
    rewrite bool_decide_eq_false_2 in H by done.
    erewrite bind_Raise in H by reflexivity. done.
Qed.

(** ** Well-formedness of the detector is kept by its handlers *)

Global Instance keeps_wf_detector_preorder : PreOrder keeps_wf_detector.
Proof. split; [intros s H; exact H | intros a b c H1 H2 H; exact (H2 (H1 H))]. Qed.

Lemma wf_detector_eq s s' : host_metrics s' = host_metrics s -> wf_detector s -> wf_detector s'.
Proof. intros Hh []. constructor; by rewrite Hh. Qed.

Lemma wf_detector_set_host s h hm :
  wf_host hm -> wf_detector s -> wf_detector (set_host_metrics (dict_set h hm) s).
Proof.
  intros Hhm [Hnd Hwf]. constructor; cbn.
  - by apply dict_set_NoDup.
  - by apply dict_set_Forall.
Qed.

Lemma on_host_keeps_wf {A} h (method : M HostMetrics A) :
  steps keeps_wf method -> steps keeps_wf_detector (on_host h method).
Proof.
  intros H s Hwf. unfold on_host.
  destruct (dict_get h (host_metrics s)) as [hm|] eqn:E; [|exact Hwf].
  specialize (H hm). destruct (method hm) as [r hm']. cbn [snd] in *.
  apply wf_detector_set_host; [|done]. apply H.
  pose proof (wf_hosts _ Hwf) as Hall. rewrite list.Forall_forall in Hall.
  apply dict_get_Some_elem in E. apply (Hall _ E).
Qed.

Ltac keeps_wf_detector_tac :=
  steps_tac;
  try (apply steps_modify; intros ? ?; eapply wf_detector_eq; [|eassumption]; done);
  try (apply on_host_keeps_wf; auto with steps).

Lemma get_metrics_keeps_wf : steps keeps_wf get_metrics.
Proof. intros hm. rewrite get_metrics_state. reflexivity. Qed.

#[global] Hint Resolve get_metrics_keeps_wf : steps.

Lemma update_config_keeps_wf c : steps keeps_wf_detector (update_config c).
Proof. unfold update_config. keeps_wf_detector_tac. Qed.

Lemma trigger_flag_keeps_wf deltas keys : steps keeps_wf_detector (trigger_flag deltas keys).
Proof. intros s. rewrite trigger_flag_unchanged. reflexivity. Qed.

#[global] Hint Resolve trigger_flag_keeps_wf : steps.

Lemma after_recording_keeps_wf : steps keeps_wf_detector after_recording.
Proof.
  unfold after_recording, update_global_metrics, include_host, divide_metric, accumulate,
    update_host_deltas, update_host_flags, flag_host, dispatch_mitigation, emit.
  keeps_wf_detector_tac.
Qed.

Lemma record_host_keeps_wf h sample : steps keeps_wf_detector (record_host h sample).
Proof.
  unfold record_host. apply steps_except_KeyError; [typeclasses eauto|..].
  - apply on_host_keeps_wf, record_sample_keeps_wf.
  - intros s Hwf. unfold bind, get.
    destruct (new_HostMetrics _ _ _ _ _) as [hm|e] eqn:E; [|exact Hwf].
    apply wf_detector_set_host; [|done]. by eapply new_HostMetrics_wf.
Qed.

#[global] Hint Resolve record_host_keeps_wf after_recording_keeps_wf : steps.

Lemma update_metrics_keeps_wf metrics : steps keeps_wf_detector (update_metrics metrics).
Proof. unfold update_metrics. keeps_wf_detector_tac. Qed.

(** Every reachable state is well formed. *)
Lemma reachable_wf s : reachable s -> wf_detector s.
Proof.
  induction 1 as [c|s metrics _ IH _|s c _ IH].
  - constructor; cbn; [apply NoDup_nil_2 | constructor].
  - by apply update_metrics_keeps_wf.
  - by apply update_config_keeps_wf.
Qed.

(** ** A sample that names a metric the host does not have *)

Lemma dict_set_twice {V} k (v v' : V) d : dict_set k v' (dict_set k v d) = dict_set k v' d.
Proof.
  induction d as [|[k0 v0] d IH]; cbn.
  - by rewrite decide_True.
  - destruct (decide (k = k0)) as [->|Hne]; cbn.
    + by rewrite decide_True.
    + rewrite decide_False by done. by rewrite IH.
Qed.

(** The sample splits at the first metric that the host does not have. *)
Lemma split_first_unknown (known : list string) (sample : list (string * Qc)) :
  (exists key, key ∈ dict_keys sample /\ key ∉ known) ->
  exists pre k v post,
    sample = pre ++ (k, v) :: post /\
    (forall x, x ∈ dict_keys pre -> x ∈ known) /\
    k ∉ known.
Proof.
  induction sample as [|[k v] sample IH]; intros (key & Hin & Hnot).
  - by apply elem_of_nil in Hin.
  - destruct (decide (k ∈ known)) as [Hk|Hk].
    + destruct IH as (pre & k' & v' & post & -> & Hpre & Hk').
      { exists key. split; [|done]. cbn in Hin. apply elem_of_cons in Hin as [->|Hin]; done. }
      exists ((k, v) :: pre), k', v', post. split; [done|]. split; [|done].
      intros x Hx. cbn in Hx. apply elem_of_cons in Hx as [->|Hx]; [done | by apply Hpre].
    + exists [], k, v, sample. split; [done|]. split; [|done].
      intros x Hx. by apply elem_of_nil in Hx.
Qed.

Lemma windows_ready_ready hm key :
  wf_host hm -> windows_ready hm = true -> key ∈ dict_keys (metrics hm) -> ready hm key.
Proof.
  intros Hwf Hready Hkey. apply dict_get_is_Some in Hkey as [r Hr].
  unfold windows_ready in Hready. rewrite forallb_forall in Hready.
  pose proof (dict_get_Some_elem _ _ _ Hr) as Hin.
  apply list_elem_of_In, Hready in Hin. cbn [fst snd] in Hin.
  destruct (dict_get key (normalized_metrics hm)) as [rn|] eqn:Hrn; [|done].
  destruct (store hm !! r) as [d|] eqn:Hd; [|done].
  destruct (store hm !! rn) as [dn|] eqn:Hdn; [|done].
  apply andb_prop in Hin as [Hin H2]. apply andb_prop in Hin as [Hne Hnen].
  exists r, rn, d, dn. repeat split; try done.
  - apply negb_true_iff, bool_decide_eq_false_1 in Hne. done.
  - apply negb_true_iff, bool_decide_eq_false_1 in Hnen. done.
  - intros Heq. rewrite decide_True in H2 by done. by apply bool_decide_eq_true_1 in H2.
Qed.

(** The references of two different metrics are different. *)
Lemma wf_host_refs_apart hm key key' r :
  wf_host hm -> key <> key' ->
  (dict_get key (metrics hm) = Some r \/ dict_get key (normalized_metrics hm) = Some r) ->
  dict_get key' (metrics hm) <> Some r /\ dict_get key' (normalized_metrics hm) <> Some r.
Proof.
  intros Hwf Hne Hr.
  split; intros Hr'; apply dict_get_Some_elem in Hr'; apply Hne;
    destruct Hr as [Hr|Hr]; apply dict_get_Some_elem in Hr.
  - eapply NoDup_snd_inj; [apply (wf_raw_distinct _ Hwf) | done | done].
  - symmetry. by eapply (wf_own _ Hwf).
  - by eapply (wf_own _ Hwf).
  - eapply NoDup_snd_inj; [apply (wf_normalized_distinct _ Hwf) | done | done].
Qed.

Lemma ready_touches_only hm hm1 key key' :
  wf_host hm -> key <> key' -> touches_only hm hm1 key -> ready hm key' -> ready hm1 key'.
Proof.
  intros Hwf Hne (Hm & Hn & _ & _ & Hs) (r & rn & d & dn & Hr & Hrn & Hd & Hdn & H).
  exists r, rn, d, dn. rewrite Hm, Hn.
  destruct (wf_host_refs_apart hm key' key r Hwf) as [? ?]; [done | by left|].
  destruct (wf_host_refs_apart hm key' key rn Hwf) as [? ?]; [done | by right|].
  rewrite !Hs by done. done.
Qed.

Lemma touches_only_wf hm hm1 key : touches_only hm hm1 key -> wf_host hm -> wf_host hm1.
Proof. intros (Hm & Hn & Hl & Hc & _). by apply wf_host_eq. Qed.

(** A loop whose body works on the deques of one metric raises [KeyError]
    at the first metric the host does not have. *)
Lemma loop_raises_KeyError (body : string * Qc -> M HostMetrics unit) :
  (forall hm key value, wf_host hm -> ready hm key ->
     exists hm1, body (key, value) hm = (Ok tt, hm1) /\ touches_only hm hm1 key) ->
  (forall hm key value, dict_get key (metrics hm) = None ->
     exists hm1, body (key, value) hm = (Raise KeyError, hm1)) ->
  forall pre k v post hm,
    wf_host hm ->
    NoDup (dict_keys (pre ++ (k, v) :: post)) ->
    (forall x, x ∈ dict_keys pre -> ready hm x) ->
    dict_get k (metrics hm) = None ->
    exists hm', for_each (pre ++ (k, v) :: post) body hm = (Raise KeyError, hm').
Proof.
  intros Hknown Hunknown pre k v post.
  induction pre as [|[k0 v0] pre IH]; intros hm Hwf Hnd Hready Hk.
  - destruct (Hunknown hm k v Hk) as [hm1 H1]. exists hm1.
    cbn [app for_each]. by rewrite (bind_Raise _ _ _ _ _ H1).
  - cbn [app dict_keys map fst] in Hnd. fold (dict_keys (pre ++ (k, v) :: post)) in Hnd.
    pose proof (NoDup_cons_1_1 _ _ Hnd) as Hk0. apply NoDup_cons_1_2 in Hnd.
    destruct (Hknown hm k0 v0 Hwf) as (hm1 & H1 & Htouch).
    { apply Hready. apply list_elem_of_here. }
    destruct (IH hm1) as [hm' H']; [by eapply touches_only_wf | done | |  |].
    + intros x Hx. eapply ready_touches_only; [done | | done |].
      * intros ->. apply Hk0. unfold dict_keys. rewrite map_app.
        apply elem_of_app. by left.
      * apply Hready. by apply list_elem_of_further.
    + destruct Htouch as (-> & _). done.
    + exists hm'. cbn [app for_each]. by rewrite (bind_Ok _ _ _ _ _ H1).
Qed.

Lemma nonempty_cons {A} (d : list A) : d <> [] -> exists x d', d = x :: d'.
Proof. destruct d as [|x d']; [done|]. intros _. by exists x, d'. Qed.

Lemma touches_only_insert2 hm key r rn d1 d2 :
  dict_get key (metrics hm) = Some r ->
  dict_get key (normalized_metrics hm) = Some rn ->
  touches_only hm
    (set_store (fun st => <[rn := d2]> st) (set_store (fun st => <[r := d1]> st) hm)) key.
Proof.
  intros Hr Hrn. repeat split; cbn; rewrite ?length_insert; try done.
  intros r' H1 H2. rewrite !list_lookup_insert_ne; [done|congruence|congruence].
Qed.

Lemma drop_oldest_ready hm key value :
  wf_host hm -> ready hm key ->
  exists hm1, drop_oldest (key, value) hm = (Ok tt, hm1) /\ touches_only hm hm1 key.
Proof.
  intros Hwf (r & rn & d & dn & Hr & Hrn & Hd & Hdn & Hne & Hnen & Hsame).
  apply nonempty_cons in Hne as (x & d' & ->).
  pose proof (lookup_lt_Some _ _ _ Hd) as Hlen.
  unfold drop_oldest.
  rewrite (bind_Ok _ _ _ _ _ (metrics_ref_Ok _ _ _ Hr)).
  rewrite (bind_Ok _ _ _ _ _ (deque_popleft_Ok _ _ _ _ Hd)).
  erewrite bind_Ok by (by apply normalized_ref_Ok).
  destruct (decide (r = rn)) as [<-|Hneq].
  - specialize (Hsame eq_refl). destruct d' as [|y d'']; [cbn in Hsame; lia|].
    erewrite bind_Ok.
    2:{ apply deque_popleft_Ok. cbn. by apply list_lookup_insert_eq. }
    eexists. split; [reflexivity|]. by apply touches_only_insert2.
  - apply nonempty_cons in Hnen as (y & dn' & ->).
    erewrite bind_Ok.
    2:{ apply deque_popleft_Ok. cbn. rewrite list_lookup_insert_ne by done. exact Hdn. }
    eexists. split; [reflexivity|]. by apply touches_only_insert2.
Qed.

Lemma rev_lookup_last {A} (d : list A) (v : A) : rev (d ++ [v]) !! 0%nat = Some v.
Proof. by rewrite rev_unit. Qed.

Lemma rev_lookup_before_last {A} (d : list A) (v : A) :
  d <> [] -> exists x, rev (d ++ [v]) !! 1%nat = Some x.
Proof.
  intros Hne. rewrite rev_unit. cbn.
  destruct (rev d) as [|x l] eqn:E; [|by exists x].
  apply (f_equal (@length _)) in E. rewrite length_rev in E. by destruct d.
Qed.

Lemma append_sample_ready hm key value :
  wf_host hm -> ready hm key ->
  exists hm1, append_sample (key, value) hm = (Ok tt, hm1) /\ touches_only hm hm1 key.
Proof.
  intros Hwf (r & rn & d & dn & Hr & Hrn & Hd & Hdn & Hne & Hnen & Hsame).
  pose proof (lookup_lt_Some _ _ _ Hd) as Hlen.
  unfold append_sample.
  rewrite (bind_Ok _ _ _ _ _ (metrics_ref_Ok _ _ _ Hr)).
  rewrite (bind_Ok _ _ _ _ _ (deque_append_Ok _ _ _ _ Hd)).
  set (hma := set_store _ hm).
  assert (Hda : store hma !! r = Some (d ++ [value])).
  { unfold hma. cbn. by apply list_lookup_insert_eq. }
  erewrite bind_Ok by (by apply normalized_ref_Ok).
  erewrite bind_Ok by (by apply metrics_ref_Ok).
  erewrite bind_Ok by (eapply deque_from_end_Ok; [exact Hda | apply rev_lookup_last]).
  erewrite bind_Ok by (by apply metrics_ref_Ok).
  destruct (rev_lookup_before_last d value Hne) as [x Hx].
  erewrite bind_Ok by (eapply deque_from_end_Ok; [exact Hda | exact Hx]).
  assert (exists dna, store hma !! rn = Some dna) as [dna Hdna].
  { destruct (decide (r = rn)) as [<-|Hneq]; [by eexists|].
    exists dn. unfold hma. cbn. by rewrite list_lookup_insert_ne. }
  rewrite (deque_append_Ok _ _ _ _ Hdna).
  eexists. split; [reflexivity|]. unfold hma. by apply touches_only_insert2.
Qed.

Lemma drop_oldest_unknown hm key value :
  dict_get key (metrics hm) = None ->
  exists hm1, drop_oldest (key, value) hm = (Raise KeyError, hm1).
Proof.
  intros H. exists hm. unfold drop_oldest.
  by rewrite (bind_Raise _ _ _ _ _ (metrics_ref_KeyError _ _ H)).
Qed.

Lemma append_sample_unknown hm key value :
  dict_get key (metrics hm) = None ->
  exists hm1, append_sample (key, value) hm = (Raise KeyError, hm1).
Proof.
  intros H. exists hm. unfold append_sample.
  by rewrite (bind_Raise _ _ _ _ _ (metrics_ref_KeyError _ _ H)).
Qed.

(** [record_sample] raises [KeyError] on such a sample. *)
Lemma record_sample_KeyError hm sample :
  wf_host hm -> windows_ready hm = true ->
  NoDup (dict_keys sample) ->
  (exists key, key ∈ dict_keys sample /\ key ∉ dict_keys (metrics hm)) ->
  exists hm', record_sample sample hm = (Raise KeyError, hm').
Proof.
  intros Hwf Hready Hnd Hunknown.
  destruct (split_first_unknown _ _ Hunknown) as (pre & k & v & post & -> & Hpre & Hk).
  apply dict_get_None in Hk.
  assert (Hpre' : forall x, x ∈ dict_keys pre -> ready hm x).
  { intros x Hx. by apply windows_ready_ready, Hpre. }
  unfold record_sample. erewrite (bind_Ok get) by reflexivity.
  case_bool_decide as Hfull.
  - destruct (loop_raises_KeyError drop_oldest drop_oldest_ready drop_oldest_unknown
                pre k v post hm Hwf Hnd Hpre' Hk) as [hm' H'].
    exists hm'. by rewrite (bind_Raise _ _ _ _ _ H').
  - erewrite bind_Ok by reflexivity.
    set (hmc := set_current_samples _ hm).
    assert (Hwfc : wf_host hmc).
    { destruct Hwf. constructor; cbn; try done. lia. }
    destruct (loop_raises_KeyError append_sample append_sample_ready append_sample_unknown
                pre k v post hmc Hwfc Hnd) as [hm' H']; [|done|].
    { intros x Hx. destruct (Hpre' x Hx) as (r & rn & d & dn & H). by exists r, rn, d, dn. }
    exists hm'. by rewrite (bind_Raise _ _ _ _ _ H').
Qed.

(** C9 (amended).  A tracked host whose windows are ready (none of them is
    empty, and a deque shared between raw and normalized holds two entries
    at least) receives a sample that has [Activity] and names a metric that
    the host's first sample did not have.  Then phase (a) replaces the host's
    [HostMetrics] by the object the constructor builds from this sample
    alone: one sample, windows that hold the sample's values, and an
    activity bit computed from the sample's [Activity] value; nothing else
    of the detector changes, the flag and deflag counters in particular. *)
Theorem unknown_metric_replaces_host s h hm sample :
  wf_detector s ->
  dict_get h (host_metrics s) = Some hm ->
  windows_ready hm = true ->
  NoDup (dict_keys sample) ->
  "Activity" ∈ dict_keys sample ->
  (exists key, key ∈ dict_keys sample /\ key ∉ dict_keys (metrics hm)) ->
  exists hm',
    new_HostMetrics sample (MaxSamples (configuration s))
      (SamplesBeforeInclusion (configuration s))
      (SamplesBeforeExclusion (configuration s))
      (NormalizeSamples (configuration s)) = Ok hm' /\
    record_host h sample s =
      (Ok tt, set_host_metrics (fun _ => dict_set h hm' (host_metrics s)) s) /\
    host_flags (snd (record_host h sample s)) = host_flags s /\
    host_deflags (snd (record_host h sample s)) = host_deflags s /\
    current_samples hm' = 1 /\
    (forall m, m ∈ dict_keys (metrics hm') <-> m ∈ dict_keys sample) /\
    (forall m v, dict_get m sample = Some v ->
       raw_window hm' m = Some [v] /\ normalized_window hm' m = Some [v]) /\
    (forall a, dict_get "Activity" sample = Some a ->
       active hm' = bool_decide (qz (activity_threshold hm') < a)%Qc).
Proof.
  intros Hwfs Hget Hready Hnd Hact Hunknown.
  assert (Hwf : wf_host hm).
  { pose proof (wf_hosts _ Hwfs) as Hall. rewrite list.Forall_forall in Hall.
    apply dict_get_Some_elem in Hget. apply (Hall _ Hget). }
  destruct (record_sample_KeyError hm sample Hwf Hready Hnd Hunknown) as [hmx Hraise].
  destruct (new_HostMetrics_spec sample (MaxSamples (configuration s))
              (SamplesBeforeInclusion (configuration s))
              (SamplesBeforeExclusion (configuration s))
              (NormalizeSamples (configuration s)) Hact)
    as (hm' & Hnew & _ & Hcur & _ & _ & _ & Hkeys & Hwin).
  destruct (Hwin Hnd) as [Hwindows Hactive].
  assert (Hrun : record_host h sample s =
                 (Ok tt, set_host_metrics (fun _ => dict_set h hm' (host_metrics s)) s)).
  { unfold record_host, except_KeyError, on_host. rewrite Hget, Hraise.
    unfold bind, get. cbn [configuration set_host_metrics]. rewrite Hnew.
    unfold modify, set_host_metrics. cbn. by rewrite dict_set_twice. }
  exists hm'. rewrite Hrun. done.
Qed.

(** ** The sample count without reloads *)

Global Instance keeps_bound_preorder : PreOrder keeps_bound.
Proof.
  split; [by intros hm|].
  intros a b c [H1 H1'] [H2 H2']. split; [congruence|]. intros H. apply H2', H1', H.
Qed.

Ltac keeps_bound_tac :=
  steps_tac; try (apply steps_modify; intros ?; split; [reflexivity | intros H; exact H]).

Lemma deque_read_keeps_bound r : steps keeps_bound (deque_read r).
Proof. intros hm. rewrite deque_read_unchanged. reflexivity. Qed.

#[global] Hint Resolve deque_read_keeps_bound : steps.

Lemma deque_append_keeps_bound r v : steps keeps_bound (deque_append r v).
Proof. unfold deque_append. keeps_bound_tac. Qed.

Lemma deque_popleft_keeps_bound r : steps keeps_bound (deque_popleft r).
Proof. unfold deque_popleft. keeps_bound_tac. Qed.

Lemma deque_from_end_keeps_bound r i : steps keeps_bound (deque_from_end r i).
Proof. unfold deque_from_end. keeps_bound_tac. Qed.

Lemma metrics_ref_keeps_bound key : steps keeps_bound (metrics_ref key).
Proof. unfold metrics_ref. keeps_bound_tac. Qed.

Lemma normalized_ref_keeps_bound key : steps keeps_bound (normalized_ref key).
Proof. unfold normalized_ref. keeps_bound_tac. Qed.

#[global] Hint Resolve deque_append_keeps_bound deque_popleft_keeps_bound
  deque_from_end_keeps_bound metrics_ref_keeps_bound normalized_ref_keeps_bound : steps.

Lemma drop_oldest_keeps_bound item : steps keeps_bound (drop_oldest item).
Proof. destruct item. unfold drop_oldest. keeps_bound_tac. Qed.

Lemma append_sample_keeps_bound item : steps keeps_bound (append_sample item).
Proof. destruct item. unfold append_sample. keeps_bound_tac. Qed.

Lemma adjust_activity_keeps_bound : steps keeps_bound adjust_activity.
Proof. unfold adjust_activity. keeps_bound_tac. Qed.

#[global] Hint Resolve drop_oldest_keeps_bound append_sample_keeps_bound
  adjust_activity_keeps_bound : steps.

(** [record_sample] counts a sample only while the window is not full. *)
Lemma record_sample_keeps_bound sample_metrics :
  steps keeps_bound (record_sample sample_metrics).
Proof.
  intros hm. unfold record_sample, bind at 1, get at 1.
  apply steps_bind_at; [typeclasses eauto| |intros _; keeps_bound_tac].
  case_bool_decide as Hfull.
  - match goal with
    | |- keeps_bound ?s (snd (?m ?s)) => cut (steps keeps_bound m); [intros Hs; apply Hs|]
    end.
    keeps_bound_tac.
  - split; [reflexivity|]. cbn. lia.
Qed.

Lemma update_deltas_keeps_bound global : steps keeps_bound (update_deltas global).
Proof.
  intros hm. pose proof (update_deltas_same_windows global hm) as H.
  unfold same_windows in H. rewrite H. by split.
Qed.

Lemma get_metrics_keeps_bound : steps keeps_bound get_metrics.
Proof. intros hm. rewrite get_metrics_state. reflexivity. Qed.

#[global] Hint Resolve record_sample_keeps_bound update_deltas_keeps_bound
  get_metrics_keeps_bound : steps.

Global Instance keeps_all_bounded_preorder : PreOrder keeps_all_bounded.
Proof.
  split; [by intros s|].
  intros a b c [H1 H1'] [H2 H2']. split; [congruence|].
  intros Hmax H. apply H2'; [by rewrite H1 | by apply H1'].
Qed.

Lemma all_bounded_eq s s' :
  host_metrics s' = host_metrics s -> configuration s' = configuration s ->
  keeps_all_bounded s s'.
Proof. intros Hh Hc. split; [done|]. intros _. unfold all_bounded. by rewrite Hh, Hc. Qed.

Lemma on_host_keeps_all_bounded {A} h (method : M HostMetrics A) :
  steps keeps_bound method -> steps keeps_all_bounded (on_host h method).
Proof.
  intros H s. unfold on_host.
  destruct (dict_get h (host_metrics s)) as [hm|] eqn:E; [|reflexivity].
  specialize (H hm). destruct (method hm) as [r hm']. cbn [snd] in *.
  split; [done|]. intros _ Hall. unfold all_bounded in *. cbn.
  apply dict_set_Forall; [|done]. rewrite list.Forall_forall in Hall.
  apply dict_get_Some_elem, Hall in E. cbn in *. destruct H as [Hm Hc], E as [E1 E2].
  split; [congruence | by apply Hc].
Qed.

Ltac keeps_all_bounded_tac :=
  steps_tac;
  try (apply steps_modify; intros ?; by apply all_bounded_eq);
  try (apply on_host_keeps_all_bounded; auto with steps).

Lemma trigger_flag_keeps_all_bounded deltas keys :
  steps keeps_all_bounded (trigger_flag deltas keys).
Proof. intros s. rewrite trigger_flag_unchanged. reflexivity. Qed.

#[global] Hint Resolve trigger_flag_keeps_all_bounded : steps.

Lemma after_recording_keeps_all_bounded : steps keeps_all_bounded after_recording.
Proof.
  unfold after_recording, update_global_metrics, include_host, divide_metric, accumulate,
    update_host_deltas, update_host_flags, flag_host, dispatch_mitigation, emit.
  keeps_all_bounded_tac.
Qed.

Lemma record_host_keeps_all_bounded h sample : steps keeps_all_bounded (record_host h sample).
Proof.
  unfold record_host. apply steps_except_KeyError; [typeclasses eauto|..].
  - apply on_host_keeps_all_bounded, record_sample_keeps_bound.
  - intros s. unfold bind, get.
    destruct (new_HostMetrics _ _ _ _ _) as [hm|e] eqn:E; [|reflexivity].
    split; [done|]. intros Hmax Hall. unfold all_bounded in *. cbn.
    apply dict_set_Forall; [|done]. cbn.
    destruct (decide ("Activity" ∈ dict_keys sample)) as [Hact|Hact].
    + destruct (new_HostMetrics_spec sample (MaxSamples (configuration s))
                  (SamplesBeforeInclusion (configuration s))
                  (SamplesBeforeExclusion (configuration s))
                  (NormalizeSamples (configuration s)) Hact)
        as (hm0 & Hnew & _ & Hcur & Hms & _).
      rewrite E in Hnew. injection Hnew as <-. rewrite Hcur, Hms. done.
    + unfold new_HostMetrics, init_body, dict_mem in E.
      rewrite bool_decide_eq_false_2 in E by done.
      erewrite bind_Raise in E by reflexivity. done.
Qed.

#[global] Hint Resolve record_host_keeps_all_bounded after_recording_keeps_all_bounded
  : steps.

(** Sample batches alone keep [currentSamples <= MaxSamples] for every host
    when [MaxSamples] is positive; it takes a reload to break it. *)
Lemma update_metrics_keeps_all_bounded metrics s :
  1 <= MaxSamples (configuration s) ->
  all_bounded s -> all_bounded (snd (update_metrics metrics s)).
Proof.
  assert (H : steps keeps_all_bounded (update_metrics metrics)).
  { unfold update_metrics. keeps_all_bounded_tac. }
  apply H.
Qed.

(** ** The shared deque of the Activity metric *)

Global Instance same_data_preorder : PreOrder same_data.
Proof.
  split; [by intros hm|].
  intros a b c (? & ? & ?) (? & ? & ?). repeat split; congruence.
Qed.

Lemma adjust_activity_same_data : steps same_data adjust_activity.
Proof.
  unfold adjust_activity, metrics_ref. steps_tac;
    try (apply steps_modify; by intros ?).
  intros hm. rewrite deque_read_unchanged. reflexivity.
Qed.

Lemma bind_Ok_inv {S A B} (m : M S A) (f : A -> M S B) s b s' :
  bind m f s = (Ok b, s') -> exists a s1, m s = (Ok a, s1) /\ f a s1 = (Ok b, s').
Proof.
  unfold bind. destruct (m s) as [[a|e] s1]; [|done]. intros H. by exists a, s1.
Qed.

(** After a [record_sample] call that returns, the raw and the normalized
    entry of [Activity] are one and the same deque. *)
Lemma record_sample_shares_activity sample_metrics hm hm' :
  record_sample sample_metrics hm = (Ok tt, hm') ->
  exists r,
    dict_get "Activity" (metrics hm') = Some r /\
    dict_get "Activity" (normalized_metrics hm') = Some r.
Proof.
  unfold record_sample. intros H.
  apply bind_Ok_inv in H as (hm0 & s0 & _ & H).
  apply bind_Ok_inv in H as (? & s1 & _ & H).
  apply bind_Ok_inv in H as (? & s2 & _ & H).
  apply bind_Ok_inv in H as (r & s3 & Hr & H).
  apply bind_Ok_inv in H as (? & s4 & Hs4 & H).
  unfold metrics_ref, bind, get, getitem in Hr.
  destruct (dict_get "Activity" (metrics s2)) as [r'|] eqn:Hget; [|done].
  injection Hr as <- <-. unfold modify in Hs4. injection Hs4 as _ Hs4.
  match type of H with
  | adjust_activity ?x = _ => pose proof (adjust_activity_same_data x) as (_ & Hm & Hn)
  end.
  rewrite H in Hm, Hn. cbn in Hm, Hn. exists r'. rewrite Hm, Hn, <- Hs4. cbn.
  split; [done | apply dict_get_set_eq].
Qed.

Lemma record_sample_activity_windows sample_metrics hm hm' :
  record_sample sample_metrics hm = (Ok tt, hm') ->
  normalized_window hm' "Activity" = raw_window hm' "Activity".
Proof.
  intros H. destruct (record_sample_shares_activity _ _ _ H) as (r & Hr & Hn).
  unfold normalized_window, raw_window. by rewrite Hr, Hn.
Qed.

(** ** The window of the Activity metric *)

(** C1 (the code departs from the claim).  Three batches
    [{A: {Activity: 1}}] with [MaxSamples = 5] are handled without an
    exception, and afterwards host A has [currentSamples = 3] while its raw
    and its normalized Activity sequences both hold four entries: since the
    first [record_sample] the two dictionaries share one deque, which then
    receives the sample and the difference.  (The two sequences are
    identical, as after every [record_sample] call that returns:
    [record_sample_activity_windows].) *)
Theorem activity_window_longer_than_current_samples :
  fst three_batches = Ok tt /\
  reachable (snd three_batches) /\
  exists hm,
    dict_get "A" (host_metrics (snd three_batches)) = Some hm /\
    current_samples hm = 3 /\
    length <$> raw_window hm "Activity" = Some 4%nat /\
    length <$> normalized_window hm "Activity" = Some 4%nat /\
    normalized_window hm "Activity" = raw_window hm "Activity" /\
    max_samples hm = 5.
Proof.
  split; [by vm_compute|].
  split; [apply reachable_handle_all; [apply reachable_new | by vm_compute]|].
  eexists. split; [vm_compute; reflexivity|].
  by vm_compute.
Qed.

(** ** The sample count after a reload *)

(** C2 (the code departs from the claim).  Five batches fill a window of
    [MaxSamples = 5]; a reload then lowers [MaxSamples] to 3.  No handler
    raises, and host A is left with [currentSamples = 5] above its
    [MaxSamples = 3]; the next batch raises the count to 6.  (Sample batches
    alone keep the bound: [update_metrics_keeps_all_bounded].) *)
Theorem current_samples_above_max_samples_after_reload :
  fst filled_then_shrunk = Ok tt /\
  reachable (snd filled_then_shrunk) /\
  MaxSamples (configuration (snd filled_then_shrunk)) = 3 /\
  (exists hm,
     dict_get "A" (host_metrics (snd filled_then_shrunk)) = Some hm /\
     max_samples hm = 3 /\ current_samples hm = 5) /\
  (exists hm,
     dict_get "A" (host_metrics (snd (update_metrics quiet_batch (snd filled_then_shrunk))))
       = Some hm /\
     max_samples hm = 3 /\ current_samples hm = 6).
Proof.
  split; [by vm_compute|].
  split; [apply reachable_handle_all; [apply reachable_new | by vm_compute]|].
  split; [by vm_compute|].
  split; eexists; (split; [vm_compute; reflexivity|by vm_compute]).
Qed.

(** ** Division in the deltas *)

(** C5 (the code departs from the claim).  The first batch
    [{A: {Activity: 5, Cpu: 0}}] makes A active with a baseline of 0 for Cpu,
    and the delta computation raises [ZeroDivisionError], which leaves
    [__update_metrics].  And once both hosts of [two_hosts_mitigated] are
    mitigated no benign host is left: the baseline is empty and the next
    batch, even an empty one, raises [KeyError] in the delta computation. *)
Theorem update_deltas_raises :
  fst (update_metrics [("A", [("Activity", qz 5); ("Cpu", qz 0)])]
         (new_Detector (two_hosts_configuration None))) = Raise ZeroDivisionError /\
  fst two_hosts_mitigated = Ok tt /\
  global_metrics (snd (update_metrics [] (snd two_hosts_mitigated))) = [] /\
  fst (update_metrics [] (snd two_hosts_mitigated)) = Raise KeyError /\
  fst (update_metrics two_hosts_batch (snd two_hosts_mitigated)) = Raise KeyError.
Proof. repeat split; by vm_compute. Qed.

(** ** An empty batch *)

(** C3, counterexample.  With mitigation disabled, one batch flags both
    hosts once ([hostFlags = {A: 1, B: 1}]); the empty batch that follows
    runs phase (d) again on the same deltas and flags them a second time
    ([hostFlags = {A: 2, B: 2}]). *)
Lemma empty_batch_is_not_a_no_op :
  ~ (forall s, reachable s ->
       let s' := snd (update_metrics [] s) in
       host_metrics s' = host_metrics s /\
       host_flags s' = host_flags s /\
       host_deflags s' = host_deflags s /\
       global_metrics s' = global_metrics s /\
       mitigated_host_ids s' = mitigated_host_ids s /\
       emitted s' = emitted s).
Proof.
  intros H.
  destruct (H (snd two_hosts_flagged_once)) as (_ & Hflags & _).
  { apply reachable_handle_all; [apply reachable_new | by vm_compute]. }
  vm_compute in Hflags. discriminate.
Qed.

(** C3 (amended).  An empty batch runs phases (b) to (e) on the state as it
    is and records nothing: the configuration, the tracked hosts and every
    host's windows, sample count, thresholds and activity bit are unchanged
    (the deltas of a host are recomputed).  The counters, [globalMetrics]
    and [mitigatedHostIds] may change and events may be emitted, as in any
    other batch. *)
Theorem empty_batch_keeps_windows (s : Detector) :
  update_metrics [] s = after_recording s /\
  configuration (snd (update_metrics [] s)) = configuration s /\
  Forall2 (fun h h' => fst h = fst h' /\ same_windows (snd h) (snd h'))
    (host_metrics s) (host_metrics (snd (update_metrics [] s))).
Proof.
  split; [reflexivity|]. apply (after_recording_hosts_same s).
Qed.

(** ** A new metric after the window was shortened *)

(** C9, counterexample.  Host A is seen once with [MaxSamples = 5], a reload
    lowers [MaxSamples] to 4 and empties A's windows, and the next sample of
    A is [{Activity: 1, Memory: 7}].  [record_sample] raises [IndexError]
    on the Activity metric before it reaches the new one, the exception
    leaves [__update_metrics], and A keeps its old object, now with
    [currentSamples = 2]. *)
Lemma unknown_metric_does_not_always_replace :
  ~ (forall s h hm sample,
       reachable s ->
       dict_get h (host_metrics s) = Some hm ->
       NoDup (dict_keys sample) ->
       "Activity" ∈ dict_keys sample ->
       (exists key, key ∈ dict_keys sample /\ key ∉ dict_keys (metrics hm)) ->
       exists hm',
         new_HostMetrics sample (MaxSamples (configuration s))
           (SamplesBeforeInclusion (configuration s))
           (SamplesBeforeExclusion (configuration s))
           (NormalizeSamples (configuration s)) = Ok hm' /\
         dict_get h (host_metrics (snd (update_metrics [(h, sample)] s))) = Some hm').
Proof.
  intros H.
  destruct (H (snd seen_once_then_shrunk) "A"
              (host_of (snd seen_once_then_shrunk) "A") sample_with_new_metric)
    as (hm' & Hnew & Hget).
  - apply reachable_handle_all; [apply reachable_new | by vm_compute].
  - vm_compute. reflexivity.
  - apply (bool_decide_unpack _). by vm_compute.
  - apply (bool_decide_unpack _). by vm_compute.
  - exists "Memory". split; apply (bool_decide_unpack _); by vm_compute.
  - assert (Hcur : current_samples hm' = 1).
    { assert (Hact : "Activity" ∈ dict_keys sample_with_new_metric)
        by (apply (bool_decide_unpack _); by vm_compute).
      destruct (new_HostMetrics_spec sample_with_new_metric
                  (MaxSamples (configuration (snd seen_once_then_shrunk)))
                  (SamplesBeforeInclusion (configuration (snd seen_once_then_shrunk)))
                  (SamplesBeforeExclusion (configuration (snd seen_once_then_shrunk)))
                  (NormalizeSamples (configuration (snd seen_once_then_shrunk))) Hact)
        as (hm0 & Hnew0 & _ & Hcur0 & _).
      rewrite Hnew in Hnew0. by injection Hnew0 as ->. }
    apply (f_equal (fmap current_samples)) in Hget.
    change (current_samples <$> Some hm') with (Some (current_samples hm')) in Hget.
    rewrite Hcur in Hget. vm_compute in Hget. discriminate.
Qed.

(** ** The theorems at concrete inputs *)

Lemma malformed_reload_replaces_view_witness :
  content malformed_file = JSONDecodeError /\
  mgr_configuration running_manager = loaded_view /\
  fst (on_modified (config_path running_manager) malformed_file running_manager)
    = Raise TypeError /\
  mgr_configuration
    (snd (on_modified (config_path running_manager) malformed_file running_manager))
    = emptied_view /\
  mgr_emitted
    (snd (on_modified (config_path running_manager) malformed_file running_manager))
    = mgr_emitted running_manager /\
  (length (mgr_log running_manager) <
   length (mgr_log
     (snd (on_modified (config_path running_manager) malformed_file running_manager))))%nat.
Proof.
  split; [reflexivity|]. split; [reflexivity|].
  apply (malformed_reload_replaces_view running_manager malformed_file). reflexivity.
Defined.


Lemma update_global_metrics_spec_witness :
  wf_detector (snd two_hosts_flagged_once) /\
  exists g,
    update_global_metrics (snd two_hosts_flagged_once) =
      (Ok tt, set_global_metrics (fun _ => g) (snd two_hosts_flagged_once)) /\
    (forall m, dict_get m g = baseline (snd two_hosts_flagged_once) m) /\
    (benign (snd two_hosts_flagged_once) = [] -> g = []).
Proof.
  assert (Hwf : wf_detector (snd two_hosts_flagged_once)).
  { apply reachable_wf, reachable_handle_all; [apply reachable_new | by vm_compute]. }
  split; [exact Hwf|].
  apply (update_global_metrics_spec (snd two_hosts_flagged_once) Hwf).
Defined.


Lemma unknown_metric_replaces_host_witness :
  wf_detector (snd three_batches) /\
  dict_get "A" (host_metrics (snd three_batches)) = Some (host_of (snd three_batches) "A") /\
  windows_ready (host_of (snd three_batches) "A") = true /\
  exists hm',
    new_HostMetrics sample_with_new_metric 5 100 1 false = Ok hm' /\
    record_host "A" sample_with_new_metric (snd three_batches) =
      (Ok tt,
       set_host_metrics (fun _ => dict_set "A" hm' (host_metrics (snd three_batches)))
         (snd three_batches)) /\
    current_samples hm' = 1.
Proof.
  assert (Hwf : wf_detector (snd three_batches)).
  { apply reachable_wf, reachable_handle_all; [apply reachable_new | by vm_compute]. }
  assert (Hget : dict_get "A" (host_metrics (snd three_batches))
                 = Some (host_of (snd three_batches) "A")).
  { vm_compute. reflexivity. }
  assert (Hready : windows_ready (host_of (snd three_batches) "A") = true).
  { vm_compute. reflexivity. }
  assert (Hnd : NoDup (dict_keys sample_with_new_metric)).
  { apply (bool_decide_unpack _). vm_compute. exact I. }
  assert (Hact : "Activity" ∈ dict_keys sample_with_new_metric).
  { apply (bool_decide_unpack _). vm_compute. exact I. }
  assert (Hnew : exists key, key ∈ dict_keys sample_with_new_metric /\
                   key ∉ dict_keys (metrics (host_of (snd three_batches) "A"))).
  { exists "Memory". split; apply (bool_decide_unpack _); vm_compute; exact I. }
  split; [exact Hwf|]. split; [exact Hget|]. split; [exact Hready|].
  destruct (unknown_metric_replaces_host (snd three_batches) "A"
              (host_of (snd three_batches) "A") sample_with_new_metric
              Hwf Hget Hready Hnd Hact Hnew)
    as (hm' & H1 & H2 & _ & _ & H3 & _).
  exists hm'. split; [exact H1|]. split; [exact H2 | exact H3].
Defined.


(** * More of the detector *)

(** ** The windows of a metric under the two loops of [record_sample] *)

Lemma windows_of_touches_only hm hm1 key key' :
  wf_host hm -> key <> key' -> touches_only hm hm1 key' ->
  windows_of hm1 key = windows_of hm key.
Proof.
  intros Hwf Hne (Hm & Hn & _ & _ & Hs). unfold windows_of. rewrite Hm, Hn.
  destruct (dict_get key (metrics hm)) as [r|] eqn:Hr; [|done].
  destruct (dict_get key (normalized_metrics hm)) as [rn|] eqn:Hrn; [|done].
  destruct (wf_host_refs_apart hm key key' r Hwf) as [? ?]; [done | by left|].
  destruct (wf_host_refs_apart hm key key' rn Hwf) as [? ?]; [done | by right|].
  by rewrite !Hs.
Qed.

Lemma store_only_refl hm : store_only hm hm.
Proof. split; [by destruct hm | done]. Qed.

Lemma store_only_trans hm1 hm2 hm3 :
  store_only hm1 hm2 -> store_only hm2 hm3 -> store_only hm1 hm3.
Proof.
  intros [H1 L1] [H2 L2]. split; [|congruence].
  rewrite H2, H1. by destruct hm1.
Qed.

Lemma windows_of_Some hm key w :
  windows_of hm key = Some w ->
  exists r rn,
    dict_get key (metrics hm) = Some r /\
    dict_get key (normalized_metrics hm) = Some rn /\
    store hm !! r = Some (raw_seq w) /\
    store hm !! rn = Some (normalized_seq w) /\
    shared w = bool_decide (r = rn).
Proof.
  unfold windows_of. intros H.
  destruct (dict_get key (metrics hm)) as [r|]; [|done].
  destruct (dict_get key (normalized_metrics hm)) as [rn|]; [|done].
  destruct (store hm !! r) as [d|] eqn:Hd; [|done].
  destruct (store hm !! rn) as [dn|] eqn:Hdn; [|done].
  injection H as <-. by exists r, rn.
Qed.

Lemma windows_of_insert2 hm key r rn d1 d2 :
  dict_get key (metrics hm) = Some r ->
  dict_get key (normalized_metrics hm) = Some rn ->
  (r < length (store hm))%nat -> (rn < length (store hm))%nat ->
  windows_of
    (set_store (fun st => <[rn := d2]> st) (set_store (fun st => <[r := d1]> st) hm)) key =
  Some (mkWindows (bool_decide (r = rn)) (if decide (r = rn) then d2 else d1) d2).
Proof.
  intros Hr Hrn Hlr Hlrn. unfold windows_of. cbn. rewrite Hr, Hrn.
  rewrite (list_lookup_insert_eq _ rn) by (by rewrite length_insert).
  destruct (decide (r = rn)) as [<-|Hne].
  - by rewrite list_lookup_insert_eq by (by rewrite length_insert).
  - rewrite list_lookup_insert_ne by done. by rewrite list_lookup_insert_eq.
Qed.

Lemma store_only_insert2 hm r rn d1 d2 :
  store_only hm
    (set_store (fun st => <[rn := d2]> st) (set_store (fun st => <[r := d1]> st) hm)).
Proof. split; [by destruct hm | cbn; by rewrite !length_insert]. Qed.

(** The effect of one iteration of the first loop. *)
Lemma drop_oldest_effect hm key value w :
  windows_of hm key = Some w -> can_drop w = true ->
  exists hm1,
    drop_oldest (key, value) hm = (Ok tt, hm1) /\
    touches_only hm hm1 key /\ store_only hm hm1 /\
    windows_of hm1 key = Some (dropped w).
Proof.
  intros Hw Hcan.
  destruct (windows_of_Some _ _ _ Hw) as (r & rn & Hr & Hrn & Hd & Hdn & Hsh).
  pose proof (lookup_lt_Some _ _ _ Hd) as Hlen.
  pose proof (lookup_lt_Some _ _ _ Hdn) as Hlenn.
  unfold can_drop, dropped in *. rewrite Hsh in *.
  unfold drop_oldest.
  rewrite (bind_Ok _ _ _ _ _ (metrics_ref_Ok _ _ _ Hr)).
  case_bool_decide as Heq.
  - subst rn. apply bool_decide_eq_true_1 in Hcan.
    destruct (raw_seq w) as [|x [|y d]] eqn:Hraw; [cbn in Hcan; lia | cbn in Hcan; lia|].
    rewrite (bind_Ok _ _ _ _ _ (deque_popleft_Ok _ _ _ _ Hd)).
    erewrite bind_Ok by (by apply normalized_ref_Ok).
    erewrite bind_Ok.
    2:{ apply deque_popleft_Ok. cbn. by apply list_lookup_insert_eq. }
    eexists. split; [reflexivity|]. split; [by apply touches_only_insert2|].
    split; [apply store_only_insert2|].
    rewrite windows_of_insert2 by done. rewrite bool_decide_eq_true_2 by done.
    by rewrite decide_True.
  - apply andb_prop in Hcan as [H1 H2].
    apply negb_true_iff, bool_decide_eq_false_1, nonempty_cons in H1 as (x & d & Hraw).
    apply negb_true_iff, bool_decide_eq_false_1, nonempty_cons in H2 as (y & dn & Hnorm).
    rewrite Hraw in Hd. rewrite Hnorm in Hdn.
    rewrite (bind_Ok _ _ _ _ _ (deque_popleft_Ok _ _ _ _ Hd)).
    erewrite bind_Ok by (by apply normalized_ref_Ok).
    erewrite bind_Ok.
    2:{ apply deque_popleft_Ok. cbn. rewrite list_lookup_insert_ne by done. exact Hdn. }
    eexists. split; [reflexivity|]. split; [by apply touches_only_insert2|].
    split; [apply store_only_insert2|].
    rewrite windows_of_insert2 by done. rewrite bool_decide_eq_false_2 by done.
    rewrite decide_False by done. by rewrite Hraw, Hnorm.
Qed.

Lemma rev_lookup_before_last_entry (d : list Qc) (v : Qc) :
  d <> [] -> rev (d ++ [v]) !! 1%nat = Some (last_entry d).
Proof.
  intros Hne. rewrite rev_unit. cbn. unfold last_entry.
  destruct (rev d) as [|x l] eqn:E; [|done].
  apply (f_equal (@length _)) in E. rewrite length_rev in E. by destruct d.
Qed.

(** The effect of one iteration of the second loop. *)
Lemma append_sample_effect hm key value w :
  windows_of hm key = Some w -> can_append w = true ->
  exists hm1,
    append_sample (key, value) hm = (Ok tt, hm1) /\
    touches_only hm hm1 key /\ store_only hm hm1 /\
    windows_of hm1 key = Some (appended value w).
Proof.
  intros Hw Hcan.
  destruct (windows_of_Some _ _ _ Hw) as (r & rn & Hr & Hrn & Hd & Hdn & Hsh).
  pose proof (lookup_lt_Some _ _ _ Hd) as Hlen.
  pose proof (lookup_lt_Some _ _ _ Hdn) as Hlenn.
  unfold can_append in Hcan. apply negb_true_iff, bool_decide_eq_false_1 in Hcan.
  unfold append_sample.
  rewrite (bind_Ok _ _ _ _ _ (metrics_ref_Ok _ _ _ Hr)).
  rewrite (bind_Ok _ _ _ _ _ (deque_append_Ok _ _ _ _ Hd)).
  set (hma := set_store _ hm).
  assert (Hda : store hma !! r = Some (raw_seq w ++ [value])).
  { unfold hma. cbn. by apply list_lookup_insert_eq. }
  erewrite bind_Ok by (by apply normalized_ref_Ok).
  erewrite bind_Ok by (by apply metrics_ref_Ok).
  erewrite bind_Ok by (eapply deque_from_end_Ok; [exact Hda | apply rev_lookup_last]).
  erewrite bind_Ok by (by apply metrics_ref_Ok).
  erewrite bind_Ok
    by (eapply deque_from_end_Ok; [exact Hda | by apply rev_lookup_before_last_entry]).
  unfold appended. rewrite Hsh. case_bool_decide as Heq.
  - subst rn. rewrite (deque_append_Ok _ _ _ _ Hda).
    eexists. split; [reflexivity|]. unfold hma.
    split; [by apply touches_only_insert2|]. split; [apply store_only_insert2|].
    rewrite windows_of_insert2 by done. rewrite bool_decide_eq_true_2 by done.
    rewrite decide_True by done. by rewrite <- app_assoc.
  - assert (Hdna : store hma !! rn = Some (normalized_seq w)).
    { unfold hma. cbn. by rewrite list_lookup_insert_ne. }
    rewrite (deque_append_Ok _ _ _ _ Hdna).
    eexists. split; [reflexivity|]. unfold hma.
    split; [by apply touches_only_insert2|]. split; [apply store_only_insert2|].
    rewrite windows_of_insert2 by done. rewrite bool_decide_eq_false_2 by done.
    by rewrite decide_False.
Qed.

(** A loop whose body works on the windows of one metric after the other:
    the windows of the sample's metrics get the effect, the others stay. *)
Lemma loop_effect (body : string * Qc -> M HostMetrics unit)
    (can : windows -> bool) (effect : Qc -> windows -> windows) :
  (forall hm key value w,
     windows_of hm key = Some w -> can w = true ->
     exists hm1,
       body (key, value) hm = (Ok tt, hm1) /\
       touches_only hm hm1 key /\ store_only hm hm1 /\
       windows_of hm1 key = Some (effect value w)) ->
  forall sample hm,
    wf_host hm ->
    NoDup (dict_keys sample) ->
    (forall key, key ∈ dict_keys sample ->
       exists w, windows_of hm key = Some w /\ can w = true) ->
    exists hm',
      for_each sample body hm = (Ok tt, hm') /\
      wf_host hm' /\ store_only hm hm' /\
      forall key,
        windows_of hm' key =
          match dict_get key sample with
          | Some v => effect v <$> windows_of hm key
          | None => windows_of hm key
          end.
Proof.
  intros Hbody sample. induction sample as [|[k v] sample IH]; intros hm Hwf Hnd Hcan.
  - exists hm. split; [done|]. split; [done|]. split; [apply store_only_refl | done].
  - unfold dict_keys in Hnd. cbn [map fst] in Hnd. fold (dict_keys sample) in Hnd.
    pose proof (NoDup_cons_1_1 _ _ Hnd) as Hk. apply NoDup_cons_1_2 in Hnd.
    destruct (Hcan k) as (w & Hw & Hcw); [apply list_elem_of_here|].
    destruct (Hbody hm k v w Hw Hcw) as (hm1 & Hrun & Htouch & Hso & Hw1).
    assert (Hwf1 : wf_host hm1) by (by eapply touches_only_wf).
    destruct (IH hm1 Hwf1 Hnd) as (hm' & Hrun' & Hwf' & Hso' & Hw').
    { intros key Hkey. destruct (Hcan key) as (w0 & Hw0 & Hc0); [by apply list_elem_of_further|].
      exists w0. split; [|done]. rewrite <- Hw0.
      apply (windows_of_touches_only hm hm1 key k); [done | | done].
      intros ->. done. }
    exists hm'. split; [|split; [done|split; [by eapply store_only_trans|]]].
    { cbn [for_each]. by rewrite (bind_Ok _ _ _ _ _ Hrun). }
    intros key. rewrite Hw'. cbn [dict_get].
    destruct (decide (key = k)) as [->|Hne].
    + apply dict_get_None in Hk. rewrite Hk, Hw1, Hw. done.
    + by rewrite (windows_of_touches_only hm hm1 key k).
Qed.

Lemma windows_of_same_data hm hm' key :
  same_data hm hm' -> windows_of hm' key = windows_of hm key.
Proof. intros (Hs & Hm & Hn). unfold windows_of. by rewrite Hs, Hm, Hn. Qed.

Lemma windows_of_is_Some hm key :
  wf_host hm -> key ∈ dict_keys (metrics hm) -> exists w, windows_of hm key = Some w.
Proof.
  intros Hwf Hkey. pose proof Hkey as Hkey'. rewrite <- (wf_keys _ Hwf) in Hkey'.
  apply dict_get_is_Some in Hkey as [r Hr]. apply dict_get_is_Some in Hkey' as [rn Hrn].
  pose proof (wf_raw_refs _ Hwf) as Hraw. rewrite list.Forall_forall in Hraw.
  pose proof (wf_normalized_refs _ Hwf) as Hnorm. rewrite list.Forall_forall in Hnorm.
  pose proof (Hraw _ (dict_get_Some_elem _ _ _ Hr)) as Hlt.
  pose proof (Hnorm _ (dict_get_Some_elem _ _ _ Hrn)) as Hltn. cbn in Hlt, Hltn.
  apply lookup_lt_is_Some_2 in Hlt as [d Hd]. apply lookup_lt_is_Some_2 in Hltn as [dn Hdn].
  unfold windows_of. rewrite Hr, Hrn, Hd, Hdn. by eexists.
Qed.

Lemma windows_of_None hm key :
  wf_host hm -> key ∉ dict_keys (metrics hm) -> windows_of hm key = None.
Proof.
  intros Hwf Hkey. apply dict_get_None in Hkey. unfold windows_of. by rewrite Hkey.
Qed.

(** The windows once [Activity]'s normalized entry is the raw deque. *)
Lemma windows_of_share_activity hm r key :
  dict_get "Activity" (metrics hm) = Some r ->
  windows_of (set_normalized_metrics (dict_set "Activity" r) hm) key =
    (if bool_decide (key = "Activity") then aliased <$> windows_of hm key
     else windows_of hm key) \/
  (key = "Activity" /\ windows_of hm key = None).
Proof.
  intros Hr. case_bool_decide as Hkey.
  - subst key. unfold windows_of. cbn. rewrite Hr, dict_get_set_eq.
    destruct (store hm !! r) as [d|] eqn:Hd.
    + destruct (dict_get "Activity" (normalized_metrics hm)) as [rn|]; [|by right].
      destruct (store hm !! rn) as [dn|]; [|by right].
      left. cbn. unfold aliased. cbn. by rewrite bool_decide_eq_true_2.
    + left. by destruct (dict_get "Activity" (normalized_metrics hm)).
  - left. unfold windows_of. cbn. by rewrite dict_get_set_ne.
Qed.

Lemma store_only_fields hm hm1 :
  store_only hm hm1 ->
  metrics hm1 = metrics hm /\ normalized_metrics hm1 = normalized_metrics hm /\
  max_samples hm1 = max_samples hm /\ current_samples hm1 = current_samples hm /\
  activity_threshold hm1 = activity_threshold hm /\
  inactivity_threshold hm1 = inactivity_threshold hm /\
  pref_normalized hm1 = pref_normalized hm /\ deltas hm1 = deltas hm /\
  active hm1 = active hm.
Proof. intros [-> _]. by destruct hm. Qed.

Lemma windows_of_raw hm key w :
  windows_of hm key = Some w -> raw_window hm key = Some (raw_seq w).
Proof.
  intros H. destruct (windows_of_Some _ _ _ H) as (r & rn & Hr & _ & Hd & _).
  unfold raw_window. by rewrite Hr.
Qed.

Lemma windows_of_normalized hm key w :
  windows_of hm key = Some w -> normalized_window hm key = Some (normalized_seq w).
Proof.
  intros H. destruct (windows_of_Some _ _ _ H) as (r & rn & _ & Hrn & _ & Hdn & _).
  unfold normalized_window. by rewrite Hrn.
Qed.

Lemma record_sample_effect hm sample :
  wf_host hm -> NoDup (dict_keys sample) ->
  (forall key, key ∈ dict_keys sample ->
     exists w, windows_of hm key = Some w /\
               can_record (bool_decide (current_samples hm = max_samples hm)) w = true) ->
  exists hm' total,
    record_sample sample hm = (Ok tt, hm') /\
    wf_host hm' /\
    current_samples hm' =
      (if bool_decide (current_samples hm = max_samples hm) then current_samples hm
       else current_samples hm + 1) /\
    (forall key,
       windows_of hm' key =
         sampled (bool_decide (current_samples hm = max_samples hm)) sample key
           <$> windows_of hm key) /\
    (py_sum ∘ raw_seq <$> windows_of hm' "Activity") = Some total /\
    active hm' = adjusted hm total /\
    max_samples hm' = max_samples hm /\
    activity_threshold hm' = activity_threshold hm /\
    inactivity_threshold hm' = inactivity_threshold hm /\
    pref_normalized hm' = pref_normalized hm /\
    deltas hm' = deltas hm /\
    metrics hm' = metrics hm.
Proof.
  intros Hwf Hnd Hcan.
  set (full := bool_decide (current_samples hm = max_samples hm)) in *.
  (* the first loop, or the count *)
  assert (exists hm1,
    (if full then for_each sample drop_oldest
     else modify (set_current_samples (current_samples hm + 1))) hm = (Ok tt, hm1) /\
    wf_host hm1 /\
    current_samples hm1 = (if full then current_samples hm else current_samples hm + 1) /\
    activity_threshold hm1 = activity_threshold hm /\
    inactivity_threshold hm1 = inactivity_threshold hm /\
    active hm1 = active hm /\
    (max_samples hm1 = max_samples hm /\ pref_normalized hm1 = pref_normalized hm /\
     deltas hm1 = deltas hm /\ metrics hm1 = metrics hm) /\
    forall key, windows_of hm1 key =
      match dict_get key sample with
      | Some v => (if full then dropped else id) <$> windows_of hm key
      | None => windows_of hm key
      end) as (hm1 & Hrun1 & Hwf1 & Hcur1 & Hat1 & Hit1 & Hact1 & Hfr1 & Hw1).
  { destruct full eqn:Hfull.
    - destruct (loop_effect drop_oldest can_drop (fun _ => dropped)
                  (fun hm key value w => drop_oldest_effect hm key value w)
                  sample hm Hwf Hnd) as (hm1 & Hrun & Hwf1 & Hso & Hw).
      { intros key Hkey. destruct (Hcan key Hkey) as (w & Hw & Hc). exists w.
        split; [done|]. cbn in Hc. by apply andb_prop in Hc as [? _]. }
      apply store_only_fields in Hso as (? & _ & ? & ? & ? & ? & ? & ? & ?).
      exists hm1. by split_and!.
    - eexists. split; [reflexivity|]. split.
      { destruct Hwf. constructor; cbn; try done. lia. }
      split_and!; try done.
      intros key. change (windows_of (set_current_samples _ hm) key) with (windows_of hm key).
      destruct (dict_get key sample); [|done]. by destruct (windows_of hm key). }
  (* the second loop *)
  destruct (loop_effect append_sample can_append appended append_sample_effect
              sample hm1 Hwf1 Hnd) as (hm2 & Hrun2 & Hwf2 & Hso2 & Hw2).
  { intros key Hkey. destruct (Hcan key Hkey) as (w & Hw & Hc).
    apply dict_get_is_Some in Hkey as [v Hv]. rewrite Hw1, Hv, Hw. cbn.
    eexists. split; [reflexivity|]. unfold can_record in Hc. destruct full; [|done].
    by apply andb_prop in Hc as [_ ?]. }
  (* the alias *)
  pose proof (wf_activity _ Hwf2) as Hact. apply dict_get_is_Some in Hact as [r Hr].
  set (hm3 := set_normalized_metrics (dict_set "Activity" r) hm2).
  assert (Hwf3 : wf_host hm3) by (by apply share_activity_keeps_wf).
  destruct (adjust_activity_Ok hm3 Hwf3) as (d & Hd & Hrun4).
  destruct Hfr1 as (Hms1 & Hpn1 & Hde1 & Hm1).
  pose proof (store_only_fields _ _ Hso2) as (Hm2 & _ & Hms2 & _ & _ & _ & Hpn2 & Hde2 & _).
  eexists. exists (py_sum d). split; [|split; [|split; [|split; [|split; [|split]]]]].
  - unfold record_sample. erewrite (bind_Ok get) by reflexivity.
    fold full. erewrite bind_Ok by exact Hrun1.
    erewrite bind_Ok by exact Hrun2.
    erewrite bind_Ok by (by apply metrics_ref_Ok).
    erewrite bind_Ok by reflexivity. exact Hrun4.
  - eapply wf_host_eq; [..|exact Hwf3]; done.
  - apply store_only_fields in Hso2 as (_ & _ & _ & Hc2 & _). cbn. by rewrite Hc2.
  - intros key.
    change (windows_of (set_active _ hm3) key) with (windows_of hm3 key).
    assert (Hcomp : windows_of hm2 key =
      (fun w => match dict_get key sample with
                | Some v => recorded full v w
                | None => w
                end) <$> windows_of hm key).
    { rewrite Hw2, Hw1. destruct (dict_get key sample) as [v|].
      - destruct (windows_of hm key) as [w|]; [|done]. cbn. unfold recorded.
        by destruct full.
      - by destruct (windows_of hm key). }
    destruct (windows_of_share_activity hm2 r key Hr) as [Heq|[-> Hnone]].
    + fold hm3 in Heq. rewrite Heq, Hcomp. unfold sampled.
      destruct (windows_of hm key) as [w|]; [|by case_bool_decide].
      cbn. by case_bool_decide.
    + destruct (windows_of_is_Some hm2 "Activity" Hwf2 (wf_activity _ Hwf2)) as [w Hw].
      congruence.
  - change (windows_of (set_active _ hm3) "Activity") with (windows_of hm3 "Activity").
    destruct (windows_of_is_Some hm3 "Activity" Hwf3 (wf_activity _ Hwf3)) as [w Hw].
    rewrite Hw. apply windows_of_raw in Hw. cbn. congruence.
  - apply store_only_fields in Hso2 as (_ & _ & _ & ? & Hat2 & Hit2 & _ & _ & Hact2).
    cbn. unfold adjusted. by rewrite Hat2, Hit2, Hact2, Hat1, Hit1, Hact1.
  - apply store_only_fields in Hso2 as (_ & _ & _ & _ & Hat2 & Hit2 & _ & _ & _).
    cbn. split_and!; congruence.
Qed.

(** ** When a sample cannot be recorded *)

Lemma deque_popleft_IndexError r hm :
  store hm !! r = Some [] -> deque_popleft r hm = (Raise IndexError, hm).
Proof. intros H. unfold deque_popleft. by rewrite (bind_Ok _ _ _ _ _ (deque_read_Ok _ _ _ H)). Qed.

Lemma store_only_insert hm r d :
  store_only hm (set_store (fun st => <[r := d]> st) hm).
Proof. split; [by destruct hm | cbn; by rewrite length_insert]. Qed.

Lemma drop_oldest_fails hm key value w :
  windows_of hm key = Some w -> can_drop w = false ->
  exists hm1, drop_oldest (key, value) hm = (Raise IndexError, hm1) /\ store_only hm hm1.
Proof.
  intros Hw Hcan.
  destruct (windows_of_Some _ _ _ Hw) as (r & rn & Hr & Hrn & Hd & Hdn & Hsh).
  pose proof (lookup_lt_Some _ _ _ Hd) as Hlen.
  unfold can_drop in Hcan. rewrite Hsh in Hcan.
  unfold drop_oldest. rewrite (bind_Ok _ _ _ _ _ (metrics_ref_Ok _ _ _ Hr)).
  destruct (raw_seq w) as [|x d] eqn:Hraw.
  { rewrite (bind_Raise _ _ _ _ _ (deque_popleft_IndexError _ _ Hd)).
    eexists. split; [reflexivity | apply store_only_refl]. }
  rewrite (bind_Ok _ _ _ _ _ (deque_popleft_Ok _ _ _ _ Hd)).
  erewrite bind_Ok by (by apply normalized_ref_Ok).
  erewrite bind_Raise.
  { eexists. split; [reflexivity | apply store_only_insert]. }
  apply deque_popleft_IndexError. cbn.
  case_bool_decide as Heq.
  - subst rn. apply bool_decide_eq_false_1 in Hcan.
    destruct d; [|cbn in Hcan; lia]. by apply list_lookup_insert_eq.
  - rewrite list_lookup_insert_ne by done. rewrite Hdn. f_equal.
    cbn in Hcan. by apply negb_false_iff, bool_decide_eq_true_1 in Hcan.
Qed.

Lemma append_sample_fails hm key value w :
  windows_of hm key = Some w -> can_append w = false ->
  exists hm1, append_sample (key, value) hm = (Raise IndexError, hm1) /\ store_only hm hm1.
Proof.
  intros Hw Hcan.
  destruct (windows_of_Some _ _ _ Hw) as (r & rn & Hr & Hrn & Hd & Hdn & Hsh).
  pose proof (lookup_lt_Some _ _ _ Hd) as Hlen.
  unfold can_append in Hcan. apply negb_false_iff, bool_decide_eq_true_1 in Hcan.
  rewrite Hcan in Hd.
  unfold append_sample.
  rewrite (bind_Ok _ _ _ _ _ (metrics_ref_Ok _ _ _ Hr)).
  rewrite (bind_Ok _ _ _ _ _ (deque_append_Ok _ _ _ _ Hd)).
  set (hma := set_store _ hm).
  assert (Hda : store hma !! r = Some [value]).
  { unfold hma. cbn. by apply list_lookup_insert_eq. }
  erewrite bind_Ok by (by apply normalized_ref_Ok).
  erewrite bind_Ok by (by apply metrics_ref_Ok).
  erewrite bind_Ok by (eapply deque_from_end_Ok; [exact Hda | reflexivity]).
  erewrite bind_Ok by (by apply metrics_ref_Ok).
  erewrite bind_Raise.
  { eexists. split; [reflexivity | apply store_only_insert]. }
  unfold deque_from_end. by rewrite (bind_Ok _ _ _ _ _ (deque_read_Ok _ _ _ Hda)).
Qed.

(** A loop over known metrics raises at the first one whose windows do not
    allow the body's effect. *)
Lemma loop_raises (body : string * Qc -> M HostMetrics unit)
    (can : windows -> bool) (effect : Qc -> windows -> windows) (e : exn) :
  (forall hm key value w,
     windows_of hm key = Some w -> can w = true ->
     exists hm1,
       body (key, value) hm = (Ok tt, hm1) /\
       touches_only hm hm1 key /\ store_only hm hm1 /\
       windows_of hm1 key = Some (effect value w)) ->
  (forall hm key value w,
     windows_of hm key = Some w -> can w = false ->
     exists hm1, body (key, value) hm = (Raise e, hm1) /\ store_only hm hm1) ->
  forall sample hm,
    wf_host hm ->
    NoDup (dict_keys sample) ->
    (forall key, key ∈ dict_keys sample -> exists w, windows_of hm key = Some w) ->
    (exists key w, key ∈ dict_keys sample /\ windows_of hm key = Some w /\ can w = false) ->
    exists hm', for_each sample body hm = (Raise e, hm') /\ store_only hm hm'.
Proof.
  intros Hbody Hfail sample.
  induction sample as [|[k v] sample IH]; intros hm Hwf Hnd Hknown (key & w & Hkey & Hw & Hc).
  { by apply elem_of_nil in Hkey. }
  unfold dict_keys in Hnd. cbn [map fst] in Hnd. fold (dict_keys sample) in Hnd.
  pose proof (NoDup_cons_1_1 _ _ Hnd) as Hk. apply NoDup_cons_1_2 in Hnd.
  destruct (Hknown k) as (wk & Hwk); [apply list_elem_of_here|].
  cbn [for_each].
  destruct (can wk) eqn:Hcan.
  - destruct (Hbody hm k v wk Hwk Hcan) as (hm1 & Hrun & Htouch & Hso & _).
    assert (Hwf1 : wf_host hm1) by (by eapply touches_only_wf).
    assert (Hne : forall x, x ∈ dict_keys sample -> x <> k) by (intros x Hx ->; done).
    destruct (IH hm1 Hwf1 Hnd) as (hm' & Hrun' & Hso').
    + intros x Hx. rewrite (windows_of_touches_only hm hm1 x k) by auto.
      apply Hknown. by apply list_elem_of_further.
    + exists key, w. apply elem_of_cons in Hkey as [->|Hkey]; [cbn in Hw; congruence|].
      split; [done|]. by rewrite (windows_of_touches_only hm hm1 key k) by auto.
    + exists hm'. rewrite (bind_Ok _ _ _ _ _ Hrun).
      split; [done | by eapply store_only_trans].
  - destruct (Hfail hm k v wk Hwk Hcan) as (hm1 & Hrun & Hso).
    exists hm1. by rewrite (bind_Raise _ _ _ _ _ Hrun).
Qed.

Lemma record_sample_fails hm sample :
  wf_host hm -> NoDup (dict_keys sample) ->
  (forall key, key ∈ dict_keys sample -> key ∈ dict_keys (metrics hm)) ->
  (exists key w,
     key ∈ dict_keys sample /\ windows_of hm key = Some w /\
     can_record (bool_decide (current_samples hm = max_samples hm)) w = false) ->
  exists hm',
    record_sample sample hm = (Raise IndexError, hm') /\
    current_samples hm' =
      (if bool_decide (current_samples hm = max_samples hm) then current_samples hm
       else current_samples hm + 1) /\
    active hm' = active hm /\
    normalized_metrics hm' = normalized_metrics hm.
Proof.
  intros Hwf Hnd Hknown (key & w & Hkey & Hw & Hc).
  assert (Hwin : forall key, key ∈ dict_keys sample -> exists w, windows_of hm key = Some w).
  { intros x Hx. by apply windows_of_is_Some, Hknown. }
  unfold record_sample. erewrite (bind_Ok get) by reflexivity.
  destruct (bool_decide (current_samples hm = max_samples hm)) eqn:Hfull.
  - destruct (decide (Exists (fun key => can_drop <$> windows_of hm key = Some false)
                        (dict_keys sample))) as [Hdrop|Hdrop].
    + assert (Hdrop' : exists key w,
        key ∈ dict_keys sample /\ windows_of hm key = Some w /\ can_drop w = false).
      { apply list.Exists_exists in Hdrop as (x & Hx & Hcx). exists x.
        destruct (windows_of hm x) as [wx|]; [|done]. exists wx. cbn in Hcx.
        split; [done|]. split; [done|]. by injection Hcx. }
      clear Hdrop. rename Hdrop' into Hdrop.
      destruct (loop_raises drop_oldest can_drop (fun _ => dropped) IndexError
                  (fun hm key value w => drop_oldest_effect hm key value w)
                  drop_oldest_fails sample hm Hwf Hnd Hwin Hdrop) as (hm1 & Hrun & Hso).
      exists hm1. rewrite (bind_Raise _ _ _ _ _ Hrun).
      apply store_only_fields in Hso as (_ & ? & _ & ? & _ & _ & _ & _ & ?). done.
    + assert (Hall : forall key, key ∈ dict_keys sample ->
                exists w, windows_of hm key = Some w /\ can_drop w = true).
      { intros x Hx. destruct (Hwin x Hx) as [wx Hwx]. exists wx. split; [done|].
        destruct (can_drop wx) eqn:E; [done|]. exfalso. apply Hdrop.
        apply list.Exists_exists. exists x. split; [done|]. by rewrite Hwx; cbn; rewrite E. }
      destruct (loop_effect drop_oldest can_drop (fun _ => dropped)
                  (fun hm key value w => drop_oldest_effect hm key value w)
                  sample hm Hwf Hnd Hall) as (hm1 & Hrun & Hwf1 & Hso & Hw1).
      rewrite (bind_Ok _ _ _ _ _ Hrun).
      destruct (loop_raises append_sample can_append appended IndexError
                  append_sample_effect append_sample_fails sample hm1 Hwf1 Hnd)
        as (hm2 & Hrun2 & Hso2).
      * intros x Hx. destruct (Hwin x Hx) as [wx Hwx].
        pose proof Hx as Hx'. apply dict_get_is_Some in Hx' as [v Hv].
        rewrite Hw1, Hv, Hwx. by eexists.
      * exists key, (dropped w). split; [done|].
        pose proof Hkey as Hkey'. apply dict_get_is_Some in Hkey' as [v Hv].
        rewrite Hw1, Hv, Hw. split; [done|].
        destruct (Hall key Hkey) as (w' & Hw' & Hcd). rewrite Hw in Hw'. injection Hw' as <-.
        cbn in Hc. by rewrite Hcd in Hc.
      * exists hm2. rewrite (bind_Raise _ _ _ _ _ Hrun2).
        pose proof (store_only_trans _ _ _ Hso Hso2) as Hso'.
        apply store_only_fields in Hso' as (_ & ? & _ & ? & _ & _ & _ & _ & ?). done.
  - erewrite bind_Ok by reflexivity.
    set (hm1 := set_current_samples _ hm).
    assert (Hwf1 : wf_host hm1).
    { destruct Hwf. constructor; cbn; try done. lia. }
    destruct (loop_raises append_sample can_append appended IndexError
                append_sample_effect append_sample_fails sample hm1 Hwf1 Hnd)
      as (hm2 & Hrun2 & Hso2).
    + exact Hwin.
    + by exists key, w.
    + exists hm2. rewrite (bind_Raise _ _ _ _ _ Hrun2).
      apply store_only_fields in Hso2 as (_ & ? & _ & ? & _ & _ & _ & _ & ?). done.
Qed.

(** ** The object the constructor returns *)

Lemma new_HostMetrics_Ok_inv initial_metrics ms at_ it pn hm :
  new_HostMetrics initial_metrics ms at_ it pn = Ok hm ->
  exists b, hm = set_active b (foldl seed (blank_HostMetrics ms at_ it pn) initial_metrics).
Proof.
  unfold new_HostMetrics, init_body, dict_mem. case_bool_decide as Hact.
  - erewrite bind_Ok by reflexivity.
    rewrite (bind_Ok _ _ _ _ _ (init_loop initial_metrics _)).
    set (hm1 := foldl seed _ initial_metrics).
    assert (Hwf1 : wf_host hm1).
    { apply wf_host_windows. split; [apply foldl_seed_wf_windows, blank_wf_windows|].
      apply foldl_seed_keys. by left. }
    destruct (adjust_activity_Ok hm1 Hwf1) as (d & _ & ->). intros [= <-]. by eexists.
  - by erewrite bind_Raise by reflexivity.
Qed.

Lemma seed_unshared hm kv :
  (forall k r, dict_get k (metrics hm) = Some r -> dict_get k (normalized_metrics hm) <> Some r) ->
  forall k r, dict_get k (metrics (seed hm kv)) = Some r ->
              dict_get k (normalized_metrics (seed hm kv)) <> Some r.
Proof.
  intros H k r. unfold seed.
  cbn [metrics normalized_metrics set_store set_metrics set_normalized_metrics].
  destruct (decide (k = fst kv)) as [->|Hne].
  - rewrite !dict_get_set_eq. intros [= <-] [=]. lia.
  - rewrite !dict_get_set_ne by done. apply H.
Qed.

Lemma foldl_seed_unshared l : forall hm,
  (forall k r, dict_get k (metrics hm) = Some r -> dict_get k (normalized_metrics hm) <> Some r) ->
  forall k r, dict_get k (metrics (foldl seed hm l)) = Some r ->
              dict_get k (normalized_metrics (foldl seed hm l)) <> Some r.
Proof.
  induction l as [|kv l IH]; intros hm H; [done|]. cbn. by apply IH, seed_unshared.
Qed.

Lemma windows_of_windows hm key d dn :
  raw_window hm key = Some d -> normalized_window hm key = Some dn ->
  exists b, windows_of hm key = Some (mkWindows b d dn) /\
    (b = true -> exists r, dict_get key (metrics hm) = Some r /\
                           dict_get key (normalized_metrics hm) = Some r).
Proof.
  unfold raw_window, normalized_window, windows_of.
  destruct (dict_get key (metrics hm)) as [r|]; [|done].
  destruct (dict_get key (normalized_metrics hm)) as [rn|]; [|done].
  intros -> ->. eexists. split; [done|]. intros Hb%bool_decide_eq_true_1. subst. by exists rn.
Qed.

Lemma new_HostMetrics_effect initial_metrics ms at_ it pn :
  NoDup (dict_keys initial_metrics) ->
  match dict_get "Activity" initial_metrics with
  | None => new_HostMetrics initial_metrics ms at_ it pn = Raise SystemExit
  | Some a =>
      exists hm,
        new_HostMetrics initial_metrics ms at_ it pn = Ok hm /\
        wf_host hm /\
        (forall m, windows_of hm m =
                   first_windows <$> dict_get m initial_metrics) /\
        current_samples hm = 1 /\
        max_samples hm = ms /\
        activity_threshold hm = (if bool_decide (0 < at_) then at_ else ms - 1) /\
        inactivity_threshold hm = (if bool_decide (0 < it) then it else 1) /\
        pref_normalized hm = pn /\
        deltas hm = [] /\
        active hm = bool_decide (qz (activity_threshold hm) < a)%Qc
  end.
Proof.
  intros Hnd. destruct (dict_get "Activity" initial_metrics) as [a|] eqn:Ha.
  - pose proof (dict_get_Some_key _ _ _ Ha) as Hact.
    destruct (new_HostMetrics_spec initial_metrics ms at_ it pn Hact)
      as (hm & Hnew & Hwf & Hcur & Hms & Hpn & Hde & Hkeys & Hrest).
    destruct (Hrest Hnd) as [Hwin Hactive].
    destruct (new_HostMetrics_Ok_inv _ _ _ _ _ _ Hnew) as [b Hhm].
    destruct (foldl_seed_other_fields initial_metrics (blank_HostMetrics ms at_ it pn))
      as (_ & _ & Hat & Hit & _).
    exists hm. split_and!; try done.
    + intros m. destruct (dict_get m initial_metrics) as [v|] eqn:Hv.
      * destruct (Hwin m v Hv) as [Hr Hn].
        destruct (windows_of_windows hm m _ _ Hr Hn) as (sh & -> & Hsh). cbn.
        destruct sh; [|done]. destruct (Hsh eq_refl) as (r & Hr1 & Hr2). exfalso.
        revert Hr2. rewrite Hhm in Hr1 |- *. cbn [metrics normalized_metrics set_active] in *.
        eapply foldl_seed_unshared; [|exact Hr1]. intros k r0 H0. done.
      * cbn. apply windows_of_None; [done|]. rewrite Hkeys. by apply dict_get_None.
    + rewrite Hhm. cbn. by rewrite Hat.
    + rewrite Hhm. cbn. by rewrite Hit.
    + by apply Hactive.
  - unfold new_HostMetrics, init_body, dict_mem.
    rewrite bool_decide_eq_false_2 by (by apply dict_get_None).
    by erewrite bind_Raise by reflexivity.
Qed.


(** ** Shrinking the windows *)

Lemma for_each_map {S X Y} (f : X -> Y) (body : Y -> M S unit) (l : list X) :
  for_each (map f l) body = for_each l (fun x => body (f x)).
Proof. induction l as [|x l IH]; [done|]. cbn. by rewrite IH. Qed.

Lemma dict_keys_tagged (keys : list string) (v : Qc) :
  dict_keys (map (fun key => (key, v)) keys) = keys.
Proof. unfold dict_keys. rewrite map_map. cbn. apply map_id. Qed.

Lemma dict_get_tagged (keys : list string) (v : Qc) key :
  key ∈ keys -> dict_get key (map (fun key => (key, v)) keys) = Some v.
Proof.
  intros Hkey. induction keys as [|k keys IH]; [by apply elem_of_nil in Hkey|].
  cbn. destruct (decide (key = k)) as [->|Hne]; [done|].
  apply elem_of_cons in Hkey as [?|Hkey]; [done | by apply IH].
Qed.

(** One round of [__adjust_sample_size]: the oldest entry of every deque
    is dropped. *)
Lemma drop_round hm :
  wf_host hm ->
  (forall key, key ∈ dict_keys (metrics hm) ->
     exists w, windows_of hm key = Some w /\ can_drop w = true) ->
  exists hm',
    for_each (dict_keys (metrics hm)) (fun key => drop_oldest (key, Q2Qc 0)) hm = (Ok tt, hm') /\
    wf_host hm' /\ store_only hm hm' /\
    forall key, windows_of hm' key = dropped <$> windows_of hm key.
Proof.
  intros Hwf Hcan.
  destruct (loop_effect drop_oldest can_drop (fun _ => dropped)
              (fun hm key value w => drop_oldest_effect hm key value w)
              (map (fun key => (key, Q2Qc 0)) (dict_keys (metrics hm))) hm Hwf)
    as (hm' & Hrun & Hwf' & Hso & Hw).
  { rewrite dict_keys_tagged. apply (wf_nodup _ Hwf). }
  { intros key. rewrite dict_keys_tagged. apply Hcan. }
  exists hm'. rewrite for_each_map in Hrun. split_and!; try done.
  intros key. rewrite Hw.
  destruct (decide (key ∈ dict_keys (metrics hm))) as [Hkey|Hkey].
  - by rewrite dict_get_tagged.
  - rewrite (windows_of_None hm key) by done. by destruct (dict_get _ _).
Qed.

Lemma drop_round_fails hm :
  wf_host hm ->
  (exists key w, windows_of hm key = Some w /\ can_drop w = false) ->
  exists hm',
    for_each (dict_keys (metrics hm)) (fun key => drop_oldest (key, Q2Qc 0)) hm
      = (Raise IndexError, hm') /\
    store_only hm hm'.
Proof.
  intros Hwf (key & w & Hw & Hc).
  destruct (loop_raises drop_oldest can_drop (fun _ => dropped) IndexError
              (fun hm key value w => drop_oldest_effect hm key value w) drop_oldest_fails
              (map (fun key => (key, Q2Qc 0)) (dict_keys (metrics hm))) hm Hwf)
    as (hm' & Hrun & Hso).
  { rewrite dict_keys_tagged. apply (wf_nodup _ Hwf). }
  { intros x. rewrite dict_keys_tagged. by apply windows_of_is_Some. }
  { exists key, w. rewrite dict_keys_tagged. split; [|done].
    destruct (windows_of_Some _ _ _ Hw) as (r & _ & Hr & _). by eapply dict_get_Some_key. }
  exists hm'. by rewrite for_each_map in Hrun.
Qed.

Lemma drop_rounds (rounds : list nat) : forall hm keys,
  wf_host hm -> keys = dict_keys (metrics hm) ->
  (forall key, key ∈ keys ->
     exists w, windows_of hm key = Some w /\ can_drop_n (length rounds) w = true) ->
  exists hm',
    for_each rounds (fun _ => for_each keys (fun key => drop_oldest (key, Q2Qc 0))) hm
      = (Ok tt, hm') /\
    wf_host hm' /\ store_only hm hm' /\
    forall key, windows_of hm' key = dropped_n (length rounds) <$> windows_of hm key.
Proof.
  induction rounds as [|x rounds IH]; intros hm keys Hwf -> Hcan.
  - exists hm. split_and!; [done | done | apply store_only_refl|].
    intros key. by destruct (windows_of hm key).
  - destruct (drop_round hm Hwf) as (hm1 & Hrun1 & Hwf1 & Hso1 & Hw1).
    { intros key Hkey. destruct (Hcan key Hkey) as (w & Hw & Hc). exists w.
      split; [done|]. cbn in Hc. by apply andb_prop in Hc as [? _]. }
    pose proof (store_only_fields _ _ Hso1) as (Hm1 & _).
    destruct (IH hm1 (dict_keys (metrics hm)) Hwf1) as (hm' & Hrun' & Hwf' & Hso' & Hw').
    { by rewrite Hm1. }
    { intros key Hkey. destruct (Hcan key Hkey) as (w & Hw & Hc). exists (dropped w).
      rewrite Hw1, Hw. split; [done|]. cbn in Hc. by apply andb_prop in Hc as [_ ?]. }
    exists hm'. cbn [for_each]. rewrite (bind_Ok _ _ _ _ _ Hrun1).
    split_and!; [done | done | by eapply store_only_trans|].
    intros key. rewrite Hw', Hw1. by destruct (windows_of hm key).
Qed.

Lemma drop_rounds_fail (rounds : list nat) : forall hm keys,
  wf_host hm -> keys = dict_keys (metrics hm) ->
  (exists key w, windows_of hm key = Some w /\ can_drop_n (length rounds) w = false) ->
  exists hm',
    for_each rounds (fun _ => for_each keys (fun key => drop_oldest (key, Q2Qc 0))) hm
      = (Raise IndexError, hm') /\
    store_only hm hm'.
Proof.
  induction rounds as [|x rounds IH]; intros hm keys Hwf -> (key & w & Hw & Hc); [done|].
  cbn [for_each].
  destruct (decide (Exists (fun key => can_drop <$> windows_of hm key = Some false)
                      (dict_keys (metrics hm)))) as [Hdrop|Hdrop].
  - destruct (drop_round_fails hm Hwf) as (hm1 & Hrun1 & Hso1).
    { apply list.Exists_exists in Hdrop as (x' & Hx & Hcx). exists x'.
      destruct (windows_of hm x') as [wx|]; [|done]. exists wx. cbn in Hcx.
      split; [done|]. by injection Hcx. }
    exists hm1. by rewrite (bind_Raise _ _ _ _ _ Hrun1).
  - destruct (drop_round hm Hwf) as (hm1 & Hrun1 & Hwf1 & Hso1 & Hw1).
    { intros x' Hx. destruct (windows_of_is_Some hm x' Hwf Hx) as [wx Hwx]. exists wx.
      split; [done|]. destruct (can_drop wx) eqn:E; [done|]. exfalso. apply Hdrop.
      apply list.Exists_exists. exists x'. split; [done|]. by rewrite Hwx; cbn; rewrite E. }
    pose proof (store_only_fields _ _ Hso1) as (Hm1 & _).
    destruct (IH hm1 (dict_keys (metrics hm)) Hwf1) as (hm' & Hrun' & Hso').
    { by rewrite Hm1. }
    { exists key, (dropped w). rewrite Hw1, Hw. split; [done|].
      cbn in Hc. apply andb_false_iff in Hc as [Hc|Hc]; [|done]. exfalso. apply Hdrop.
      apply list.Exists_exists. exists key. split.
      - destruct (windows_of_Some _ _ _ Hw) as (r & _ & Hr & _). by eapply dict_get_Some_key.
      - by rewrite Hw; cbn; rewrite Hc. }
    exists hm'. rewrite (bind_Ok _ _ _ _ _ Hrun1). split; [done | by eapply store_only_trans].
Qed.

(** The state in which [reconfigure] reaches [__adjust_sample_size]. *)
Lemma reconfigure_unfold n a i p hm :
  reconfigure n a i p hm =
    adjust_sample_size n
      (set_pref_normalized p (set_inactivity_threshold i (set_activity_threshold a hm))).
Proof. done. Qed.

Lemma reconfigure_effect n a i p hm :
  wf_host hm ->
  (forall key, key ∈ dict_keys (metrics hm) ->
     exists w, windows_of hm key = Some w /\
               can_drop_n (Z.to_nat (max_samples hm - n)) w = true) ->
  exists hm',
    reconfigure n a i p hm = (Ok tt, hm') /\
    wf_host hm' /\
    (forall key, windows_of hm' key =
                 dropped_n (Z.to_nat (max_samples hm - n)) <$> windows_of hm key) /\
    max_samples hm' = n /\
    activity_threshold hm' = a /\
    inactivity_threshold hm' = i /\
    pref_normalized hm' = p /\
    current_samples hm' = current_samples hm /\
    active hm' = active hm /\
    deltas hm' = deltas hm.
Proof.
  intros Hwf Hcan. rewrite reconfigure_unfold.
  set (hm0 := set_pref_normalized p _).
  assert (Hwf0 : wf_host hm0) by (by eapply wf_host_eq; [..|exact Hwf]).
  unfold adjust_sample_size. erewrite (bind_Ok get) by reflexivity.
  change (max_samples hm0) with (max_samples hm).
  change (metrics hm0) with (metrics hm).
  case_bool_decide as Hlt.
  - destruct (drop_rounds (seq 0 (Z.to_nat (max_samples hm - n))) hm0
                (dict_keys (metrics hm)) Hwf0 eq_refl) as (hm1 & Hrun & Hwf1 & Hso & Hw).
    { intros key Hkey. rewrite length_seq. apply Hcan, Hkey. }
    rewrite length_seq in Hw.
    erewrite bind_Ok by exact Hrun.
    pose proof (store_only_fields _ _ Hso) as (? & ? & ? & ? & ? & ? & ? & ? & ?).
    eexists. split; [reflexivity|]. split_and!; try done.
    by eapply wf_host_eq; [..|exact Hwf1].
  - erewrite bind_Ok by reflexivity.
    replace (Z.to_nat (max_samples hm - n)) with 0%nat by lia.
    eexists. split; [reflexivity|]. split_and!; try done.
    + by eapply wf_host_eq; [..|exact Hwf0].
    + intros key. change (windows_of (set_max_samples n hm0) key) with (windows_of hm key).
      by destruct (windows_of hm key).
Qed.

Lemma reconfigure_fails n a i p hm :
  wf_host hm ->
  (exists key w, windows_of hm key = Some w /\
                 can_drop_n (Z.to_nat (max_samples hm - n)) w = false) ->
  exists hm',
    reconfigure n a i p hm = (Raise IndexError, hm') /\
    max_samples hm' = max_samples hm /\
    activity_threshold hm' = a /\
    inactivity_threshold hm' = i /\
    pref_normalized hm' = p /\
    current_samples hm' = current_samples hm.
Proof.
  intros Hwf (key & w & Hw & Hc). rewrite reconfigure_unfold.
  set (hm0 := set_pref_normalized p _).
  assert (Hwf0 : wf_host hm0) by (by eapply wf_host_eq; [..|exact Hwf]).
  unfold adjust_sample_size. erewrite (bind_Ok get) by reflexivity.
  change (max_samples hm0) with (max_samples hm).
  change (metrics hm0) with (metrics hm).
  case_bool_decide as Hlt.
  - destruct (drop_rounds_fail (seq 0 (Z.to_nat (max_samples hm - n))) hm0
                (dict_keys (metrics hm)) Hwf0 eq_refl) as (hm1 & Hrun & Hso).
    { exists key, w. rewrite length_seq. done. }
    erewrite bind_Raise by exact Hrun.
    pose proof (store_only_fields _ _ Hso) as (? & ? & ? & ? & ? & ? & ? & ? & ?).
    eexists. split; [reflexivity|]. done.
  - replace (Z.to_nat (max_samples hm - n)) with 0%nat in Hc by lia. done.
Qed.

(** ** The deltas of a host *)

Lemma getitem_Ok {S V} k (d : list (string * V)) v (s : S) :
  dict_get k d = Some v -> getitem k d s = (Ok v, s).
Proof. intros H. unfold getitem. by rewrite H. Qed.

Lemma getitem_KeyError {S V} k (d : list (string * V)) (s : S) :
  dict_get k d = None -> getitem (S:=S) k d s = (Raise KeyError, s).
Proof. intros H. unfold getitem. by rewrite H. Qed.

Lemma update_deltas_loop (rep : list (string * Z)) global_metrics keys : forall hm,
  (forall key, key ∈ keys ->
     exists v g, dict_get key rep = Some v /\ dict_get key global_metrics = Some g /\
                 g <> Q2Qc 0) ->
  exists hm',
    for_each keys (fun key =>
      m <- getitem key rep ;;
      g <- getitem key global_metrics ;;
      if bool_decide (g = Q2Qc 0) then raise ZeroDivisionError
      else modify (set_deltas (dict_set key (Qcabs (1 - qz m / g)%Qc)))) hm = (Ok tt, hm') /\
    same_windows hm hm' /\
    forall m,
      dict_get m (deltas hm') =
        if bool_decide (m ∈ keys) then
          match dict_get m rep with
          | Some v => deviation v <$> dict_get m global_metrics
          | None => None
          end
        else dict_get m (deltas hm).
Proof.
  induction keys as [|key keys IH]; intros hm Hok.
  - exists hm. split; [done|]. split; [apply same_windows_refl | done].
  - destruct (Hok key) as (v & g & Hv & Hg & Hnz); [apply list_elem_of_here|].
    destruct (IH (set_deltas (dict_set key (Qcabs (1 - qz v / g)%Qc)) hm))
      as (hm' & Hrun & Hsame & Hd).
    { intros k Hk. by apply Hok, list_elem_of_further. }
    exists hm'. split; [|split].
    + cbn [for_each]. erewrite bind_Ok; [exact Hrun|].
      erewrite bind_Ok by (by apply getitem_Ok).
      erewrite bind_Ok by (by apply getitem_Ok).
      by rewrite bool_decide_eq_false_2.
    + eapply same_windows_trans; [|exact Hsame]. unfold same_windows. by destruct hm.
    + intros m. rewrite Hd. cbn [deltas set_deltas].
      destruct (decide (m = key)) as [->|Hne].
      * rewrite (bool_decide_eq_true_2 (key ∈ key :: keys)) by apply list_elem_of_here.
        rewrite Hv, Hg. cbn. case_bool_decide; [done|]. by rewrite dict_get_set_eq.
      * rewrite dict_get_set_ne by done.
        destruct (bool_decide (m ∈ keys)) eqn:Hin.
        -- apply bool_decide_eq_true_1 in Hin.
           by rewrite bool_decide_eq_true_2 by (by apply list_elem_of_further).
        -- apply bool_decide_eq_false_1 in Hin.
           rewrite bool_decide_eq_false_2; [done|]. by intros [?|?]%elem_of_cons.
Qed.

Lemma report_is_Some hm m :
  wf_host hm -> m ∈ dict_keys (metrics hm) -> exists v, report hm m = Some v.
Proof.
  intros Hwf Hm. destruct (wf_host_window hm m Hwf Hm) as (d & Hd & _).
  unfold report. rewrite bool_decide_eq_true_2 by done. rewrite Hd. by eexists.
Qed.

Lemma update_deltas_effect global_metrics hm :
  wf_host hm ->
  (forall key, key ∈ dict_keys (metrics hm) ->
     exists g, dict_get key global_metrics = Some g /\ g <> Q2Qc 0) ->
  exists hm',
    update_deltas global_metrics hm = (Ok tt, hm') /\
    same_windows hm hm' /\
    forall m, dict_get m (deltas hm') = delta_after hm global_metrics m.
Proof.
  intros Hwf Hcmp.
  destruct (get_metrics_report hm Hwf) as (rep & Hrun & Hnd & Hrep).
  destruct (update_deltas_loop rep global_metrics (dict_keys rep) hm)
    as (hm' & Hloop & Hsame & Hd).
  { intros key Hkey. apply dict_get_is_Some in Hkey as [v Hv]. exists v.
    assert (Hk : key ∈ dict_keys (metrics hm)).
    { rewrite Hrep in Hv. unfold report in Hv. by case_bool_decide. }
    destruct (Hcmp key Hk) as (g & Hg & Hnz). by exists g. }
  exists hm'. split; [|split; [done|]].
  - unfold update_deltas. rewrite (bind_Ok _ _ _ _ _ Hrun). exact Hloop.
  - intros m. rewrite Hd. unfold delta_after. rewrite <- Hrep.
    case_bool_decide as Hin.
    + apply dict_get_is_Some in Hin as [v Hv]. by rewrite Hv.
    + apply dict_get_None in Hin. by rewrite Hin.
Qed.

(** The loop raises at the first metric without a global value, or with
    the global value zero. *)
Lemma update_deltas_loop_raises (rep : list (string * Z)) global_metrics keys : forall hm,
  (forall key, key ∈ keys -> exists v, dict_get key rep = Some v) ->
  (exists key, key ∈ keys /\
     (dict_get key global_metrics = None \/ dict_get key global_metrics = Some (Q2Qc 0))) ->
  exists e hm',
    for_each keys (fun key =>
      m <- getitem key rep ;;
      g <- getitem key global_metrics ;;
      if bool_decide (g = Q2Qc 0) then raise ZeroDivisionError
      else modify (set_deltas (dict_set key (Qcabs (1 - qz m / g)%Qc)))) hm = (Raise e, hm') /\
    (e = KeyError \/ e = ZeroDivisionError) /\
    same_windows hm hm'.
Proof.
  induction keys as [|key keys IH]; intros hm Hrep (bad & Hbad & Hwhy).
  { by apply elem_of_nil in Hbad. }
  destruct (Hrep key) as (v & Hv); [apply list_elem_of_here|].
  cbn [for_each].
  destruct (dict_get key global_metrics) as [g|] eqn:Hg.
  - destruct (decide (g = Q2Qc 0)) as [Hz|Hz].
    + exists ZeroDivisionError, hm. split; [|split; [by right | apply same_windows_refl]].
      erewrite bind_Raise; [done|].
      erewrite bind_Ok by (by apply getitem_Ok).
      erewrite bind_Ok by (by apply getitem_Ok).
      by rewrite bool_decide_eq_true_2.
    + destruct (IH (set_deltas (dict_set key (Qcabs (1 - qz v / g)%Qc)) hm))
        as (e & hm' & Hrun & He & Hsame).
      { intros k Hk. by apply Hrep, list_elem_of_further. }
      { exists bad. split; [|done]. apply elem_of_cons in Hbad as [->|?]; [|done].
        destruct Hwhy as [?|?]; congruence. }
      exists e, hm'. split; [|split; [done|]].
      * erewrite bind_Ok; [exact Hrun|].
        erewrite bind_Ok by (by apply getitem_Ok).
        erewrite bind_Ok by (by apply getitem_Ok).
        by rewrite bool_decide_eq_false_2.
      * eapply same_windows_trans; [|exact Hsame]. unfold same_windows. by destruct hm.
  - exists KeyError, hm. split; [|split; [by left | apply same_windows_refl]].
    erewrite bind_Raise; [done|].
    erewrite bind_Ok by (by apply getitem_Ok).
    by erewrite bind_Raise by (by apply getitem_KeyError).
Qed.

Lemma update_deltas_fails global_metrics hm :
  wf_host hm ->
  ~ (forall key, key ∈ dict_keys (metrics hm) ->
       exists g, dict_get key global_metrics = Some g /\ g <> Q2Qc 0) ->
  exists e hm',
    update_deltas global_metrics hm = (Raise e, hm') /\
    (e = KeyError \/ e = ZeroDivisionError) /\
    same_windows hm hm'.
Proof.
  intros Hwf Hcmp.
  destruct (get_metrics_report hm Hwf) as (rep & Hrun & Hnd & Hrep).
  assert (Hkeys : forall key, key ∈ dict_keys rep <-> key ∈ dict_keys (metrics hm)).
  { intros key. split.
    - intros [v Hv]%dict_get_is_Some. rewrite Hrep in Hv. unfold report in Hv.
      by case_bool_decide.
    - intros Hk. destruct (report_is_Some hm key Hwf Hk) as [v Hv]. rewrite <- Hrep in Hv.
      by eapply dict_get_Some_key. }
  destruct (update_deltas_loop_raises rep global_metrics (dict_keys rep) hm)
    as (e & hm' & Hloop & He & Hsame).
  { intros key Hkey. by apply dict_get_is_Some. }
  { destruct (decide (Exists (fun key => dict_get key global_metrics = None \/
                                dict_get key global_metrics = Some (Q2Qc 0))
                        (dict_keys (metrics hm)))) as [Hex|Hex].
    - apply list.Exists_exists in Hex as (key & Hkey & Hwhy). exists key.
      split; [by apply Hkeys | done].
    - exfalso. apply Hcmp. intros key Hkey.
      destruct (dict_get key global_metrics) as [g|] eqn:Hg.
      + exists g. split; [done|]. intros ->. apply Hex, list.Exists_exists.
        exists key. split; [done|]. by right.
      + exfalso. apply Hex, list.Exists_exists. exists key. split; [done|]. by left. }
  exists e, hm'. split; [|done].
  unfold update_deltas. rewrite (bind_Ok _ _ _ _ _ Hrun). exact Hloop.
Qed.

(** ** Counters and mitigation concern tracked hosts *)

Global Instance keeps_counters_ok_preorder : PreOrder keeps_counters_ok.
Proof. split; [intros s H; exact H | intros a b c H1 H2 H; exact (H2 (H1 H))]. Qed.

(** The hosts may grow; the rest is as before. *)
Lemma counters_ok_hosts s s' :
  (forall h, h ∈ dict_keys (host_metrics s) -> h ∈ dict_keys (host_metrics s')) ->
  host_flags s' = host_flags s ->
  host_deflags s' = host_deflags s ->
  mitigated_host_ids s' = mitigated_host_ids s ->
  counters_ok s -> counters_ok s'.
Proof.
  intros Hh Hf Hd Hm []. constructor; rewrite ?Hf, ?Hd, ?Hm; auto.
Qed.

Lemma on_host_keeps_counters_ok {A} h (method : M HostMetrics A) :
  steps keeps_counters_ok (on_host h method).
Proof.
  intros s Hok. unfold on_host.
  destruct (dict_get h (host_metrics s)) as [hm|] eqn:E; [|exact Hok].
  destruct (method hm) as [r hm']. cbn [snd].
  apply (counters_ok_hosts s); [|done..].
  intros x Hx. cbn [host_metrics set_host_metrics]. rewrite dict_keys_set_elem; [done|]. by eapply dict_get_Some_key.
Qed.

#[global] Hint Resolve on_host_keeps_counters_ok : steps.

Ltac keeps_counters_ok_tac :=
  steps_tac;
  try (apply steps_modify; intros s0 ?; apply (counters_ok_hosts s0); done).

Lemma trigger_flag_keeps_counters_ok deltas keys :
  steps keeps_counters_ok (trigger_flag deltas keys).
Proof. intros s. rewrite trigger_flag_unchanged. reflexivity. Qed.

#[global] Hint Resolve trigger_flag_keeps_counters_ok : steps.

Lemma increment_keys h counter :
  forall x, x ∈ dict_keys (increment h counter) <-> x = h \/ x ∈ dict_keys counter.
Proof.
  intros x. unfold increment.
  destruct (dict_get h counter) as [n|] eqn:E; rewrite dict_keys_set; case_bool_decide as Hin.
  - split; [by right | intros [->|?]; done].
  - rewrite elem_of_app, list_elem_of_singleton. tauto.
  - split; [by right | intros [->|?]; done].
  - rewrite elem_of_app, list_elem_of_singleton. tauto.
Qed.

Lemma increment_NoDup h counter :
  NoDup (dict_keys counter) -> NoDup (dict_keys (increment h counter)).
Proof. intros H. unfold increment. destruct (dict_get h counter); by apply dict_set_NoDup. Qed.

Lemma increment_nonneg h counter :
  Forall (fun hv => 0 <= snd hv) counter ->
  Forall (fun hv => 0 <= snd hv) (increment h counter).
Proof.
  intros H. unfold increment. destruct (dict_get h counter) as [n|] eqn:E.
  - apply dict_set_Forall; [|done]. cbn. rewrite list.Forall_forall in H.
    apply dict_get_Some_elem, H in E. cbn in E. lia.
  - apply dict_set_Forall; [cbn; lia | done].
Qed.

Lemma dict_set_keys_elem {V} h (v : V) counter :
  forall x, x ∈ dict_keys (dict_set h v counter) <-> x = h \/ x ∈ dict_keys counter.
Proof.
  intros x. rewrite dict_keys_set. case_bool_decide as Hin.
  - split; [by right | intros [->|?]; done].
  - rewrite elem_of_app, list_elem_of_singleton. tauto.
Qed.

Lemma flag_host_keeps_counters_ok h : steps keeps_counters_ok (flag_host h).
Proof.
  intros s Hok. unfold flag_host. erewrite (bind_Ok get) by reflexivity.
  destruct (dict_get h (host_metrics s)) as [hm|] eqn:Hh.
  2:{ by erewrite bind_Raise by (by apply getitem_KeyError). }
  erewrite bind_Ok by (by apply getitem_Ok).
  destruct (negb (is_active hm)); [exact Hok|].
  apply dict_get_Some_key in Hh.
  unfold bind.
  pose proof (trigger_flag_unchanged (get_deltas hm) (dict_keys (get_deltas hm)) s) as Ht.
  destruct (trigger_flag _ _ s) as [[b|e] s1]; cbn [snd] in Ht; unfold unchanged in Ht;
    subst s1; [|exact Hok].
  destruct Hok as [Hfn Hdn Hft Hdt Hmf Hf0 Hd0].
  destruct b; case_bool_decide as Hmit; cbn [snd modify ret]; try (by constructor).
  - constructor; cbn; try done.
    + by apply dict_set_NoDup.
    + intros x [->|Hx]%dict_set_keys_elem; auto.
    + apply dict_set_Forall; [cbn; lia | done].
  - constructor; cbn; try done.
    + by apply increment_NoDup.
    + intros x [->|Hx]%increment_keys; auto.
    + intros x Hx. apply increment_keys. right. auto.
    + by apply increment_nonneg.
  - constructor; cbn; try done.
    + by apply increment_NoDup.
    + intros x [->|Hx]%increment_keys; auto.
    + by apply increment_nonneg.
Qed.

#[global] Hint Resolve flag_host_keeps_counters_ok : steps.

Lemma start_mitigation_keeps_counters_ok (m : MitigationConfiguration) host_id :
  steps keeps_counters_ok
    (s <- get ;;
     value <- getitem host_id (host_flags s) ;;
     if bool_decide (FlagsBeforeActivation m < value) then
       modify (set_mitigated_host_ids (fun ids => ids ∪ {[host_id]})) ;;;
       emit (StartMitigation (EventNames (configuration s))) host_id ;;;
       modify (set_host_flags (dict_set host_id 0))
     else ret tt).
Proof.
  intros s Hok. erewrite (bind_Ok get) by reflexivity.
  destruct (dict_get host_id (host_flags s)) as [v|] eqn:Hv.
  2:{ by erewrite bind_Raise by (by apply getitem_KeyError). }
  erewrite bind_Ok by (by apply getitem_Ok).
  case_bool_decide; [|exact Hok]. cbn.
  apply dict_get_Some_key in Hv.
  destruct Hok as [Hfn Hdn Hft Hdt Hmf Hf0 Hd0]. constructor; cbn; try done.
  - by apply dict_set_NoDup.
  - intros x [->|Hx]%dict_set_keys_elem; auto.
  - intros x Hx. apply dict_set_keys_elem.
    apply elem_of_union in Hx as [Hx|Hx%elem_of_singleton]; auto.
  - apply dict_set_Forall; [cbn; lia | done].
Qed.

Lemma stop_mitigation_keeps_counters_ok (m : MitigationConfiguration) host_id :
  steps keeps_counters_ok
    (s <- get ;;
     value <- getitem host_id (host_deflags s) ;;
     if bool_decide (DeflagsBeforeDeactivation m < value) then
       modify (set_mitigated_host_ids (fun ids => ids ∖ {[host_id]})) ;;;
       emit (StopMitigation (EventNames (configuration s))) host_id ;;;
       modify (set_host_deflags (dict_set host_id 0))
     else ret tt).
Proof.
  intros s Hok. erewrite (bind_Ok get) by reflexivity.
  destruct (dict_get host_id (host_deflags s)) as [v|] eqn:Hv.
  2:{ by erewrite bind_Raise by (by apply getitem_KeyError). }
  erewrite bind_Ok by (by apply getitem_Ok).
  case_bool_decide; [|exact Hok]. cbn.
  apply dict_get_Some_key in Hv.
  destruct Hok as [Hfn Hdn Hft Hdt Hmf Hf0 Hd0]. constructor; cbn; try done.
  - by apply dict_set_NoDup.
  - intros x [->|Hx]%dict_set_keys_elem; auto.
  - intros x Hx. apply elem_of_difference in Hx as [Hx _]. auto.
  - apply dict_set_Forall; [cbn; lia | done].
Qed.

Lemma dispatch_mitigation_keeps_counters_ok m : steps keeps_counters_ok (dispatch_mitigation m).
Proof.
  unfold dispatch_mitigation.
  apply steps_bind; [typeclasses eauto | apply steps_get; typeclasses eauto | intros s0].
  apply steps_bind; [typeclasses eauto | | intros _].
  { apply steps_for_each; [typeclasses eauto|]. intros h.
    apply start_mitigation_keeps_counters_ok. }
  apply steps_bind; [typeclasses eauto | apply steps_get; typeclasses eauto | intros s1].
  apply steps_for_each; [typeclasses eauto|]. intros h.
  apply stop_mitigation_keeps_counters_ok.
Qed.

#[global] Hint Resolve dispatch_mitigation_keeps_counters_ok : steps.

Lemma record_host_keeps_counters_ok h sample : steps keeps_counters_ok (record_host h sample).
Proof.
  unfold record_host. apply steps_except_KeyError; [typeclasses eauto|..].
  - apply on_host_keeps_counters_ok.
  - intros s Hok. unfold bind, get.
    destruct (new_HostMetrics _ _ _ _ _) as [hm|e]; [|exact Hok]. cbn.
    apply (counters_ok_hosts s); [|done..].
    intros x Hx. cbn [host_metrics set_host_metrics]. apply dict_set_keys_elem. by right.
Qed.

#[global] Hint Resolve record_host_keeps_counters_ok : steps.

Lemma update_metrics_keeps_counters_ok metrics :
  steps keeps_counters_ok (update_metrics metrics).
Proof.
  unfold update_metrics, after_recording, update_global_metrics, include_host, divide_metric,
    accumulate, update_host_deltas, update_host_flags.
  keeps_counters_ok_tac.
Qed.

Lemma update_config_keeps_counters_ok c : steps keeps_counters_ok (update_config c).
Proof. unfold update_config. keeps_counters_ok_tac. Qed.

Lemma reachable_counters_ok s : reachable s -> counters_ok s.
Proof.
  induction 1 as [c|s metrics _ IH _|s c _ IH].
  - constructor; cbn; try apply NoDup_nil_2; try constructor;
      intros h Hh; by (apply elem_of_nil in Hh || apply elem_of_empty in Hh).
  - by apply update_metrics_keeps_counters_ok.
  - by apply update_config_keeps_counters_ok.
Qed.

(** ** Phase (e): starting and stopping mitigation *)

Lemma dict_get_app_new {V} k (d1 d2 : list (string * V)) :
  k ∉ dict_keys d1 -> dict_get k (d1 ++ d2) = dict_get k d2.
Proof.
  induction d1 as [|[k' v'] d1 IH]; [done|]. cbn. intros [Hne Hk]%not_elem_of_cons.
  destruct (decide (k = k')); [done | by apply IH].
Qed.

Lemma dict_set_app_new {V} k (v : V) (d1 d2 : list (string * V)) :
  k ∉ dict_keys d1 -> dict_set k v (d1 ++ d2) = d1 ++ dict_set k v d2.
Proof.
  induction d1 as [|[k' v'] d1 IH]; [done|]. cbn. intros [Hne Hk]%not_elem_of_cons.
  destruct (decide (k = k')); [done | by rewrite IH].
Qed.

Lemma dict_get_head {V} k (v : V) d : dict_get k ((k, v) :: d) = Some v.
Proof. cbn. by rewrite decide_True. Qed.

Lemma dict_set_head {V} k (v v' : V) d : dict_set k v' ((k, v) :: d) = (k, v') :: d.
Proof. cbn. by rewrite decide_True. Qed.

Lemma NoDup_keys_middle {V} (d1 : list (string * V)) k v d2 :
  NoDup (dict_keys (d1 ++ (k, v) :: d2)) -> k ∉ dict_keys d1.
Proof.
  unfold dict_keys. rewrite map_app. cbn. intros H Hk.
  apply list.NoDup_app in H as (_ & H & _). apply (H k Hk). apply list_elem_of_here.
Qed.



Lemma reset_over_keys limit counter : dict_keys (reset_over limit counter) = dict_keys counter.
Proof. unfold dict_keys, reset_over. rewrite map_map. done. Qed.


(** ** What the handlers of the detector leave alone *)

Lemma bind_steps_at {S A B} (R : relation S) (m : M S A) (f : A -> M S B) s :
  R s (snd (m s)) ->
  (forall a s1, m s = (Ok a, s1) -> R s (snd (f a s1))) ->
  R s (snd (bind m f s)).
Proof.
  intros Hm Hf. unfold bind. destruct (m s) as [[a|e] s1] eqn:E; cbn [snd] in *; [|exact Hm].
  by apply Hf.
Qed.

Global Instance quiet_preorder : PreOrder quiet.
Proof.
  split; [by intros s|].
  intros a b c (? & ? & ?) (? & ? & ?). unfold quiet. split_and!; congruence.
Qed.

Global Instance hosts_only_preorder : PreOrder hosts_only.
Proof.
  split; [by intros s|].
  intros a b c (? & ? & ? & ? & ? & ?) (? & ? & ? & ? & ? & ?).
  unfold hosts_only. split_and!; congruence.
Qed.

Global Instance same_hosts_preorder : PreOrder same_hosts.
Proof.
  split; [by intros s|]. intros a b c H1 H2. unfold same_hosts in *. congruence.
Qed.

Lemma on_host_quiet {A} h (method : M HostMetrics A) : steps quiet (on_host h method).
Proof.
  intros s. unfold on_host. destruct (dict_get h (host_metrics s)); [|reflexivity].
  by destruct (method _).
Qed.

Lemma on_host_hosts_only {A} h (method : M HostMetrics A) : steps hosts_only (on_host h method).
Proof.
  intros s. unfold on_host. destruct (dict_get h (host_metrics s)); [|reflexivity].
  by destruct (method _).
Qed.

Lemma on_host_same_hosts {A} h (method : M HostMetrics A) : steps same_hosts (on_host h method).
Proof.
  intros s. unfold on_host. destruct (dict_get h (host_metrics s)) eqn:E; [|reflexivity].
  destruct (method _). unfold same_hosts. cbn.
  apply dict_keys_set_elem. by eapply dict_get_Some_key.
Qed.

#[global] Hint Resolve on_host_quiet on_host_hosts_only on_host_same_hosts : steps.

Lemma trigger_flag_quiet deltas keys : steps quiet (trigger_flag deltas keys).
Proof. intros s. rewrite trigger_flag_unchanged. reflexivity. Qed.

#[global] Hint Resolve trigger_flag_quiet : steps.

Ltac quiet_tac := steps_tac; try (apply steps_modify; intros ?; done).

Lemma record_host_quiet h sample : steps quiet (record_host h sample).
Proof.
  unfold record_host. apply steps_except_KeyError; [typeclasses eauto|..]; quiet_tac.
Qed.

Lemma record_host_hosts_only h sample : steps hosts_only (record_host h sample).
Proof.
  unfold record_host. apply steps_except_KeyError; [typeclasses eauto|..]; quiet_tac.
Qed.

#[global] Hint Resolve record_host_quiet record_host_hosts_only : steps.

Lemma record_batch_hosts_only metrics : steps hosts_only (record_batch metrics).
Proof. unfold record_batch. quiet_tac. Qed.

Lemma record_batch_quiet metrics : steps quiet (record_batch metrics).
Proof. unfold record_batch. quiet_tac. Qed.

Lemma update_global_metrics_quiet : steps quiet update_global_metrics.
Proof. unfold update_global_metrics, include_host, divide_metric, accumulate. quiet_tac. Qed.

Lemma update_host_deltas_quiet : steps quiet update_host_deltas.
Proof. unfold update_host_deltas. quiet_tac. Qed.

Lemma update_host_flags_quiet : steps quiet update_host_flags.
Proof. unfold update_host_flags, flag_host. quiet_tac. Qed.

Lemma steps_Ok {S A} (R : relation S) (m : M S A) s a s1 :
  steps R m -> m s = (Ok a, s1) -> R s s1.
Proof. intros H E. specialize (H s). by rewrite E in H. Qed.

Lemma steps_Raise {S A} (R : relation S) (m : M S A) s e s1 :
  steps R m -> m s = (Raise e, s1) -> R s s1.
Proof. intros H E. specialize (H s). by rewrite E in H. Qed.

Lemma after_recording_quiet s :
  Mitigation (configuration s) = None -> quiet s (snd (after_recording s)).
Proof.
  intros Hoff. unfold after_recording.
  apply bind_steps_at; [apply update_global_metrics_quiet|]. intros [] s1 H1.
  apply (steps_Ok quiet _ _ _ _ update_global_metrics_quiet) in H1.
  apply bind_steps_at; [etrans; [exact H1 | apply update_host_deltas_quiet]|].
  intros [] s2 H2. apply (steps_Ok quiet _ _ _ _ update_host_deltas_quiet) in H2.
  apply bind_steps_at; [etrans; [exact H1|]; etrans; [exact H2 | apply update_host_flags_quiet]|].
  intros [] s3 H3. apply (steps_Ok quiet _ _ _ _ update_host_flags_quiet) in H3.
  assert (H : quiet s s3) by (etrans; [exact H1|]; etrans; [exact H2 | exact H3]).
  unfold bind, get. destruct H as (Hc & _). cbn. rewrite Hc, Hoff. cbn.
  etrans; [exact H1|]; etrans; [exact H2 | exact H3].
Qed.

(** ** The hosts a batch adds *)

Lemma record_host_tracks h sample s s1 :
  record_host h sample s = (Ok tt, s1) ->
  dict_keys (host_metrics s1) =
    dict_keys (host_metrics s) ++ (if bool_decide (h ∈ dict_keys (host_metrics s)) then [] else [h]).
Proof.
  unfold record_host, except_KeyError.
  pose proof (on_host_same_hosts h (record_sample sample) s) as Hsame.
  destruct (on_host h (record_sample sample) s) as [[[]|e] s0] eqn:E; cbn [snd] in Hsame.
  - intros [= <-]. rewrite Hsame.
    unfold on_host in E. destruct (dict_get h (host_metrics s)) as [hm|] eqn:Hh; [|done].
    rewrite bool_decide_eq_true_2 by (by eapply dict_get_Some_key). by rewrite app_nil_r.
  - destruct e; try done. unfold bind, get.
    destruct (new_HostMetrics _ _ _ _ _) as [hm|e]; [|done]. intros [= <-].
    cbn [host_metrics set_host_metrics modify snd]. rewrite dict_keys_set.
    unfold same_hosts in Hsame. rewrite !Hsame. case_bool_decide; [|done].
    by rewrite app_nil_r.
Qed.

Lemma filter_ext_in {A} (P1 P2 : A -> Prop) `{!forall x, Decision (P1 x)}
    `{!forall x, Decision (P2 x)} (l : list A) :
  (forall x, x ∈ l -> P1 x <-> P2 x) -> filter P1 l = filter P2 l.
Proof.
  induction l as [|x l IH]; intros Hiff; [done|]. rewrite !filter_cons.
  rewrite IH by (intros y Hy; by apply Hiff, list_elem_of_further).
  pose proof (Hiff x (list_elem_of_here _ _)) as Hx.
  destruct (decide (P1 x)), (decide (P2 x)); tauto || done.
Qed.

Lemma record_batch_tracks metrics : forall s s1,
  NoDup (dict_keys metrics) ->
  record_batch metrics s = (Ok tt, s1) ->
  dict_keys (host_metrics s1) = dict_keys (host_metrics s) ++ new_hosts s metrics.
Proof.
  induction metrics as [|[h sample] metrics IH]; intros s s1 Hnd Hrun.
  - injection Hrun as <-. unfold new_hosts. cbn. by rewrite app_nil_r.
  - unfold dict_keys in Hnd. cbn [map fst] in Hnd. fold (dict_keys metrics) in Hnd.
    pose proof (NoDup_cons_1_1 _ _ Hnd) as Hh. apply NoDup_cons_1_2 in Hnd.
    unfold record_batch in Hrun. cbn [for_each] in Hrun.
    apply bind_Ok_inv in Hrun as ([] & s0 & Hrec & Hrun).
    apply record_host_tracks in Hrec. apply (IH s0 s1 Hnd) in Hrun.
    rewrite Hrun, Hrec. unfold new_hosts. cbn [dict_keys map fst]. rewrite filter_cons.
    fold (dict_keys metrics). rewrite <- app_assoc. f_equal.
    assert (Hfilter : filter (fun x => x ∉ dict_keys (host_metrics s0)) (dict_keys metrics)
                      = filter (fun x => x ∉ dict_keys (host_metrics s)) (dict_keys metrics)).
    { apply filter_ext_in. intros x Hx. rewrite Hrec.
      case_bool_decide; [by rewrite app_nil_r|].
      rewrite elem_of_app, list_elem_of_singleton. split; [tauto|].
      intros H1 [H2| ->]; done. }
    rewrite Hfilter. case_bool_decide as Hin.
    + by rewrite decide_False by tauto.
    + by rewrite decide_True by done.
Qed.

Lemma after_recording_same_hosts : steps same_hosts after_recording.
Proof.
  intros s. pose proof (after_recording_hosts_same s) as [_ H].
  unfold same_hosts, dict_keys. induction H as [|x y l l' [Hxy _] _ IH]; [done|].
  cbn. by rewrite IH, Hxy.
Qed.


(** ** Reloading the configuration *)

Lemma update_config_hosts_only : steps hosts_only
  (s <- get ;;
   for_each (dict_keys (host_metrics s)) (fun key =>
     s <- get ;;
     on_host key (reconfigure (MaxSamples (configuration s))
                    (SamplesBeforeInclusion (configuration s))
                    (SamplesBeforeExclusion (configuration s))
                    (NormalizeSamples (configuration s))))).
Proof. quiet_tac. Qed.

Lemma update_config_same_hosts c : steps same_hosts (update_config c).
Proof. unfold update_config. quiet_tac. Qed.

Lemma reconfigure_loop c : forall todo done s,
  configuration s = c ->
  host_metrics s = done ++ todo ->
  NoDup (dict_keys (done ++ todo)) ->
  match for_each (dict_keys todo) (fun key =>
          s <- get ;;
          on_host key (reconfigure (MaxSamples (configuration s))
                         (SamplesBeforeInclusion (configuration s))
                         (SamplesBeforeExclusion (configuration s))
                         (NormalizeSamples (configuration s)))) s with
  | (Ok _, s') =>
      exists todo',
        host_metrics s' = done ++ todo' /\
        Forall2 (fun h h' =>
                   fst h' = fst h /\ reconfigure_with c (snd h) = (Ok tt, snd h'))
          todo todo'
  | (Raise e, _) =>
      Exists (fun h => fst (reconfigure_with c (snd h)) = Raise e) todo
  end.
Proof.
  induction todo as [|[h hm] todo IH]; intros done s Hc Hhosts Hnd.
  - cbn. exists []. split; [exact Hhosts | constructor].
  - pose proof (NoDup_keys_middle _ _ _ _ Hnd) as Hh.
    assert (Hget : dict_get h (host_metrics s) = Some hm).
    { rewrite Hhosts, dict_get_app_new by done. apply dict_get_head. }
    cbn [dict_keys map fst for_each]. fold (dict_keys todo).
    unfold bind at 1, bind at 1, get at 1, on_host at 1. rewrite Hget, Hc.
    fold (reconfigure_with c).
    destruct (reconfigure_with c hm) as [[[]|e] hm'] eqn:Hrun.
    + set (s0 := set_host_metrics (dict_set h hm') s).
      specialize (IH (done ++ [(h, hm')]) s0).
      destruct (for_each (dict_keys todo) _ s0) as [[[]|e] s'].
      * destruct IH as (todo' & Hs' & Hall); [done | | |].
        { unfold s0. cbn. rewrite Hhosts, dict_set_app_new by done. rewrite dict_set_head.
          by rewrite <- app_assoc. }
        { rewrite <- app_assoc. cbn [app]. unfold dict_keys in *. rewrite map_app in *. done. }
        exists ((h, hm') :: todo'). split; [by rewrite Hs', <- app_assoc|].
        constructor; [split; [done | exact Hrun] | done].
      * apply Exists_cons_tl. apply IH; [done | |].
        { unfold s0. cbn. rewrite Hhosts, dict_set_app_new by done. rewrite dict_set_head.
          by rewrite <- app_assoc. }
        { rewrite <- app_assoc. cbn [app]. unfold dict_keys in *. rewrite map_app in *. done. }
    + apply Exists_cons_hd. cbn [snd]. by rewrite Hrun.
Qed.


(** ** The view of a well-formed document *)

Lemma new_JSONParser_loaded file document m :
  loads file document -> new_JSONParser file m = (Ok (mkJSONParser true document), m).
Proof.
  intros (Hmime & Hread & Hcontent). unfold new_JSONParser.
  rewrite bool_decide_eq_true_2 by done. cbn [negb]. by rewrite Hread, Hcontent.
Qed.

Lemma parser_getitem_loaded document name value (m : ConfigurationManager) :
  dict_get name document = Some value ->
  parser_getitem (mkJSONParser true (JObject document)) name m = (Ok value, m).
Proof.
  intros H. unfold parser_getitem, dict_mem. cbn [loaded_json config negb].
  rewrite bool_decide_eq_true_2 by (by eapply dict_get_Some_key). cbn [negb subscript].
  by apply getitem_Ok.
Qed.

Lemma subscript_field value name v (m : ConfigurationManager) :
  field name value = Some v -> subscript value name m = (Ok v, m).
Proof. destruct value; try done. cbn. by apply getitem_Ok. Qed.

Lemma set_mgr_configuration_same m : set_mgr_configuration (mgr_configuration m) m = m.
Proof. by destruct m. Qed.

(** The loops over [Thresholds] and [EventNames]: the values are set in
    the section [sec] of the view one after the other. *)
Lemma section_loop document name sec entries :
  dict_get name document = Some (JObject entries) ->
  NoDup (dict_keys entries) ->
  forall todo done vs m acc,
    entries = done ++ todo ->
    values todo = Some vs ->
    dict_get sec (mgr_configuration m) = Some (JObject acc) ->
    for_each (dict_keys todo) (fun key =>
      section <- parser_getitem (mkJSONParser true (JObject document)) name ;;
      entry <- subscript section key ;;
      value <- subscript entry "Value" ;;
      set_in_section sec key value) m =
    (Ok tt,
     set_mgr_configuration
       (dict_set sec (JObject (foldl (fun a kv => dict_set (fst kv) (snd kv) a) acc vs))
          (mgr_configuration m)) m).
Proof.
  intros Hsec Hnd. induction todo as [|[key entry] todo IH]; intros done vs m acc -> Hvs Hacc.
  - injection Hvs as <-. cbn. unfold ret. f_equal.
    rewrite (dict_set_same _ _ _ Hacc). by rewrite set_mgr_configuration_same.
  - cbn [values] in Hvs.
    destruct (field "Value" entry) as [v|] eqn:Hv; [|done]. cbn in Hvs.
    destruct (values todo) as [vs'|] eqn:Hvs'; [|done]. injection Hvs as <-.
    pose proof (NoDup_keys_middle _ _ _ _ Hnd) as Hkey.
    cbn [dict_keys map fst for_each]. fold (dict_keys todo).
    erewrite bind_Ok.
    2:{ erewrite bind_Ok by (by apply parser_getitem_loaded).
        erewrite bind_Ok.
        2:{ apply subscript_field. cbn [field]. rewrite dict_get_app_new by done.
            apply dict_get_head. }
        erewrite bind_Ok by (by apply subscript_field).
        unfold set_in_section. erewrite (bind_Ok get) by reflexivity.
        erewrite bind_Ok by (by apply getitem_Ok). reflexivity. }
    erewrite (IH (done ++ [(key, entry)])); [| by rewrite <- app_assoc | done |].
    + cbn. by rewrite dict_set_twice.
    + cbn. apply dict_get_set_eq.
Qed.

(** The loop over [Performance]: the values are set in the view itself. *)
Lemma performance_loop document entries :
  dict_get "Performance" document = Some (JObject entries) ->
  NoDup (dict_keys entries) ->
  forall todo done vs m,
    entries = done ++ todo ->
    values todo = Some vs ->
    for_each (dict_keys todo) (fun key =>
      section <- parser_getitem (mkJSONParser true (JObject document)) "Performance" ;;
      entry <- subscript section key ;;
      value <- subscript entry "Value" ;;
      m <- get ;;
      modify (set_mgr_configuration (dict_set key value (mgr_configuration m)))) m =
    (Ok tt,
     set_mgr_configuration
       (foldl (fun a kv => dict_set (fst kv) (snd kv) a) (mgr_configuration m) vs) m).
Proof.
  intros Hsec Hnd. induction todo as [|[key entry] todo IH]; intros done vs m -> Hvs.
  - injection Hvs as <-. cbn. unfold ret. by rewrite set_mgr_configuration_same.
  - cbn [values] in Hvs.
    destruct (field "Value" entry) as [v|] eqn:Hv; [|done]. cbn in Hvs.
    destruct (values todo) as [vs'|] eqn:Hvs'; [|done]. injection Hvs as <-.
    pose proof (NoDup_keys_middle _ _ _ _ Hnd) as Hkey.
    cbn [dict_keys map fst for_each]. fold (dict_keys todo).
    erewrite bind_Ok.
    2:{ erewrite bind_Ok by (by apply parser_getitem_loaded).
        erewrite bind_Ok.
        2:{ apply subscript_field. cbn [field]. rewrite dict_get_app_new by done.
            apply dict_get_head. }
        erewrite bind_Ok by (by apply subscript_field).
        erewrite (bind_Ok get) by reflexivity. reflexivity. }
    erewrite (IH (done ++ [(key, entry)])); [| by rewrite <- app_assoc | done].
    done.
Qed.

Lemma values_keys entries vs : values entries = Some vs -> dict_keys vs = dict_keys entries.
Proof.
  revert vs. induction entries as [|[key entry] entries IH]; intros vs Hvs.
  - by injection Hvs as <-.
  - cbn [values] in Hvs. destruct (field "Value" entry) as [v|]; [|done]. cbn in Hvs.
    destruct (values entries) as [vs'|]; [|done]. injection Hvs as <-.
    cbn. f_equal. by apply IH.
Qed.

Lemma foldl_dict_set_fresh {V} (vs : list (string * V)) : forall acc,
  NoDup (dict_keys vs) ->
  Forall (fun key => key ∉ dict_keys acc) (dict_keys vs) ->
  foldl (fun a kv => dict_set (fst kv) (snd kv) a) acc vs = acc ++ vs.
Proof.
  induction vs as [|[k v] vs IH]; intros acc Hnd Hfresh; [by rewrite app_nil_r|].
  unfold dict_keys in Hnd, Hfresh. cbn [map fst] in Hnd, Hfresh.
  fold (dict_keys vs) in Hnd, Hfresh.
  pose proof (NoDup_cons_1_1 _ _ Hnd) as Hk. apply NoDup_cons_1_2 in Hnd.
  apply Forall_cons_1 in Hfresh as [Hka Hfresh].
  cbn [foldl fst snd]. rewrite IH; [| done |].
  - assert (Hset : dict_set k v acc = acc ++ [(k, v)]).
    { clear -Hka. induction acc as [|[k' v'] acc IH]; [done|]. cbn.
      apply not_elem_of_cons in Hka as [Hne Hka]. rewrite decide_False by done.
      by rewrite IH. }
    rewrite Hset, <- app_assoc. done.
  - apply list.Forall_forall. intros x Hx. rewrite list.Forall_forall in Hfresh.
    rewrite dict_keys_set. case_bool_decide; [by apply Hfresh|].
    rewrite elem_of_app, list_elem_of_singleton. intros [?| ->]; [by eapply Hfresh | done].
Qed.

Lemma mitigation_step document mitigation (m : ConfigurationManager) :
  mitigation_view document = Some mitigation ->
  exists m1,
    (enable <- parser_getitem (mkJSONParser true (JObject document)) "EnableMitigation" ;;
     if negb (truthy enable) then ret JNull
     else
       mc <- parser_getitem (mkJSONParser true (JObject document)) "MitigationConfiguration" ;;
       fba <- subscript mc "FlagsBeforeActivation" ;;
       fba <- subscript fba "Value" ;;
       mc <- parser_getitem (mkJSONParser true (JObject document)) "MitigationConfiguration" ;;
       dbd <- subscript mc "DeflagsBeforeDeactivation" ;;
       dbd <- subscript dbd "Value" ;;
       ret (JObject [("FlagsBeforeActivation", fba);
                     ("DeflagsBeforeDeactivation", dbd)])) m = (Ok mitigation, m1) /\
    config_path m1 = config_path m /\
    mgr_emitted m1 = mgr_emitted m.
Proof.
  unfold mitigation_view.
  destruct (dict_get "EnableMitigation" document) as [enable|] eqn:He.
  - erewrite bind_Ok by (by apply parser_getitem_loaded).
    destruct (truthy enable); cbn [negb]; [|intros [= <-]; by exists m].
    destruct (dict_get "MitigationConfiguration" document) as [mc|] eqn:Hmc; [|done]. cbn.
    destruct (field "FlagsBeforeActivation" mc) as [fba0|] eqn:Hf0; [|done]. cbn.
    destruct (field "Value" fba0) as [fba|] eqn:Hf; [|done]. cbn.
    destruct (field "DeflagsBeforeDeactivation" mc) as [dbd0|] eqn:Hd0; [|done]. cbn.
    destruct (field "Value" dbd0) as [dbd|] eqn:Hd; [|done]. cbn. intros [= <-].
    exists m. split; [|done].
    erewrite bind_Ok by (by apply parser_getitem_loaded).
    erewrite bind_Ok by (by apply subscript_field).
    erewrite bind_Ok by (by apply subscript_field).
    erewrite bind_Ok by (by apply parser_getitem_loaded).
    erewrite bind_Ok by (by apply subscript_field).
    erewrite bind_Ok by (by apply subscript_field).
    done.
  - intros [= <-]. eexists. split; [|split].
    + erewrite bind_Ok.
      2:{ unfold parser_getitem, dict_mem. cbn [loaded_json config negb].
          rewrite bool_decide_eq_false_2 by (by apply dict_get_None). cbn [negb].
          reflexivity. }
      reflexivity.
    + done.
    + done.
Qed.

Lemma build_configuration_effect file document view m :
  loads file (JObject document) ->
  sections_ok document ->
  view_of document = Some view ->
  exists m',
    build_configuration file m = (Ok tt, m') /\
    mgr_configuration m' = view /\
    config_path m' = config_path m /\
    mgr_emitted m' = mgr_emitted m.
Proof.
  intros Hloads (Hnt & Hnp & Hne & Hclash) Hview.
  unfold view_of in Hview.
  destruct (mitigation_view document) as [mitigation|] eqn:Hmit; [|done]. cbn in Hview.
  unfold section_values in Hview. unfold entries_of in Hnt, Hnp, Hne, Hclash.
  destruct (dict_get "Thresholds" document) as [[| | | |thresholds]|] eqn:Ht; try done.
  destruct (values thresholds) as [tv|] eqn:Htv; [|done]. cbn in Hview.
  destruct (dict_get "Performance" document) as [[| | | |performance]|] eqn:Hp; try done.
  destruct (values performance) as [pv|] eqn:Hpv; [|done]. cbn in Hview.
  destruct (dict_get "EventNames" document) as [[| | | |event_names]|] eqn:He; try done.
  destruct (values event_names) as [ev|] eqn:Hev; [|done]. cbn in Hview.
  injection Hview as <-.
  destruct (mitigation_step document mitigation m Hmit) as (m1 & Hstep & Hpath & Hemitted).
  unfold build_configuration.
  rewrite (bind_Ok _ _ _ _ _ (new_JSONParser_loaded _ _ _ Hloads)).
  unfold bind at 1. unfold bind at 1 in Hstep.
  destruct (parser_getitem _ "EnableMitigation" m) as [[enable|e] m0]; [|done].
  erewrite bind_Ok by exact Hstep.
  erewrite bind_Ok by reflexivity.
  erewrite bind_Ok by (by apply parser_getitem_loaded).
  erewrite bind_Ok by reflexivity. cbn [modify snd].
  erewrite bind_Ok.
  2:{ apply (section_loop document "Thresholds" "Thresholds" thresholds Ht Hnt thresholds []
               tv _ []); [done | done | reflexivity]. }
  erewrite bind_Ok by (by apply parser_getitem_loaded).
  erewrite bind_Ok by reflexivity.
  erewrite bind_Ok.
  2:{ by apply (performance_loop document performance Hp Hnp performance [] pv). }
  erewrite bind_Ok by (by apply parser_getitem_loaded).
  erewrite bind_Ok by reflexivity.
  rewrite (foldl_dict_set_fresh tv []).
  2:{ by rewrite (values_keys _ _ Htv). }
  2:{ apply list.Forall_forall. intros ? _. apply not_elem_of_nil. }
  cbn [mgr_configuration set_mgr_configuration app].
  assert (Hbase : dict_set "Thresholds" (JObject tv)
                    [("Mitigation", mitigation); ("Thresholds", JObject []);
                     ("EventNames", JObject [])] =
                  [("Mitigation", mitigation); ("Thresholds", JObject tv);
                   ("EventNames", JObject [])]) by reflexivity.
  rewrite Hbase.
  rewrite (foldl_dict_set_fresh pv).
  2:{ by rewrite (values_keys _ _ Hpv). }
  2:{ rewrite (values_keys _ _ Hpv). exact Hclash. }
  erewrite (section_loop document "EventNames" "EventNames" event_names He Hne event_names []
              ev _ []); [| done | done | reflexivity].
  eexists. split; [reflexivity|]. cbn [mgr_configuration set_mgr_configuration].
  rewrite (foldl_dict_set_fresh ev []).
  2:{ by rewrite (values_keys _ _ Hev). }
  2:{ apply list.Forall_forall. intros ? _. apply not_elem_of_nil. }
  split; [reflexivity|]. done.
Qed.

Lemma on_modified_unfold file m :
  on_modified (config_path m) file m =
    (build_configuration file ;;;
     m <- get ;;
     names <- getitem "EventNames" (mgr_configuration m) ;;
     topic <- subscript names "ConfigurationReloaded" ;;
     match topic with
     | JString t => mgr_emit t (mgr_configuration m)
     | _ => raise TypeError
     end)
      (mkConfigurationManager (config_path m) (mgr_configuration m) (mgr_emitted m)
         (mgr_log m ++ ["Configuration file changed. Reloading..."])).
Proof.
  unfold on_modified. erewrite (bind_Ok get) by reflexivity.
  rewrite bool_decide_eq_true_2 by done. by erewrite bind_Ok by reflexivity.
Qed.

(** ** A file that cannot be loaded, and a document without a section *)


Lemma parser_getitem_missing document name (m : ConfigurationManager) :
  dict_get name document = None ->
  parser_getitem (mkJSONParser true (JObject document)) name m =
    (Ok JNull,
     mkConfigurationManager (config_path m) (mgr_configuration m) (mgr_emitted m)
       (mgr_log m ++ ["Invalid configuration option: %s"])).
Proof.
  intros H. unfold parser_getitem, dict_mem. cbn [loaded_json config negb].
  rewrite bool_decide_eq_false_2 by (by apply dict_get_None). reflexivity.
Qed.


(** ** Constructions *)

Lemma on_Ok event_manager event_name handler handlers p :
  objects p !! event_manager = Some (EventManagerObject handlers) ->
  on event_manager event_name handler p =
    (Ok tt,
     mkProcess (_instances p)
       (<[event_manager := EventManagerObject (handlers ++ [(event_name, handler)])]>
          (objects p))).
Proof. intros H. unfold on. erewrite (bind_Ok get) by reflexivity. by rewrite H. Qed.

Lemma construct_detector c em p handlers :
  objects p !! em = Some (EventManagerObject handlers) ->
  construct CoResidencyDetector (DetectorArguments c em) p =
    (Ok (length (objects p)),
     mkProcess (_instances p)
       (<[em := EventManagerObject
                  (handlers ++
                   [(ConfigurationReloaded (EventNames c),
                     (length (objects p), "__update_config"));
                    (SampleEvent (EventNames c),
                     (length (objects p), "__update_metrics"))])]>
          (objects p ++ [CoResidencyDetectorObject (new_Detector c) em]))).
Proof.
  intros Hem. pose proof (lookup_lt_Some _ _ _ Hem) as Hlt.
  unfold construct. erewrite (bind_Ok get) by reflexivity.
  erewrite bind_Ok by reflexivity.
  erewrite bind_Ok.
  2:{ apply on_Ok. cbn. rewrite lookup_app_l by done. exact Hem. }
  erewrite bind_Ok.
  2:{ apply on_Ok. cbn. apply list_lookup_insert_eq. rewrite length_app. lia. }
  cbn. rewrite list_insert_insert_eq, <- app_assoc. done.
Qed.

(** ** The first sample of a host *)

Lemma dict_set_new {V} k (v : V) d : k ∉ dict_keys d -> dict_set k v d = d ++ [(k, v)].
Proof.
  induction d as [|[k' v'] d IH]; [done|]. cbn. intros [Hne Hk]%not_elem_of_cons.
  rewrite decide_False by done. by rewrite IH.
Qed.

Lemma record_host_untracked h sample s :
  h ∉ dict_keys (host_metrics s) ->
  record_host h sample s =
    match new_HostMetrics sample (MaxSamples (configuration s))
            (SamplesBeforeInclusion (configuration s))
            (SamplesBeforeExclusion (configuration s))
            (NormalizeSamples (configuration s)) with
    | Ok hm => (Ok tt, set_host_metrics (fun hosts => hosts ++ [(h, hm)]) s)
    | Raise e => (Raise e, s)
    end.
Proof.
  intros Hh. unfold record_host, except_KeyError, on_host.
  rewrite (proj2 (dict_get_None _ _) Hh). unfold bind, get.
  destruct (new_HostMetrics _ _ _ _ _) as [hm|e]; [|done].
  unfold modify, set_host_metrics. by rewrite dict_set_new.
Qed.

(** ** Batches without reloads *)



(** ** A lone benign host *)

Lemma update_global_metrics_baseline s :
  wf_detector s ->
  exists g,
    update_global_metrics s = (Ok tt, set_global_metrics (fun _ => g) s) /\
    forall m, dict_get m g = baseline s m.
Proof.
  intros [Hnd Hwf]. rewrite list.Forall_forall in Hwf.
  unfold update_global_metrics, bind at 1, modify at 1, bind at 1, get at 1.
  destruct (include_hosts (host_metrics s) 0 (set_global_metrics (fun _ => []) s))
    as (g1 & Hloop & Hnd1 & Hget1).
  { intros h hm Hin. split; [by apply dict_get_elem | by apply (Hwf (h, hm))]. }
  cbn [host_metrics global_metrics mitigated_host_ids set_global_metrics dict_get] in *.
  unfold bind at 1. rewrite Hloop.
  rewrite set_global_metrics_twice. fold (benign s) in *.
  rewrite Z.add_0_l. specialize (Hnd1 (NoDup_nil_2)).
  assert (Hsum : forall m, dict_get m g1 =
            match omap (fun h => report (snd h) m) (benign s) with
            | [] => None
            | reports => Some (foldr Qcplus (Q2Qc 0) (qz <$> reports))
            end).
  { intros m. rewrite Hget1. cbn [dict_get]. apply foldl_add_report_None. }
  case_bool_decide as Hn.
  - unfold bind at 1, get at 1.
    destruct (divide_metrics (Z.of_nat (length (benign s)))
                (dict_keys g1) (set_global_metrics (fun _ => g1) s) Hnd1)
      as (g & Hrun & Hk & Hget); [done|].
    cbn [global_metrics set_global_metrics] in *. rewrite Hrun, set_global_metrics_twice.
    exists g. split; [done|].
    intros m. rewrite Hget. pose proof (Hsum m) as Hm. unfold baseline.
    destruct (omap _ (benign s)) as [|v reports]; rewrite Hm;
      [by case_bool_decide|].
    case_bool_decide as Hin; [done|]. exfalso. apply Hin.
    by apply dict_get_Some_key in Hm.
  - exists g1. split; [done|].
    assert (Hb : benign s = []).
    { destruct (benign s); [done|]. cbn in Hn. lia. }
    intros m. rewrite Hsum. unfold baseline. by rewrite Hb.
Qed.

Lemma qz_nonzero v : v <> 0 -> qz v <> Q2Qc 0.
Proof.
  intros Hv H. apply Hv. unfold qz in H. apply Q2Qc_eq_iff in H.
  unfold Qeq in H. cbn in H. lia.
Qed.

Lemma deviation_from_itself v : v <> 0 -> deviation v (qz v / qz 1)%Qc = Q2Qc 0.
Proof.
  intros Hv. unfold deviation.
  assert (H1 : qz 1 = 1%Qc) by (apply Qc_is_canon; reflexivity).
  rewrite H1. unfold Qcdiv.
  assert (Hinv : (/ 1)%Qc = 1%Qc) by (apply Qc_is_canon; reflexivity).
  rewrite Hinv, Qcmult_1_r, Qcmult_inv_r by (by apply qz_nonzero).
  apply Qc_is_canon. reflexivity.
Qed.

(** ** The checks as properties *)

Lemma recordable_spec hm sample :
  recordable hm sample = true ->
  forall key, key ∈ dict_keys sample ->
    exists w, windows_of hm key = Some w /\ can_record (window_full hm) w = true.
Proof.
  unfold recordable. rewrite forallb_forall. intros H key Hkey.
  apply list_elem_of_In, H in Hkey. destruct (windows_of hm key) as [w|]; [|done].
  by exists w.
Qed.

Lemma known_metrics_spec hm sample :
  known_metrics hm sample = true ->
  forall key, key ∈ dict_keys sample -> key ∈ dict_keys (metrics hm).
Proof.
  unfold known_metrics. rewrite forallb_forall. intros H key Hkey.
  apply list_elem_of_In, H in Hkey. unfold dict_mem in Hkey. by apply bool_decide_eq_true_1 in Hkey.
Qed.

Lemma forallb_false {A} (f : A -> bool) (l : list A) :
  forallb f l = false -> exists x, x ∈ l /\ f x = false.
Proof.
  induction l as [|x l IH]; [done|]. cbn. intros [H|H]%andb_false_iff.
  - exists x. split; [apply list_elem_of_here | done].
  - destruct (IH H) as (y & Hy & Hf). exists y. split; [by apply list_elem_of_further | done].
Qed.

Lemma not_recordable_spec hm sample :
  wf_host hm -> known_metrics hm sample = true -> recordable hm sample = false ->
  exists key w,
    key ∈ dict_keys sample /\ windows_of hm key = Some w /\
    can_record (window_full hm) w = false.
Proof.
  intros Hwf Hknown Hrec. apply forallb_false in Hrec as (key & Hkey & Hf).
  destruct (windows_of_is_Some hm key Hwf (known_metrics_spec _ _ Hknown key Hkey)) as [w Hw].
  rewrite Hw in Hf. by exists key, w.
Qed.

Lemma shrinkable_spec rounds hm :
  shrinkable rounds hm = true ->
  forall key, key ∈ dict_keys (metrics hm) ->
    exists w, windows_of hm key = Some w /\ can_drop_n rounds w = true.
Proof.
  unfold shrinkable. rewrite forallb_forall. intros H key Hkey.
  apply list_elem_of_In, H in Hkey. destruct (windows_of hm key) as [w|]; [|done].
  by exists w.
Qed.

Lemma not_shrinkable_spec rounds hm :
  wf_host hm -> shrinkable rounds hm = false ->
  exists key w, windows_of hm key = Some w /\ can_drop_n rounds w = false.
Proof.
  intros Hwf Hs. apply forallb_false in Hs as (key & Hkey & Hf).
  destruct (windows_of_is_Some hm key Hwf Hkey) as [w Hw].
  rewrite Hw in Hf. by exists key, w.
Qed.

Lemma comparable_spec hm global_metrics :
  comparable hm global_metrics = true <->
  (forall key, key ∈ dict_keys (metrics hm) ->
     exists g, dict_get key global_metrics = Some g /\ g <> Q2Qc 0).
Proof.
  unfold comparable. rewrite forallb_forall. split.
  - intros H key Hkey. apply list_elem_of_In, H in Hkey.
    destruct (dict_get key global_metrics) as [g|]; [|done]. exists g. split; [done|].
    by apply negb_true_iff, bool_decide_eq_false_1 in Hkey.
  - intros H key Hkey. apply list_elem_of_In, H in Hkey as (g & -> & Hg).
    by apply negb_true_iff, bool_decide_eq_false_2.
Qed.

Lemma record_batch_keeps_wf metrics : steps keeps_wf_detector (record_batch metrics).
Proof. unfold record_batch. keeps_wf_detector_tac. Qed.

(** ** Phase (c): the deltas of the active hosts *)

Lemma update_host_deltas_hosts_only : steps hosts_only update_host_deltas.
Proof. unfold update_host_deltas. quiet_tac. Qed.

Lemma update_host_deltas_loop g : forall todo done s,
  global_metrics s = g ->
  host_metrics s = done ++ todo ->
  NoDup (dict_keys (done ++ todo)) ->
  match for_each (dict_keys todo) (fun host_id =>
          s <- get ;;
          hm <- getitem host_id (host_metrics s) ;;
          if negb (is_active hm) then ret tt
          else on_host host_id (update_deltas (global_metrics s))) s with
  | (Ok _, s') =>
      exists todo',
        host_metrics s' = done ++ todo' /\
        Forall2 (fun h h' =>
                   fst h' = fst h /\
                   if is_active (snd h) then update_deltas g (snd h) = (Ok tt, snd h')
                   else snd h' = snd h)
          todo todo'
  | (Raise e, _) =>
      Exists (fun h => is_active (snd h) = true /\ fst (update_deltas g (snd h)) = Raise e)
        todo
  end.
Proof.
  induction todo as [|[h hm] todo IH]; intros done s Hg Hhosts Hnd.
  - cbn. exists []. split; [exact Hhosts | constructor].
  - pose proof (NoDup_keys_middle _ _ _ _ Hnd) as Hh.
    assert (Hget : dict_get h (host_metrics s) = Some hm).
    { rewrite Hhosts, dict_get_app_new by done. apply dict_get_head. }
    cbn [dict_keys map fst for_each]. fold (dict_keys todo).
    unfold bind at 1.
    assert (Hstep :
      (s0 <- get ;;
       hm0 <- getitem h (host_metrics s0) ;;
       if negb (is_active hm0) then ret tt
       else on_host h (update_deltas (global_metrics s0))) s =
      if is_active hm then
        let '(r, hm') := update_deltas g hm in
        (r, set_host_metrics (dict_set h hm') s)
      else (Ok tt, s)).
    { erewrite (bind_Ok get) by reflexivity.
      erewrite bind_Ok by (by apply getitem_Ok).
      destruct (is_active hm); cbn [negb]; [|done].
      unfold on_host. by rewrite Hget, Hg. }
    rewrite Hstep. clear Hstep.
    destruct (is_active hm) eqn:Hactive.
    + destruct (update_deltas g hm) as [[[]|e] hm'] eqn:Hrun.
      * set (s0 := set_host_metrics (dict_set h hm') s).
        specialize (IH (done ++ [(h, hm')]) s0).
        destruct (for_each (dict_keys todo) _ s0) as [[[]|e] s'].
        -- destruct IH as (todo' & Hs' & Hall); [done | | |].
           { unfold s0. cbn. rewrite Hhosts, dict_set_app_new by done. rewrite dict_set_head.
             by rewrite <- app_assoc. }
           { rewrite <- app_assoc. cbn [app]. unfold dict_keys in *.
             rewrite map_app in *. done. }
           exists ((h, hm') :: todo'). split; [by rewrite Hs', <- app_assoc|].
           constructor; [|done]. cbn [fst snd]. by rewrite Hactive.
        -- apply Exists_cons_tl. apply IH; [done | |].
           { unfold s0. cbn. rewrite Hhosts, dict_set_app_new by done. rewrite dict_set_head.
             by rewrite <- app_assoc. }
           { rewrite <- app_assoc. cbn [app]. unfold dict_keys in *.
             rewrite map_app in *. done. }
      * apply Exists_cons_hd. cbn [snd]. by rewrite Hrun.
    + specialize (IH (done ++ [(h, hm)]) s).
      destruct (for_each (dict_keys todo) _ s) as [[[]|e] s'].
      * destruct IH as (todo' & Hs' & Hall); [done | by rewrite <- app_assoc
                                               | by rewrite <- app_assoc |].
        exists ((h, hm) :: todo'). split; [by rewrite Hs', <- app_assoc|].
        constructor; [|done]. cbn [fst snd]. by rewrite Hactive.
      * apply Exists_cons_tl. apply IH; [done | by rewrite <- app_assoc
                                          | by rewrite <- app_assoc].
Qed.


(** * Further properties of the code *)

(** ** [HostMetrics] *)

(** X1.  [record_sample] on a host whose windows can take the sample
    returns.  The sample is counted unless the window is full.  The windows
    of every metric of the sample are [recorded]: when the window is full
    the oldest entry is dropped from the raw and from the normalized deque,
    then the value is appended to the raw deque and the difference of the
    last two raw entries to the normalized one (for a shared deque both land
    in the one deque).  The windows of the other metrics stay, and the
    normalized entry of [Activity] is the raw deque afterwards, whether
    [Activity] is in the sample or not.  The activity bit is adjusted from
    the sum of that deque; the thresholds, [MaxSamples], the preference and
    the deltas stay. *)
Theorem record_sample_rolls_windows hm sample :
  wf_host hm ->
  NoDup (dict_keys sample) ->
  recordable hm sample = true ->
  exists hm' total,
    record_sample sample hm = (Ok tt, hm') /\
    wf_host hm' /\
    current_samples hm' =
      (if window_full hm then current_samples hm else current_samples hm + 1) /\
    (forall key,
       windows_of hm' key = sampled (window_full hm) sample key <$> windows_of hm key) /\
    (py_sum ∘ raw_seq <$> windows_of hm' "Activity") = Some total /\
    active hm' = adjusted hm total /\
    max_samples hm' = max_samples hm /\
    activity_threshold hm' = activity_threshold hm /\
    inactivity_threshold hm' = inactivity_threshold hm /\
    pref_normalized hm' = pref_normalized hm /\
    deltas hm' = deltas hm /\
    metrics hm' = metrics hm.
Proof.
  intros Hwf Hnd Hrec. apply (record_sample_effect hm sample Hwf Hnd).
  by apply recordable_spec.
Qed.

(** X2.  When the host has every metric of the sample but the windows of
    one of them cannot take it (a full window that is empty, or a shared
    deque with fewer than two entries, or a deque that is empty after the
    drop), [record_sample] raises [IndexError].  The sample has been counted
    by then unless the window was full, the activity bit is not adjusted
    and the normalized entry of [Activity] is not rebound. *)
Theorem record_sample_raises_IndexError hm sample :
  wf_host hm ->
  NoDup (dict_keys sample) ->
  known_metrics hm sample = true ->
  recordable hm sample = false ->
  exists hm',
    record_sample sample hm = (Raise IndexError, hm') /\
    current_samples hm' =
      (if window_full hm then current_samples hm else current_samples hm + 1) /\
    active hm' = active hm /\
    normalized_metrics hm' = normalized_metrics hm.
Proof.
  intros Hwf Hnd Hknown Hrec.
  apply (record_sample_fails hm sample Hwf Hnd (known_metrics_spec _ _ Hknown)).
  by apply not_recordable_spec.
Qed.

(** X3.  With [MaxSamples = 1] the second sample of a host fails whenever
    it is not empty and names metrics of the first sample only: the
    constructor leaves one entry in every deque and a full window, so
    [record_sample] drops that entry and then finds no last-but-one raw
    entry for the difference. *)
Theorem second_sample_raises_when_max_samples_is_one initial_metrics sample at_ it pn :
  NoDup (dict_keys initial_metrics) ->
  "Activity" ∈ dict_keys initial_metrics ->
  NoDup (dict_keys sample) ->
  sample <> [] ->
  dict_keys sample ⊆ dict_keys initial_metrics ->
  exists hm hm',
    new_HostMetrics initial_metrics 1 at_ it pn = Ok hm /\
    record_sample sample hm = (Raise IndexError, hm').
Proof.
  intros Hnd Hact Hnds Hne Hsub.
  pose proof (new_HostMetrics_effect initial_metrics 1 at_ it pn Hnd) as Hnew.
  apply dict_get_is_Some in Hact as [a Ha]. rewrite Ha in Hnew.
  destruct Hnew as (hm & Hnew & Hwf & Hwin & Hcur & Hms & _).
  destruct sample as [|[k v] sample]; [done|].
  assert (Hk : k ∈ dict_keys initial_metrics) by (apply Hsub, list_elem_of_here).
  apply dict_get_is_Some in Hk as [v0 Hv0].
  destruct (record_sample_fails hm ((k, v) :: sample) Hwf Hnds) as (hm' & Hrun & _).
  - intros key Hkey. apply Hsub, dict_get_is_Some in Hkey as [x Hx].
    specialize (Hwin key). rewrite Hx in Hwin. cbn in Hwin.
    destruct (windows_of_Some _ _ _ Hwin) as (r & _ & Hr & _). by eapply dict_get_Some_key.
  - exists k, (mkWindows false [v0] [v0]). split; [apply list_elem_of_here|].
    split; [by rewrite Hwin, Hv0|]. rewrite Hcur, Hms. done.
  - by exists hm, hm'.
Qed.

(** X4.  With [MaxSamples = 2] the second sample is recorded and fills the
    window, and a third sample that has [Activity] fails: the raw and the
    normalized entry of [Activity] are one deque of two entries at most by
    then, both are dropped, and the difference finds no last-but-one
    entry. *)
Theorem third_sample_raises_when_max_samples_is_two initial_metrics second third
    at_ it pn :
  NoDup (dict_keys initial_metrics) ->
  "Activity" ∈ dict_keys initial_metrics ->
  NoDup (dict_keys second) ->
  dict_keys second ⊆ dict_keys initial_metrics ->
  NoDup (dict_keys third) ->
  dict_keys third ⊆ dict_keys initial_metrics ->
  "Activity" ∈ dict_keys third ->
  exists hm hm1 hm2,
    new_HostMetrics initial_metrics 2 at_ it pn = Ok hm /\
    record_sample second hm = (Ok tt, hm1) /\
    record_sample third hm1 = (Raise IndexError, hm2).
Proof.
  intros Hnd Hact Hnd2 Hsub2 Hnd3 Hsub3 Hact3.
  pose proof (new_HostMetrics_effect initial_metrics 2 at_ it pn Hnd) as Hnew.
  pose proof Hact as Hact'. apply dict_get_is_Some in Hact' as [a Ha]. rewrite Ha in Hnew.
  destruct Hnew as (hm & Hnew & Hwf & Hwin & Hcur & Hms & _).
  assert (Hfull : bool_decide (current_samples hm = max_samples hm) = false).
  { rewrite Hcur, Hms. done. }
  destruct (record_sample_effect hm second Hwf Hnd2)
    as (hm1 & total & Hrun1 & Hwf1 & Hcur1 & Hwin1 & _ & _ & Hms1 & _ & _ & _ & _ & Hm1).
  { intros key Hkey. apply Hsub2, dict_get_is_Some in Hkey as [x Hx].
    rewrite Hwin, Hx, Hfull. by eexists. }
  rewrite Hfull in Hcur1, Hwin1.
  destruct (record_sample_fails hm1 third Hwf1 Hnd3) as (hm2 & Hrun2 & _).
  - intros key Hkey. apply Hsub3, dict_get_is_Some in Hkey as [x Hx].
    rewrite Hm1. specialize (Hwin key). rewrite Hx in Hwin. cbn in Hwin.
    destruct (windows_of_Some _ _ _ Hwin) as (r & _ & Hr & _). by eapply dict_get_Some_key.
  - exists "Activity". rewrite Hwin1, Hwin, Ha. cbn. eexists. split; [done|].
    split; [reflexivity|]. rewrite Hcur1, Hms1, Hcur, Hms. cbn.
    unfold sampled. cbn. by destruct (dict_get "Activity" second).
  - by exists hm, hm1, hm2.
Qed.

(** X5.  The constructor ends the process ([SystemExit]) when the first
    sample has no [Activity].  Otherwise the object has, for every metric of
    the sample, a raw and a normalized deque of their own that hold the
    value, and no other metric; one sample is counted; a threshold that is
    not positive is replaced ([MaxSamples - 1] for activity, 1 for
    inactivity); and the host is active exactly when the Activity value
    exceeds the activity threshold. *)
Theorem constructor_windows_and_thresholds initial_metrics ms at_ it pn :
  NoDup (dict_keys initial_metrics) ->
  match dict_get "Activity" initial_metrics with
  | None => new_HostMetrics initial_metrics ms at_ it pn = Raise SystemExit
  | Some a =>
      exists hm,
        new_HostMetrics initial_metrics ms at_ it pn = Ok hm /\
        wf_host hm /\
        (forall m, windows_of hm m = first_windows <$> dict_get m initial_metrics) /\
        current_samples hm = 1 /\
        max_samples hm = ms /\
        activity_threshold hm = (if bool_decide (0 < at_) then at_ else ms - 1) /\
        inactivity_threshold hm = (if bool_decide (0 < it) then it else 1) /\
        pref_normalized hm = pn /\
        deltas hm = [] /\
        active hm = bool_decide (qz (activity_threshold hm) < a)%Qc
  end.
Proof. apply new_HostMetrics_effect. Qed.

(** X6.  [reconfigure] on a host whose windows are long enough returns.  It
    stores the two thresholds and the preference as given (a threshold that
    is not positive is not replaced, unlike in the constructor) and the new
    [MaxSamples]; when the new [MaxSamples] is smaller by [d] it drops the
    oldest entry of every deque [d] times (two entries per round from a
    deque that is both the raw and the normalized one), and otherwise keeps
    the windows.  The sample count, the activity bit and the deltas stay as
    they are: the count is not cut down to the new [MaxSamples]. *)
Theorem reconfigure_drops_oldest_entries n a i p hm :
  wf_host hm ->
  shrinkable (Z.to_nat (max_samples hm - n)) hm = true ->
  exists hm',
    reconfigure n a i p hm = (Ok tt, hm') /\
    wf_host hm' /\
    (forall key, windows_of hm' key =
                 dropped_n (Z.to_nat (max_samples hm - n)) <$> windows_of hm key) /\
    max_samples hm' = n /\
    activity_threshold hm' = a /\
    inactivity_threshold hm' = i /\
    pref_normalized hm' = p /\
    current_samples hm' = current_samples hm /\
    active hm' = active hm /\
    deltas hm' = deltas hm.
Proof.
  intros Hwf Hs. apply (reconfigure_effect n a i p hm Hwf). by apply shrinkable_spec.
Qed.

(** X7.  When some deque is too short for the rounds, [reconfigure] raises
    [IndexError] half way: the thresholds and the preference are the new
    ones already, while [MaxSamples] is still the old one. *)
Theorem reconfigure_raises_IndexError n a i p hm :
  wf_host hm ->
  shrinkable (Z.to_nat (max_samples hm - n)) hm = false ->
  exists hm',
    reconfigure n a i p hm = (Raise IndexError, hm') /\
    max_samples hm' = max_samples hm /\
    activity_threshold hm' = a /\
    inactivity_threshold hm' = i /\
    pref_normalized hm' = p /\
    current_samples hm' = current_samples hm.
Proof.
  intros Hwf Hs. apply (reconfigure_fails n a i p hm Hwf). by apply not_shrinkable_spec.
Qed.

(** X8.  [update_deltas] with global metrics that have a value other than
    zero for every metric of the host returns; it changes the deltas only,
    and the delta of every metric [m] of the host becomes
    [abs(1 - report[m] / global_metrics[m])], where [report] is what
    [get_metrics] returns. *)
Theorem update_deltas_sets_deviations global_metrics hm :
  wf_host hm ->
  comparable hm global_metrics = true ->
  exists hm',
    update_deltas global_metrics hm = (Ok tt, hm') /\
    same_windows hm hm' /\
    forall m, dict_get m (deltas hm') = delta_after hm global_metrics m.
Proof.
  intros Hwf Hc. apply (update_deltas_effect global_metrics hm Hwf).
  by apply comparable_spec.
Qed.

(** X9.  Otherwise [update_deltas] raises [KeyError] (a metric without a
    global value) or [ZeroDivisionError] (a global value of zero).  Whatever
    it did to the deltas by then, the rest of the host is as it was. *)
Theorem update_deltas_raises_otherwise global_metrics hm :
  wf_host hm ->
  comparable hm global_metrics = false ->
  exists e hm',
    update_deltas global_metrics hm = (Raise e, hm') /\
    (e = KeyError \/ e = ZeroDivisionError) /\
    same_windows hm hm'.
Proof.
  intros Hwf Hc. apply (update_deltas_fails global_metrics hm Hwf).
  intros H. apply comparable_spec in H. congruence.
Qed.

(** ** [CoResidencyDetector] *)

(** X10.  In every state the detector reaches, the keys of [host_flags]
    and of [host_deflags] are tracked hosts, a mitigated host has an entry
    in [host_flags] (and so is tracked), and no counter is negative. *)
Theorem counters_concern_tracked_hosts s :
  reachable s ->
  dict_keys (host_flags s) ⊆ dict_keys (host_metrics s) /\
  dict_keys (host_deflags s) ⊆ dict_keys (host_metrics s) /\
  (forall h, h ∈ mitigated_host_ids s -> h ∈ dict_keys (host_flags s)) /\
  Forall (fun hv => 0 <= snd hv) (host_flags s) /\
  Forall (fun hv => 0 <= snd hv) (host_deflags s).
Proof.
  intros H. destruct (reachable_counters_ok s H) as [_ _ Hf Hd Hm Hf0 Hd0]. done.
Qed.


(** X12.  While the configuration has no [Mitigation], a batch emits
    nothing and leaves the set of mitigated hosts as it is, whether the
    handler returns or raises. *)
Theorem no_mitigation_when_disabled metrics s :
  Mitigation (configuration s) = None ->
  quiet s (snd (update_metrics metrics s)).
Proof.
  intros Hoff. change (update_metrics metrics) with (record_batch metrics ;;; after_recording).
  apply bind_steps_at; [apply record_batch_quiet|]. intros [] s1 H1.
  apply (steps_Ok quiet _ _ _ _ (record_batch_quiet metrics)) in H1.
  etrans; [exact H1|]. apply after_recording_quiet. destruct H1 as (-> & _). done.
Qed.

(** X13.  An exception in phase (a) leaves [__update_metrics]: phases (b)
    to (e) do not run, so the two counters, the global metrics, the
    mitigated hosts, the emitted events and the configuration are as before
    the batch. *)
Theorem failed_recording_skips_later_phases metrics s e s1 :
  record_batch metrics s = (Raise e, s1) ->
  update_metrics metrics s = (Raise e, s1) /\
  hosts_only s s1.
Proof.
  intros Hrun. split.
  - change (update_metrics metrics) with (record_batch metrics ;;; after_recording).
    by rewrite (bind_Raise _ _ _ _ _ Hrun).
  - apply (steps_Raise hosts_only _ _ _ _ (record_batch_hosts_only metrics) Hrun).
Qed.

(** X14.  A batch that is handled without an exception keeps every tracked
    host, in the same order, and appends the hosts of the batch that were
    not tracked, in the order of the batch. *)
Theorem successful_batch_tracks_new_hosts metrics s s' :
  NoDup (dict_keys metrics) ->
  update_metrics metrics s = (Ok tt, s') ->
  dict_keys (host_metrics s') = dict_keys (host_metrics s) ++ new_hosts s metrics.
Proof.
  intros Hnd Hrun.
  change (update_metrics metrics) with (record_batch metrics ;;; after_recording) in Hrun.
  apply bind_Ok_inv in Hrun as ([] & s1 & Hrec & Hrun).
  apply (record_batch_tracks _ _ _ Hnd) in Hrec.
  apply (steps_Ok same_hosts _ _ _ _ after_recording_same_hosts) in Hrun.
  unfold same_hosts in Hrun. by rewrite Hrun.
Qed.

(** X15.  [__update_config] replaces the configuration before it touches a
    host, so the new configuration is in place also when the handler
    raises.  It keeps the tracked hosts and their order, the two counters,
    the global metrics, the mitigated hosts and the emitted events.  When it
    returns, every host has been reconfigured with the new values; when it
    raises, the exception is that of the [reconfigure] call of some host. *)
Theorem update_config_reconfigures_every_host c s :
  NoDup (dict_keys (host_metrics s)) ->
  configuration (snd (update_config c s)) = c /\
  hosts_only (set_configuration c s) (snd (update_config c s)) /\
  same_hosts s (snd (update_config c s)) /\
  match fst (update_config c s) with
  | Ok _ =>
      Forall2 (fun h h' =>
                 fst h' = fst h /\ reconfigure_with c (snd h) = (Ok tt, snd h'))
        (host_metrics s) (host_metrics (snd (update_config c s)))
  | Raise e =>
      Exists (fun h => fst (reconfigure_with c (snd h)) = Raise e) (host_metrics s)
  end.
Proof.
  intros Hnd.
  pose proof (update_config_hosts_only (set_configuration c s)) as Hframe.
  pose proof (update_config_same_hosts c s) as Hsame.
  pose proof (reconfigure_loop c (host_metrics s) [] (set_configuration c s) eq_refl eq_refl Hnd)
    as Hloop.
  assert (Heq : update_config c s =
    for_each (dict_keys (host_metrics s)) (fun key =>
      s <- get ;;
      on_host key (reconfigure (MaxSamples (configuration s))
                     (SamplesBeforeInclusion (configuration s))
                     (SamplesBeforeExclusion (configuration s))
                     (NormalizeSamples (configuration s)))) (set_configuration c s))
    by reflexivity.
  rewrite Heq in *. clear Heq.
  unfold bind at 1, get at 1 in Hframe. cbn [host_metrics set_configuration] in Hframe.
  destruct (for_each _ _ (set_configuration c s)) as [[[]|e] s'] eqn:E; cbn [fst snd] in *.
  - split; [by destruct Hframe as (-> & _)|]. split; [done|]. split; [done|].
    destruct Hloop as (todo' & -> & Hall). done.
  - split; [by destruct Hframe as (-> & _)|]. done.
Qed.

(** X16.  The first sample of a host: phase (a) constructs the host's
    object from the sample and the configured values and appends it to the
    tracked hosts; when the constructor raises, the detector is left as it
    was, and that happens exactly when the sample has no [Activity], with
    [SystemExit]. *)
Theorem first_sample_of_a_host h sample s :
  h ∉ dict_keys (host_metrics s) ->
  record_host h sample s =
    match new_HostMetrics sample (MaxSamples (configuration s))
            (SamplesBeforeInclusion (configuration s))
            (SamplesBeforeExclusion (configuration s))
            (NormalizeSamples (configuration s)) with
    | Ok hm => (Ok tt, set_host_metrics (fun hosts => hosts ++ [(h, hm)]) s)
    | Raise e => (Raise e, s)
    end /\
  (fst (record_host h sample s) = Raise SystemExit <-> "Activity" ∉ dict_keys sample) /\
  (fst (record_host h sample s) = Ok tt <-> "Activity" ∈ dict_keys sample).
Proof.
  intros Hh. pose proof (record_host_untracked h sample s Hh) as Hrun.
  split; [exact Hrun|]. rewrite Hrun.
  destruct (decide ("Activity" ∈ dict_keys sample)) as [Hact|Hact].
  - destruct (new_HostMetrics_spec sample (MaxSamples (configuration s))
                (SamplesBeforeInclusion (configuration s))
                (SamplesBeforeExclusion (configuration s))
                (NormalizeSamples (configuration s)) Hact) as (hm & -> & _).
    cbn. split; split; done.
  - assert (Hexit : new_HostMetrics sample (MaxSamples (configuration s))
                      (SamplesBeforeInclusion (configuration s))
                      (SamplesBeforeExclusion (configuration s))
                      (NormalizeSamples (configuration s)) = Raise SystemExit).
    { unfold new_HostMetrics, init_body, dict_mem.
      rewrite bool_decide_eq_false_2 by done. by erewrite bind_Raise by reflexivity. }
    rewrite Hexit. cbn. split; split; done.
Qed.


(** X18.  A host that is the only benign one is its own baseline: after
    phase (b) the global metrics are its reports, and [update_deltas] with
    them sets every delta of the host to 0, provided no report is 0 (a
    report of 0 makes the global value 0, and the division raises). *)
Theorem lone_benign_host_has_zero_deltas s h hm :
  wf_detector s ->
  benign s = [(h, hm)] ->
  Forall (fun m => report hm m <> Some 0) (dict_keys (metrics hm)) ->
  exists g hm',
    update_global_metrics s = (Ok tt, set_global_metrics (fun _ => g) s) /\
    (forall m, dict_get m g = (fun v => (qz v / qz 1)%Qc) <$> report hm m) /\
    update_deltas g hm = (Ok tt, hm') /\
    forall m, m ∈ dict_keys (metrics hm) -> dict_get m (deltas hm') = Some (Q2Qc 0).
Proof.
  intros Hwf Hb Hnz. rewrite list.Forall_forall in Hnz.
  assert (Hhm : wf_host hm).
  { pose proof (wf_hosts _ Hwf) as Hall. rewrite list.Forall_forall in Hall.
    apply (Hall (h, hm)).
    assert (Hin : (h, hm) ∈ benign s) by (rewrite Hb; apply list_elem_of_here).
    unfold benign in Hin. by apply list_elem_of_filter in Hin as [_ ?]. }
  destruct (update_global_metrics_baseline s Hwf) as (g & Hrun & Hg).
  assert (Hg' : forall m, dict_get m g = (fun v => (qz v / qz 1)%Qc) <$> report hm m).
  { intros m. rewrite Hg. unfold baseline. rewrite Hb. cbn.
    destruct (report hm m) as [v|]; [|done]. cbn. by rewrite Qcplus_0_r. }
  destruct (update_deltas_effect g hm Hhm) as (hm' & Hrun' & _ & Hd).
  { intros key Hkey. destruct (report_is_Some hm key Hhm Hkey) as [v Hv].
    rewrite Hg', Hv. cbn. eexists. split; [done|].
    assert (Hv0 : v <> 0) by (intros ->; by apply (Hnz key Hkey)).
    assert (H1 : qz 1 = 1%Qc) by (apply Qc_is_canon; reflexivity).
    assert (Hinv : (/ 1)%Qc = 1%Qc) by (apply Qc_is_canon; reflexivity).
    rewrite H1. unfold Qcdiv. rewrite Hinv, Qcmult_1_r. by apply qz_nonzero. }
  exists g, hm'. split; [done|]. split; [done|]. split; [done|].
  intros m Hm. rewrite Hd. unfold delta_after.
  destruct (report_is_Some hm m Hhm Hm) as [v Hv]. rewrite Hv, Hg', Hv. cbn.
  f_equal. apply deviation_from_itself. intros ->. by apply (Hnz m Hm).
Qed.

(** X19.  Phase (c) leaves the two counters, the global metrics, the
    mitigated hosts, the emitted events and the configuration as they are.
    When it returns, every active host has a global value other than zero
    for each of its metrics, its deltas are
    [abs(1 - report[m] / global_metrics[m])] and the rest of it is as
    before; the object of an inactive host is as before, deltas included,
    however old they are.  When it raises, the exception is [KeyError] or
    [ZeroDivisionError], and some active host has a metric without a global
    value or with the global value zero. *)
Theorem update_host_deltas_updates_active_hosts s :
  wf_detector s ->
  hosts_only s (snd (update_host_deltas s)) /\
  match fst (update_host_deltas s) with
  | Ok _ =>
      Forall2 (fun h h' =>
                 fst h' = fst h /\
                 if is_active (snd h) then
                   comparable (snd h) (global_metrics s) = true /\
                   same_windows (snd h) (snd h') /\
                   forall m, dict_get m (deltas (snd h')) =
                             delta_after (snd h) (global_metrics s) m
                 else snd h' = snd h)
        (host_metrics s) (host_metrics (snd (update_host_deltas s)))
  | Raise e =>
      (e = KeyError \/ e = ZeroDivisionError) /\
      Exists (fun h => is_active (snd h) = true /\
                       comparable (snd h) (global_metrics s) = false)
        (host_metrics s)
  end.
Proof.
  intros [Hnd Hwf]. rewrite list.Forall_forall in Hwf.
  split; [apply update_host_deltas_hosts_only|].
  pose proof (update_host_deltas_loop (global_metrics s) (host_metrics s) [] s
                eq_refl eq_refl Hnd) as Hloop.
  assert (Heq : update_host_deltas s =
    for_each (dict_keys (host_metrics s)) (fun host_id =>
      s <- get ;;
      hm <- getitem host_id (host_metrics s) ;;
      if negb (is_active hm) then ret tt
      else on_host host_id (update_deltas (global_metrics s))) s) by reflexivity.
  rewrite Heq. clear Heq.
  destruct (for_each _ _ s) as [[[]|e] s'] eqn:E; cbn [fst snd].
  - destruct Hloop as (todo' & -> & Hall). cbn [app].
    assert (Hsub : forall h, h ∈ host_metrics s -> wf_host (snd h)) by (intros h Hh; by apply Hwf).
    clear E Hnd Hwf. induction Hall as [|h h' l l' [Hfst Hh] _ IH]; [constructor|].
    constructor.
    + split; [done|]. destruct (is_active (snd h)); [|done].
      assert (Hwfh : wf_host (snd h)) by apply Hsub, list_elem_of_here.
      destruct (comparable (snd h) (global_metrics s)) eqn:Hc.
      * destruct (update_deltas_effect (global_metrics s) (snd h) Hwfh)
          as (hm' & Hrun & Hsame & Hd); [by apply comparable_spec|].
        rewrite Hh in Hrun. injection Hrun as ->. done.
      * destruct (update_deltas_fails (global_metrics s) (snd h) Hwfh)
          as (e & hm' & Hrun & _).
        { intros H. apply comparable_spec in H. congruence. }
        rewrite Hh in Hrun. done.
    + apply IH. intros x Hx. by apply Hsub, list_elem_of_further.
  - apply list.Exists_exists in Hloop as (h & Hin & Hactive & Hrun).
    assert (Hwfh : wf_host (snd h)) by (by apply Hwf).
    destruct (comparable (snd h) (global_metrics s)) eqn:Hc.
    + destruct (update_deltas_effect (global_metrics s) (snd h) Hwfh)
        as (hm' & Hrun' & _); [by apply comparable_spec|].
      rewrite Hrun' in Hrun. done.
    + destruct (update_deltas_fails (global_metrics s) (snd h) Hwfh)
        as (e' & hm' & Hrun' & He & _).
      { intros H. apply comparable_spec in H. congruence. }
      rewrite Hrun' in Hrun. injection Hrun as ->. split; [done|].
      apply list.Exists_exists. by exists h.
Qed.

(** ** [ConfigurationManager] *)

(** X20.  A change of the watched file to a well-formed document builds
    the view: [Mitigation] is [None] unless [EnableMitigation] is true, and
    then holds the two values of [MitigationConfiguration]; [Thresholds] and
    [EventNames] hold the [Value] of every entry of their sections, and the
    [Value] of every [Performance] entry is an option of the view itself.
    One event is emitted, on the topic the view has for
    [ConfigurationReloaded], and its payload is the view. *)
Theorem reload_of_a_well_formed_document file document view topic m :
  loads file (JObject document) ->
  sections_ok document ->
  view_of document = Some view ->
  dict_get "EventNames" view ≫= field "ConfigurationReloaded" = Some (JString topic) ->
  exists m',
    on_modified (config_path m) file m = (Ok tt, m') /\
    mgr_configuration m' = view /\
    mgr_emitted m' = mgr_emitted m ++ [(topic, view)] /\
    config_path m' = config_path m.
Proof.
  intros Hloads Hok Hview Htopic. rewrite on_modified_unfold.
  match goal with |- context [bind _ _ ?m0] =>
    destruct (build_configuration_effect file document view m0 Hloads Hok Hview)
      as (m1 & Hrun & Hv & Hpath & Hemitted)
  end.
  erewrite bind_Ok by exact Hrun.
  erewrite (bind_Ok get) by reflexivity.
  destruct (dict_get "EventNames" view) as [names|] eqn:Hnames; [|done]. cbn in Htopic.
  erewrite bind_Ok by (apply getitem_Ok; by rewrite Hv).
  erewrite bind_Ok by (by apply subscript_field).
  eexists. split; [reflexivity|]. cbn. rewrite Hv, Hemitted, Hpath. done.
Qed.


(** X22.  A document that loads but has no [Thresholds] section does the
    same: the view is replaced by one with the document's [Mitigation] and
    two empty sections, [TypeError] is raised on iterating [None], the
    [Performance] options are gone and nothing is emitted. *)
Theorem document_without_thresholds_empties_the_view file document mitigation m :
  loads file (JObject document) ->
  mitigation_view document = Some mitigation ->
  dict_get "Thresholds" document = None ->
  exists m',
    on_modified (config_path m) file m = (Raise TypeError, m') /\
    mgr_configuration m' =
      [("Mitigation", mitigation); ("Thresholds", JObject []); ("EventNames", JObject [])] /\
    mgr_emitted m' = mgr_emitted m.
Proof.
  intros Hloads Hmit Hmissing. rewrite on_modified_unfold.
  match goal with |- context [bind _ _ ?m0] => set (mstart := m0) end.
  destruct (mitigation_step document mitigation mstart Hmit) as (m1 & Hstep & Hpath & Hemitted).
  erewrite bind_Raise; revgoals.
  { unfold build_configuration.
    rewrite (bind_Ok _ _ _ _ _ (new_JSONParser_loaded _ _ _ Hloads)).
    unfold bind at 1. unfold bind at 1 in Hstep.
    destruct (parser_getitem _ "EnableMitigation" mstart) as [[enable|e] m0]; [|done].
    erewrite bind_Ok by exact Hstep.
    erewrite bind_Ok by reflexivity.
    erewrite bind_Ok by (by apply parser_getitem_missing).
    reflexivity. }
  eexists. split; [reflexivity|]. cbn. split; [reflexivity | exact Hemitted].
Qed.

(** ** [SingletonMeta] *)

(** X23.  A construction that raises registers nothing: the exception
    leaves [__call__], the class still has no instance, and the next call
    constructs again. *)
Theorem failed_construction_registers_nothing cls args p e p1 :
  instance_of cls (_instances p) = None ->
  construct cls args p = (Raise e, p1) ->
  call cls args p = (Raise e, p1) /\
  instance_of cls (_instances p1) = None.
Proof.
  intros Hnone Hrun. unfold call. erewrite (bind_Ok get) by reflexivity. rewrite Hnone.
  rewrite (bind_Raise _ _ _ _ _ Hrun). split; [done|].
  pose proof (construct_same_instances cls args p) as Hs. rewrite Hrun in Hs.
  unfold same_instances in Hs. cbn in Hs. by rewrite Hs.
Qed.

(** X24.  The first construction of the detector with an event manager
    allocates the detector in its initial state, subscribes
    [__update_config] to the topic of [ConfigurationReloaded] and then
    [__update_metrics] to the topic of [SampleEvent], after the handlers the
    event manager has already, and registers the instance. *)
Theorem detector_construction_subscribes_two_handlers c em p handlers :
  instance_of CoResidencyDetector (_instances p) = None ->
  objects p !! em = Some (EventManagerObject handlers) ->
  call CoResidencyDetector (DetectorArguments c em) p =
    (Ok (length (objects p)),
     mkProcess (_instances p ++ [(CoResidencyDetector, length (objects p))])
       (<[em := EventManagerObject
                  (handlers ++
                   [(ConfigurationReloaded (EventNames c),
                     (length (objects p), "__update_config"));
                    (SampleEvent (EventNames c),
                     (length (objects p), "__update_metrics"))])]>
          (objects p ++ [CoResidencyDetectorObject (new_Detector c) em]))).
Proof.
  intros Hnone Hem. unfold call. erewrite (bind_Ok get) by reflexivity. rewrite Hnone.
  erewrite bind_Ok by (by apply construct_detector). reflexivity.
Qed.

(** ** The further properties at concrete inputs *)

Lemma seen_once_wf max_samples : wf_host (seen_once max_samples).
Proof.
  unfold seen_once.
  destruct (new_HostMetrics first_sample max_samples 0 0 true) as [hm|e] eqn:E.
  - by eapply new_HostMetrics_wf.
  - exfalso. destruct (new_HostMetrics_spec first_sample max_samples 0 0 true) as (hm & H & _).
    + apply (bool_decide_unpack _). vm_compute. exact I.
    + congruence.
Qed.

Lemma record_sample_rolls_windows_witness :
  recordable (seen_once 3) next_sample = true /\
  exists hm',
    record_sample next_sample (seen_once 3) = (Ok tt, hm') /\
    current_samples hm' = 2 /\
    windows_of hm' "Cpu" = Some (mkWindows false [qz 10; qz 30] [qz 10; (qz 30 - qz 10)%Qc]).
Proof.
  assert (Hrec : recordable (seen_once 3) next_sample = true) by (vm_compute; reflexivity).
  assert (Hnd : NoDup (dict_keys next_sample)).
  { apply (bool_decide_unpack _). vm_compute. exact I. }
  split; [exact Hrec|].
  destruct (record_sample_rolls_windows (seen_once 3) next_sample (seen_once_wf 3) Hnd Hrec)
    as (hm' & total & Hrun & _ & Hcur & Hwin & _).
  exists hm'. split; [exact Hrun|]. split; [exact Hcur|].
  rewrite Hwin. reflexivity.
Defined.

Lemma record_sample_raises_IndexError_witness :
  known_metrics (seen_once 1) next_sample = true /\
  recordable (seen_once 1) next_sample = false /\
  exists hm', record_sample next_sample (seen_once 1) = (Raise IndexError, hm').
Proof.
  assert (Hknown : known_metrics (seen_once 1) next_sample = true) by (vm_compute; reflexivity).
  assert (Hrec : recordable (seen_once 1) next_sample = false) by (vm_compute; reflexivity).
  assert (Hnd : NoDup (dict_keys next_sample)).
  { apply (bool_decide_unpack _). vm_compute. exact I. }
  split; [exact Hknown|]. split; [exact Hrec|].
  destruct (record_sample_raises_IndexError (seen_once 1) next_sample (seen_once_wf 1)
              Hnd Hknown Hrec) as (hm' & Hrun & _).
  by exists hm'.
Defined.

Lemma second_sample_raises_when_max_samples_is_one_witness :
  exists hm hm',
    new_HostMetrics first_sample 1 0 0 true = Ok hm /\
    record_sample next_sample hm = (Raise IndexError, hm').
Proof.
  apply (second_sample_raises_when_max_samples_is_one first_sample next_sample 0 0 true).
  - apply (bool_decide_unpack _). vm_compute. exact I.
  - apply (bool_decide_unpack _). vm_compute. exact I.
  - apply (bool_decide_unpack _). vm_compute. exact I.
  - discriminate.
  - apply (bool_decide_unpack _). vm_compute. exact I.
Defined.

Lemma third_sample_raises_when_max_samples_is_two_witness :
  exists hm hm1 hm2,
    new_HostMetrics first_sample 2 0 0 true = Ok hm /\
    record_sample [("Cpu", qz 20)] hm = (Ok tt, hm1) /\
    record_sample next_sample hm1 = (Raise IndexError, hm2).
Proof.
  apply (third_sample_raises_when_max_samples_is_two first_sample [("Cpu", qz 20)]
           next_sample 0 0 true).
  - apply (bool_decide_unpack _). vm_compute. exact I.
  - apply (bool_decide_unpack _). vm_compute. exact I.
  - apply (bool_decide_unpack _). vm_compute. exact I.
  - apply (bool_decide_unpack _). vm_compute. exact I.
  - apply (bool_decide_unpack _). vm_compute. exact I.
  - apply (bool_decide_unpack _). vm_compute. exact I.
  - apply (bool_decide_unpack _). vm_compute. exact I.
Defined.

Lemma constructor_windows_and_thresholds_witness :
  exists hm,
    new_HostMetrics first_sample 5 0 0 true = Ok hm /\
    activity_threshold hm = 4 /\
    inactivity_threshold hm = 1 /\
    active hm = false /\
    windows_of hm "Cpu" = Some (first_windows (qz 10)).
Proof.
  assert (Hnd : NoDup (dict_keys first_sample)).
  { apply (bool_decide_unpack _). vm_compute. exact I. }
  pose proof (constructor_windows_and_thresholds first_sample 5 0 0 true Hnd) as H.
  change (dict_get "Activity" first_sample) with (Some (qz 1)) in H.
  destruct H as (hm & Hnew & _ & Hwin & _ & _ & Hat & Hit & _ & _ & Hactive).
  exists hm. split; [exact Hnew|]. split; [exact Hat|]. split; [exact Hit|].
  split; [rewrite Hactive, Hat; by vm_compute | by rewrite Hwin].
Defined.

Lemma reconfigure_drops_oldest_entries_witness :
  shrinkable (Z.to_nat (max_samples (seen_once 3) - 2)) (seen_once 3) = true /\
  exists hm',
    reconfigure 2 0 0 false (seen_once 3) = (Ok tt, hm') /\
    windows_of hm' "Cpu" = Some (mkWindows false [] []) /\
    activity_threshold hm' = 0 /\
    current_samples hm' = 1.
Proof.
  assert (Hs : shrinkable (Z.to_nat (max_samples (seen_once 3) - 2)) (seen_once 3) = true)
    by (vm_compute; reflexivity).
  split; [exact Hs|].
  destruct (reconfigure_drops_oldest_entries 2 0 0 false (seen_once 3) (seen_once_wf 3) Hs)
    as (hm' & Hrun & _ & Hwin & _ & Hat & _ & _ & Hcur & _).
  exists hm'. split; [exact Hrun|]. split; [by rewrite Hwin|]. split; [exact Hat|].
  by rewrite Hcur.
Defined.

Lemma reconfigure_raises_IndexError_witness :
  shrinkable (Z.to_nat (max_samples (seen_once 3) - 1)) (seen_once 3) = false /\
  exists hm',
    reconfigure 1 7 2 false (seen_once 3) = (Raise IndexError, hm') /\
    max_samples hm' = 3 /\
    activity_threshold hm' = 7.
Proof.
  assert (Hs : shrinkable (Z.to_nat (max_samples (seen_once 3) - 1)) (seen_once 3) = false)
    by (vm_compute; reflexivity).
  split; [exact Hs|].
  destruct (reconfigure_raises_IndexError 1 7 2 false (seen_once 3) (seen_once_wf 3) Hs)
    as (hm' & Hrun & Hmax & Hat & _).
  exists hm'. split; [exact Hrun|]. split; [by rewrite Hmax | exact Hat].
Defined.

Lemma update_deltas_sets_deviations_witness :
  comparable (seen_once 3) global_sample = true /\
  exists hm',
    update_deltas global_sample (seen_once 3) = (Ok tt, hm') /\
    dict_get "Cpu" (deltas hm') = Some (deviation 10 (qz 5)).
Proof.
  assert (Hc : comparable (seen_once 3) global_sample = true) by (vm_compute; reflexivity).
  split; [exact Hc|].
  destruct (update_deltas_sets_deviations global_sample (seen_once 3) (seen_once_wf 3) Hc)
    as (hm' & Hrun & _ & Hd).
  exists hm'. split; [exact Hrun|]. rewrite Hd. by vm_compute.
Defined.

Lemma update_deltas_raises_otherwise_witness :
  comparable (seen_once 3) [("Activity", qz 2)] = false /\
  exists e hm',
    update_deltas [("Activity", qz 2)] (seen_once 3) = (Raise e, hm') /\
    (e = KeyError \/ e = ZeroDivisionError).
Proof.
  assert (Hc : comparable (seen_once 3) [("Activity", qz 2)] = false)
    by (vm_compute; reflexivity).
  split; [exact Hc|].
  destruct (update_deltas_raises_otherwise [("Activity", qz 2)] (seen_once 3)
              (seen_once_wf 3) Hc) as (e & hm' & Hrun & He & _).
  by exists e, hm'.
Defined.

Lemma counters_concern_tracked_hosts_witness :
  reachable (snd two_hosts_mitigated) /\
  dict_keys (host_flags (snd two_hosts_mitigated))
    ⊆ dict_keys (host_metrics (snd two_hosts_mitigated)) /\
  Forall (fun hv => 0 <= snd hv) (host_flags (snd two_hosts_mitigated)).
Proof.
  assert (Hreach : reachable (snd two_hosts_mitigated)).
  { apply reachable_handle_all; [apply reachable_new | by vm_compute]. }
  split; [exact Hreach|].
  destruct (counters_concern_tracked_hosts (snd two_hosts_mitigated) Hreach)
    as (Hf & _ & _ & Hf0 & _).
  split; [exact Hf | exact Hf0].
Defined.


Lemma no_mitigation_when_disabled_witness :
  Mitigation (configuration (snd two_hosts_flagged_once)) = None /\
  quiet (snd two_hosts_flagged_once)
    (snd (update_metrics two_hosts_batch (snd two_hosts_flagged_once))).
Proof.
  assert (Hoff : Mitigation (configuration (snd two_hosts_flagged_once)) = None)
    by (vm_compute; reflexivity).
  split; [exact Hoff|].
  apply (no_mitigation_when_disabled two_hosts_batch (snd two_hosts_flagged_once) Hoff).
Defined.

Lemma failed_recording_skips_later_phases_witness :
  record_batch quiet_batch seen_once_with_window_of_one =
    (Raise IndexError, snd (record_batch quiet_batch seen_once_with_window_of_one)) /\
  update_metrics quiet_batch seen_once_with_window_of_one =
    (Raise IndexError, snd (record_batch quiet_batch seen_once_with_window_of_one)) /\
  hosts_only seen_once_with_window_of_one
    (snd (record_batch quiet_batch seen_once_with_window_of_one)).
Proof.
  assert (Hrun : record_batch quiet_batch seen_once_with_window_of_one =
                 (Raise IndexError, snd (record_batch quiet_batch seen_once_with_window_of_one))).
  { vm_compute. reflexivity. }
  split; [exact Hrun|].
  apply (failed_recording_skips_later_phases quiet_batch seen_once_with_window_of_one
           IndexError _ Hrun).
Defined.

Lemma successful_batch_tracks_new_hosts_witness :
  update_metrics batch_with_new_hosts (snd three_batches) =
    (Ok tt, snd (update_metrics batch_with_new_hosts (snd three_batches))) /\
  dict_keys (host_metrics (snd (update_metrics batch_with_new_hosts (snd three_batches)))) =
    ["A"; "B"; "C"].
Proof.
  assert (Hrun : update_metrics batch_with_new_hosts (snd three_batches) =
                 (Ok tt, snd (update_metrics batch_with_new_hosts (snd three_batches)))).
  { vm_compute. reflexivity. }
  assert (Hnd : NoDup (dict_keys batch_with_new_hosts)).
  { apply (bool_decide_unpack _). vm_compute. exact I. }
  split; [exact Hrun|].
  rewrite (successful_batch_tracks_new_hosts batch_with_new_hosts (snd three_batches) _
             Hnd Hrun).
  by vm_compute.
Defined.

Lemma update_config_reconfigures_every_host_witness :
  NoDup (dict_keys (host_metrics (snd three_batches))) /\
  configuration (snd (update_config (quiet_configuration 4) (snd three_batches)))
    = quiet_configuration 4 /\
  same_hosts (snd three_batches)
    (snd (update_config (quiet_configuration 4) (snd three_batches))).
Proof.
  assert (Hnd : NoDup (dict_keys (host_metrics (snd three_batches)))).
  { apply (bool_decide_unpack _). vm_compute. exact I. }
  split; [exact Hnd|].
  destruct (update_config_reconfigures_every_host (quiet_configuration 4)
              (snd three_batches) Hnd) as (Hc & _ & Hsame & _).
  split; [exact Hc | exact Hsame].
Defined.

Lemma first_sample_of_a_host_witness :
  ("B" ∉ dict_keys (host_metrics (snd three_batches))) /\
  fst (record_host "B" [("Cpu", qz 1)] (snd three_batches)) = Raise SystemExit.
Proof.
  assert (Hnew : "B" ∉ dict_keys (host_metrics (snd three_batches))).
  { apply (bool_decide_unpack _). vm_compute. exact I. }
  split; [exact Hnew|].
  destruct (first_sample_of_a_host "B" [("Cpu", qz 1)] (snd three_batches) Hnew)
    as (_ & Hexit & _).
  apply Hexit. apply (bool_decide_unpack _). vm_compute. exact I.
Defined.


Lemma lone_benign_host_has_zero_deltas_witness :
  benign lone_host_recorded = [("A", host_of lone_host_recorded "A")] /\
  exists g hm',
    update_global_metrics lone_host_recorded =
      (Ok tt, set_global_metrics (fun _ => g) lone_host_recorded) /\
    update_deltas g (host_of lone_host_recorded "A") = (Ok tt, hm') /\
    dict_get "Cpu" (deltas hm') = Some (Q2Qc 0).
Proof.
  assert (Hwf : wf_detector lone_host_recorded).
  { apply record_batch_keeps_wf. constructor; cbn; [apply NoDup_nil_2 | constructor]. }
  assert (Hb : benign lone_host_recorded = [("A", host_of lone_host_recorded "A")]).
  { vm_compute. reflexivity. }
  assert (Hnz : Forall (fun m => report (host_of lone_host_recorded "A") m <> Some 0)
                  (dict_keys (metrics (host_of lone_host_recorded "A")))).
  { apply (bool_decide_unpack _). vm_compute. exact I. }
  split; [exact Hb|].
  destruct (lone_benign_host_has_zero_deltas lone_host_recorded "A"
              (host_of lone_host_recorded "A") Hwf Hb Hnz) as (g & hm' & Hg & _ & Hrun & Hd).
  exists g, hm'. split; [exact Hg|]. split; [exact Hrun|].
  apply Hd. apply (bool_decide_unpack _). vm_compute. exact I.
Defined.

Lemma reload_of_a_well_formed_document_witness :
  view_of well_formed_document = Some well_formed_view /\
  exists m',
    on_modified (config_path running_manager) well_formed_file running_manager = (Ok tt, m') /\
    mgr_configuration m' = well_formed_view /\
    mgr_emitted m' = [("ConfigurationReloaded", well_formed_view)].
Proof.
  assert (Hview : view_of well_formed_document = Some well_formed_view) by reflexivity.
  assert (Hloads : loads well_formed_file (JObject well_formed_document)).
  { split; [|split; reflexivity]. apply (bool_decide_unpack _). vm_compute. exact I. }
  assert (Hok : sections_ok well_formed_document).
  { repeat split; apply (bool_decide_unpack _); vm_compute; exact I. }
  split; [exact Hview|].
  destruct (reload_of_a_well_formed_document well_formed_file well_formed_document
              well_formed_view "ConfigurationReloaded" running_manager Hloads Hok Hview
              eq_refl) as (m' & Hrun & Hv & He & _).
  exists m'. split; [exact Hrun|]. split; [exact Hv | exact He].
Defined.


Lemma document_without_thresholds_empties_the_view_witness :
  exists m',
    on_modified (config_path running_manager) file_without_thresholds running_manager
      = (Raise TypeError, m') /\
    mgr_configuration m' = emptied_view /\
    mgr_emitted m' = [].
Proof.
  assert (Hloads : loads file_without_thresholds (JObject document_without_thresholds)).
  { split; [|split; reflexivity]. apply (bool_decide_unpack _). vm_compute. exact I. }
  destruct (document_without_thresholds_empties_the_view file_without_thresholds
              document_without_thresholds JNull running_manager Hloads eq_refl eq_refl)
    as (m' & Hrun & Hv & He).
  exists m'. split; [exact Hrun|]. split; [exact Hv | exact He].
Defined.

Lemma failed_construction_registers_nothing_witness :
  call CoResidencyDetector NoArguments fresh_process = (Raise TypeError, fresh_process) /\
  instance_of CoResidencyDetector (_instances fresh_process) = None.
Proof.
  apply (failed_construction_registers_nothing CoResidencyDetector NoArguments fresh_process
           TypeError fresh_process); reflexivity.
Defined.

Lemma detector_construction_subscribes_two_handlers_witness :
  fst (call CoResidencyDetector (DetectorArguments (quiet_configuration 5) 0%nat)
         process_with_event_manager) = Ok 1%nat /\
  objects (snd (call CoResidencyDetector (DetectorArguments (quiet_configuration 5) 0%nat)
                  process_with_event_manager)) !! 0%nat =
    Some (EventManagerObject
            [("ConfigurationReloaded", (1%nat, "__update_config"));
             ("SampleEvent", (1%nat, "__update_metrics"))]).
Proof.
  rewrite (detector_construction_subscribes_two_handlers (quiet_configuration 5) 0%nat
             process_with_event_manager []); [|reflexivity|reflexivity].
  split; reflexivity.
Defined.

Lemma update_host_deltas_updates_active_hosts_witness :
  wf_detector (snd two_hosts_flagged_once) /\
  hosts_only (snd two_hosts_flagged_once)
    (snd (update_host_deltas (snd two_hosts_flagged_once))).
Proof.
  assert (Hwf : wf_detector (snd two_hosts_flagged_once)).
  { apply reachable_wf, reachable_handle_all; [apply reachable_new | by vm_compute]. }
  split; [exact Hwf|].
  destruct (update_host_deltas_updates_active_hosts (snd two_hosts_flagged_once) Hwf)
    as [Hframe _].
  exact Hframe.
Defined.
